(** * Bank-Management-app: the account and ledger classes of [app.py]

    A shallow embedding of [BankAccount] and [BankingSystem] and the
    verification of their bookkeeping rules.

    Python numbers are modelled as they are: [bool] and [int] are unbounded
    integers, [float] is IEEE-754 binary64 (the Standard Library's
    [SpecFloat], precision 53, exponent bound 1024), mixed arithmetic converts
    the integer operand to a float and raises [OverflowError] when it does not
    fit, and comparisons are by exact mathematical value.  A method that
    mutates [self] is a function from the object before the call to an
    outcome (a returned value or a raised exception) and the object after
    it.  The clock ([datetime.now()], [date.today()]) and the identifier
    generator ([uuid.uuid4()]) are inputs of the call that reads them. *)

From Stdlib Require Import ZArith Lia ZifyBool Bool List String Ascii.
From Stdlib Require Import SpecFloat DecimalString DecimalN.
From stdpp Require Import base gmap strings.

Local Open Scope Z_scope.

(** * The program *)

(** ** Exceptions and outcomes *)

Inductive exn :=
| TypeError (msg : string)
| ValueError (msg : string)
| OverflowError (msg : string).

(** [str(e)] *)
Definition exn_str (e : exn) : string :=
  match e with
  | TypeError msg | ValueError msg | OverflowError msg => msg
  end.

Inductive outcome (A : Type) :=
| Return (a : A)
| Raise (e : exn).
Arguments Return {A} a.
Arguments Raise {A} e.

Definition outcome_bind {A B} (o : outcome A) (k : A → outcome B) : outcome B :=
  match o with
  | Return a => k a
  | Raise e => Raise e
  end.

(** ** Python numbers *)

Module Py.

(** The instances of [int] and [float]; [bool] is a subclass of [int]. *)
Inductive number :=
| PyBool (b : bool)
| PyInt (n : Z)
| PyFloat (x : spec_float).

(** The objects a caller may pass for a balance or an amount. *)
Inductive value :=
| VNum (n : number)
| VStr (s : string)
| VNone.

(** [isinstance(v, (int, float))] *)
Definition isinstance_int_float (v : value) : option number :=
  match v with
  | VNum n => Some n
  | _ => None
  end.

Definition prec : Z := 53.
Definition emax : Z := 1024.

Definition int_of_bool (b : bool) : Z := if b then 1 else 0.

(** Conversion of an [int] operand to [float]: correctly rounded
    (half to even), [OverflowError] beyond the largest double. *)
Definition float_of_int (n : Z) : outcome spec_float :=
  match binary_normalize prec emax n 0 false with
  | S754_infinity _ => Raise (OverflowError "int too large to convert to float")
  | x => Return x
  end.

(** The value [m * 2^e] of a number, or an infinity, or not-a-number. *)
Inductive xnum :=
| XNaN
| XInf (neg : bool)
| XFin (m e : Z).

Definition xnum_of_float (x : spec_float) : xnum :=
  match x with
  | S754_nan => XNaN
  | S754_infinity s => XInf s
  | S754_zero _ => XFin 0 0
  | S754_finite s m e => XFin (cond_Zopp s (Z.pos m)) e
  end.

Definition xnum_of (n : number) : xnum :=
  match n with
  | PyBool b => XFin (int_of_bool b) 0
  | PyInt z => XFin z 0
  | PyFloat x => xnum_of_float x
  end.

(** Comparison by exact value; [None] when an operand is not-a-number,
    and then every ordering test is false. *)
Definition xcompare (a b : xnum) : option comparison :=
  match a, b with
  | XNaN, _ | _, XNaN => None
  | XInf s1, XInf s2 =>
      Some (match s1, s2 with
            | true, false => Lt
            | false, true => Gt
            | _, _ => Eq
            end)
  | XInf s, XFin _ _ => Some (if s then Lt else Gt)
  | XFin _ _, XInf s => Some (if s then Gt else Lt)
  | XFin m1 e1, XFin m2 e2 =>
      let e := Z.min e1 e2 in
      Some (m1 * 2 ^ (e1 - e) ?= m2 * 2 ^ (e2 - e))
  end.

Definition compare (a b : number) : option comparison :=
  xcompare (xnum_of a) (xnum_of b).

(** [a < b], [a <= b], [a > b], [a == b] *)
Definition lt (a b : number) : bool :=
  match compare a b with Some Lt => true | _ => false end.
Definition le (a b : number) : bool :=
  match compare a b with Some (Lt | Eq) => true | _ => false end.
Definition gt (a b : number) : bool :=
  match compare a b with Some Gt => true | _ => false end.
Definition eq (a b : number) : bool :=
  match compare a b with Some Eq => true | _ => false end.

Definition is_float (n : number) : bool :=
  match n with PyFloat _ => true | _ => false end.

Definition int_value (n : number) : Z :=
  match n with
  | PyBool b => int_of_bool b
  | PyInt z => z
  | PyFloat _ => 0
  end.

(** The operand as a [float], for arithmetic with a float and for the
    [f] presentation type. *)
Definition to_float (n : number) : outcome spec_float :=
  match n with
  | PyFloat x => Return x
  | _ => float_of_int (int_value n)
  end.

(** [a + b] *)
Definition add (a b : number) : outcome number :=
  if is_float a || is_float b then
    outcome_bind (to_float a) (λ x,
    outcome_bind (to_float b) (λ y,
    Return (PyFloat (SFadd prec emax x y))))
  else Return (PyInt (int_value a + int_value b)).

(** [a - b] *)
Definition sub (a b : number) : outcome number :=
  if is_float a || is_float b then
    outcome_bind (to_float a) (λ x,
    outcome_bind (to_float b) (λ y,
    Return (PyFloat (SFsub prec emax x y))))
  else Return (PyInt (int_value a - int_value b)).

(** [-a] *)
Definition neg (a : number) : number :=
  match a with
  | PyFloat x => PyFloat (SFopp x)
  | _ => PyInt (- int_value a)
  end.

Definition zero : number := PyInt 0.

End Py.

(** ** Format specifications and [strftime] *)

Module Fmt.

(** Decimal digits of a natural number. *)
Definition dec (n : Z) : string :=
  NilEmpty.string_of_uint (N.to_uint (Z.to_N n)).

(** Two digits, zero padded: [%02d]. *)
Definition pad2 (n : Z) : string :=
  if n <? 10 then "0" +:+ dec n else dec n.

Fixpoint spaces (n : nat) : string :=
  match n with
  | O => ""
  | S k => String " " (spaces k)
  end.

(** [format(s, '<w')] and [format(s, '>w')] with the default fill. *)
Definition ljust (w : nat) (s : string) : string :=
  s +:+ spaces (w - String.length s).
Definition rjust (w : nat) (s : string) : string :=
  spaces (w - String.length s) +:+ s.

(** The integer nearest to [100 * m * 2^e], ties to the even one: the
    digits of a correctly rounded conversion with two decimals. *)
Definition cents (m : positive) (e : Z) : Z :=
  match e with
  | Z.neg p =>
      let d := 2 ^ Z.pos p in
      let q := (100 * Z.pos m) / d in
      let r := (100 * Z.pos m) mod d in
      match 2 * r ?= d with
      | Lt => q
      | Eq => if Z.even q then q else q + 1
      | Gt => q + 1
      end
  | _ => 100 * Z.pos m * 2 ^ e
  end.

(** Hundredths [c] as [ddd.dd]. *)
Definition fixed2 (c : Z) : string :=
  dec (c / 100) +:+ "." +:+ pad2 (c mod 100).

Definition sign (s : bool) : string := if s then "-" else "".

(** [format(x, '.2f')] for a float [x]. *)
Definition float_2f (x : spec_float) : string :=
  match x with
  | S754_nan => "nan"
  | S754_infinity s => sign s +:+ "inf"
  | S754_zero s => sign s +:+ "0.00"
  | S754_finite s m e => sign s +:+ fixed2 (cents m e)
  end.

(** [format(n, '.2f')]: an [int] is converted to [float] first. *)
Definition format_2f (n : Py.number) : outcome string :=
  outcome_bind (Py.to_float n) (λ x, Return (float_2f x)).

(** [format(n, '>8.2f')] *)
Definition format_r8_2f (n : Py.number) : outcome string :=
  outcome_bind (format_2f n) (λ s, Return (rjust 8 s)).

Fixpoint zeros (n : nat) : string :=
  match n with
  | O => ""
  | S k => String "0" (zeros k)
  end.

(** Four digits, zero padded: [%04d]. *)
Definition pad4 (n : Z) : string :=
  zeros (4 - String.length (dec n)) +:+ dec n.

End Fmt.

(** ** Dates and times *)

Record date := { d_year : Z; d_month : Z; d_day : Z }.

Record datetime := {
  year : Z; month : Z; day : Z;
  hour : Z; minute : Z; second : Z; microsecond : Z
}.

(** [dt.strftime('%Y-%m-%d %H:%M:%S')]; [%Y] is the year in decimal
    without padding. *)
Definition strftime_Ymd_HMS (dt : datetime) : string :=
  Fmt.dec (year dt) +:+ "-" +:+ Fmt.pad2 (month dt) +:+ "-" +:+ Fmt.pad2 (day dt)
  +:+ " " +:+ Fmt.pad2 (hour dt) +:+ ":" +:+ Fmt.pad2 (minute dt) +:+ ":"
  +:+ Fmt.pad2 (second dt).

(** [str(d)] for a date [d]: [d.isoformat()], that is
    ['%04d-%02d-%02d' % (year, month, day)]. *)
Definition date_str (d : date) : string :=
  Fmt.pad4 (d_year d) +:+ "-" +:+ Fmt.pad2 (d_month d) +:+ "-"
  +:+ Fmt.pad2 (d_day d).

(** ** Methods that mutate [self] *)

(** A method body: from the object before the call to the outcome and
    the object after it.  A mutation made before an exception is raised
    stays. *)
Definition method (S A : Type) : Type := S → outcome A * S.

Definition ret {S A} (a : A) : method S A := λ self, (Return a, self).
Definition raise {S A} (e : exn) : method S A := λ self, (Raise e, self).
Definition bind {S A B} (m : method S A) (k : A → method S B) : method S B :=
  λ self,
    match m self with
    | (Return a, self') => k a self'
    | (Raise e, self') => (Raise e, self')
    end.
Definition lift {S A} (o : outcome A) : method S A := λ self, (o, self).
Definition read {S A} (f : S → A) : method S A := λ self, (Return (f self), self).
Definition update {S} (f : S → S) : method S unit := λ self, (Return tt, f self).

Declare Scope method_scope.
Delimit Scope method_scope with method.
Notation "'let*' x := m 'in' k" := (bind m (λ x, k))
  (at level 10, x name, m at level 100, k at level 200) : method_scope.
Notation "'do' m 'in' k" := (bind m (λ _, k))
  (at level 10, m at level 100, k at level 200) : method_scope.

(** ** class BankAccount *)

Module Transaction.
(** The dictionary appended by [_add_transaction]. *)
Record t := { timestamp : datetime; type : string; amount : Py.number }.
End Transaction.

Module BankAccount.

Record t := {
  account_number : string;
  account_holder_name : string;
  balance : Py.number;
  account_type : string;
  transactions : list Transaction.t;
  creation_date : date
}.

Definition set_balance (b : Py.number) (self : t) : t :=
  {| account_number := account_number self;
     account_holder_name := account_holder_name self;
     balance := b;
     account_type := account_type self;
     transactions := transactions self;
     creation_date := creation_date self |}.

Definition append_transaction (tx : Transaction.t) (self : t) : t :=
  {| account_number := account_number self;
     account_holder_name := account_holder_name self;
     balance := balance self;
     account_type := account_type self;
     transactions := transactions self ++ [tx];
     creation_date := creation_date self |}.

(** [BankAccount(account_holder_name, initial_balance, account_type)];
    [uuid4] and [today] are what [uuid.uuid4()] and [date.today()]
    return during the call. *)
Definition __init__ (uuid4 : string) (today : date)
    (account_holder_name : string) (initial_balance : Py.value)
    (account_type : string) : outcome t :=
  match Py.isinstance_int_float initial_balance with
  | None => Raise (TypeError "Initial balance must be a number.")
  | Some b =>
      if Py.lt b Py.zero then Raise (ValueError "Initial balance cannot be negative.")
      else Return {| account_number := uuid4;
                     account_holder_name := account_holder_name;
                     balance := b;
                     account_type := account_type;
                     transactions := [];
                     creation_date := today |}
  end.

Local Open Scope method_scope.

(** [now] is what [datetime.now()] returns during the call. *)
Definition _add_transaction (now : datetime) (transaction_type : string)
    (amount : Py.number) : method t unit :=
  update (append_transaction
            {| Transaction.timestamp := now;
               Transaction.type := transaction_type;
               Transaction.amount := amount |}).

Definition deposit (now : datetime) (amount : Py.value) : method t string :=
  match Py.isinstance_int_float amount with
  | None => raise (TypeError "Deposit amount must be a number.")
  | Some a =>
      if Py.le a Py.zero then raise (ValueError "Deposit amount must be positive.")
      else
        let* b := read balance in
        let* b' := lift (Py.add b a) in
        do update (set_balance b') in
        do _add_transaction now "Deposit" a in
        let* sa := lift (Fmt.format_2f a) in
        let* b'' := read balance in
        let* sb := lift (Fmt.format_2f b'') in
        ret ("Deposited $" +:+ sa +:+ ". New balance: $" +:+ sb)
  end.

Definition withdraw (now : datetime) (amount : Py.value) : method t string :=
  match Py.isinstance_int_float amount with
  | None => raise (TypeError "Withdrawal amount must be a number.")
  | Some a =>
      if Py.le a Py.zero then raise (ValueError "Withdrawal amount must be positive.")
      else
        let* b := read balance in
        if Py.gt a b then raise (ValueError "Insufficient funds.")
        else
          let* b' := lift (Py.sub b a) in
          do update (set_balance b') in
          do _add_transaction now "Withdrawal" (Py.neg a) in
          let* sa := lift (Fmt.format_2f a) in
          let* b'' := read balance in
          let* sb := lift (Fmt.format_2f b'') in
          ret ("Withdrew $" +:+ sa +:+ ". New balance: $" +:+ sb)
  end.

Definition get_balance : method t Py.number := read balance.

Definition get_transaction_history : method t (list Transaction.t) :=
  read transactions.

(** One pass of the loop body: the line of a transaction. *)
Definition history_line (transaction : Transaction.t) : outcome string :=
  outcome_bind (Fmt.format_r8_2f (Transaction.amount transaction)) (λ am,
  Return (strftime_Ymd_HMS (Transaction.timestamp transaction) +:+ " - "
          +:+ Fmt.ljust 10 (Transaction.type transaction) +:+ ": $" +:+ am
          +:+ "
")).

(** The [for] loop: [history_text += line] for each transaction in
    list order. *)
Fixpoint history_loop (txs : list Transaction.t) (history_text : string)
    : outcome string :=
  match txs with
  | [] => Return history_text
  | transaction :: rest =>
      outcome_bind (history_line transaction) (λ line,
      history_loop rest (history_text +:+ line))
  end.

(** ["-" * 30] *)
Definition border : string := "------------------------------".

Definition format_transaction_history : method t string :=
  let* txs := read transactions in
  match txs with
  | [] => ret "No transactions yet."
  | _ =>
      let* history_text :=
        lift (history_loop txs (border +:+ "
Transaction History:
" +:+ border +:+ "
")) in
      ret (history_text +:+ border)
  end.

Definition get_account_details : method t string :=
  let* number := read account_number in
  let details := "Account Number: " +:+ number +:+ "
" in
  let* holder := read account_holder_name in
  let details := details +:+ "Account Holder: " +:+ holder +:+ "
" in
  let* type := read account_type in
  let details := details +:+ "Account Type: " +:+ type +:+ "
" in
  let* b := read balance in
  let* sb := lift (Fmt.format_2f b) in
  let details := details +:+ "Balance: $" +:+ sb +:+ "
" in
  let* created := read creation_date in
  let details := details +:+ "Creation Date: " +:+ date_str created +:+ "
" in
  ret details.

End BankAccount.

(** ** class BankingSystem *)

Module BankingSystem.

Record t := { accounts : gmap string BankAccount.t }.

Definition __init__ : t := {| accounts := ∅ |}.

Definition create_account (uuid4 : string) (today : date)
    (account_holder_name : string) (initial_balance : Py.value)
    (account_type : string) : method t string :=
  λ self,
    match BankAccount.__init__ uuid4 today account_holder_name
            initial_balance account_type with
    | Return account =>
        (Return ("Account created successfully. Account number: "
                 +:+ BankAccount.account_number account),
         {| accounts := <[BankAccount.account_number account := account]>
                          (accounts self) |})
    | Raise (TypeError _ as e) | Raise (ValueError _ as e) =>
        (Return ("Account creation failed: " +:+ exn_str e), self)
    | Raise e => (Raise e, self)
    end.

(** [self.accounts.get(account_number)]: [None] for a missing key. *)
Definition get_account (account_number : string)
    : method t (option BankAccount.t) :=
  read (λ self, accounts self !! account_number).

Definition delete_account (account_number : string) : method t string :=
  λ self,
    match accounts self !! account_number with
    | Some _ =>
        (Return ("Account " +:+ account_number +:+ " deleted successfully."),
         {| accounts := delete account_number (accounts self) |})
    | None =>
        (Return ("Account " +:+ account_number +:+ " not found."), self)
    end.

(** The [for] loop of [list_all_accounts] over the pairs that
    [self.accounts.items()] yields. *)
Fixpoint accounts_loop (items : list (string * BankAccount.t))
    (accounts_text : string) : outcome string :=
  match items with
  | [] => Return accounts_text
  | (account_number, account) :: rest =>
      outcome_bind (fst (BankAccount.get_account_details account)) (λ details,
      accounts_loop rest
        (accounts_text +:+ details +:+ BankAccount.border +:+ "
"))
  end.

(** [items] is what [self.accounts.items()] yields: the entries of the
    dictionary in the order it keeps, which is the order of insertion. *)
Definition list_all_accounts (items : list (string * BankAccount.t))
    : method t string :=
  λ self,
    if decide (accounts self = ∅) then
      (Return "No accounts in the system.", self)
    else
      (accounts_loop items (BankAccount.border +:+ "
List of All Accounts:
" +:+ BankAccount.border +:+ "
"), self).

End BankingSystem.

(** ** Clients of the ledger *)

(** What a caller does with a ledger between two observations.  A deposit
    or withdrawal goes through [get_account] and mutates the object the
    ledger holds, so the ledger sees the change; an exception raised by
    the account method reaches the caller and the mutation made before
    it stays. *)
Inductive call :=
| CreateAccount (uuid4 : string) (today : date) (account_holder_name : string)
    (initial_balance : Py.value) (account_type : string)
| DeleteAccount (account_number : string)
| Deposit (account_number : string) (now : datetime) (amount : Py.value)
| Withdraw (account_number : string) (now : datetime) (amount : Py.value).

Definition on_account (account_number : string)
    (m : method BankAccount.t string) (self : BankingSystem.t) : BankingSystem.t :=
  match BankingSystem.accounts self !! account_number with
  | Some account =>
      {| BankingSystem.accounts :=
           <[account_number := snd (m account)]> (BankingSystem.accounts self) |}
  | None => self
  end.

Definition do_call (c : call) (self : BankingSystem.t) : BankingSystem.t :=
  match c with
  | CreateAccount uuid4 today name initial_balance account_type =>
      snd (BankingSystem.create_account uuid4 today name initial_balance
             account_type self)
  | DeleteAccount account_number =>
      snd (BankingSystem.delete_account account_number self)
  | Deposit account_number now amount =>
      on_account account_number (BankAccount.deposit now amount) self
  | Withdraw account_number now amount =>
      on_account account_number (BankAccount.withdraw now amount) self
  end.

Definition do_calls (cs : list call) (self : BankingSystem.t) : BankingSystem.t :=
  fold_left (λ s c, do_call c s) cs self.

(** The identifier a call inserts under, if it inserts. *)
Definition inserts (c : call) (account_number : string) : Prop :=
  match c with
  | CreateAccount uuid4 _ _ _ _ => uuid4 = account_number
  | _ => False
  end.

(** ** The error kinds of the specification *)

(** [InsufficientFunds] is the [ValueError] of line 35; [InvalidArgument]
    is a [TypeError] or any other [ValueError]. *)
Definition is_insufficient_funds (e : exn) : bool :=
  match e with
  | ValueError msg => String.eqb msg "Insufficient funds."
  | _ => false
  end.

Definition is_invalid_argument (e : exn) : bool :=
  match e with
  | TypeError _ => true
  | ValueError msg => negb (String.eqb msg "Insufficient funds.")
  | OverflowError _ => false
  end.

(** An amount [deposit] and [withdraw] reject: not a number, or a number
    that is [<= 0]. *)
Inductive invalid_amount : Py.value → Prop :=
| amount_not_number v : Py.isinstance_int_float v = None → invalid_amount v
| amount_not_positive a : Py.le a Py.zero = true → invalid_amount (Py.VNum a).

(** An initial balance the constructor rejects: not a number, or a number
    that is [< 0]. *)
Inductive invalid_initial_balance : Py.value → Prop :=
| initial_not_number v :
    Py.isinstance_int_float v = None → invalid_initial_balance v
| initial_negative b : Py.lt b Py.zero = true → invalid_initial_balance (Py.VNum b).

(** * Vocabulary of the specification *)

(** ** Reading formatted numbers back *)

(** The number a non-empty string of decimal digits denotes. *)
Definition decimal_value (s : string) : option Z :=
  match s with
  | "" => None
  | _ => option_map (λ u, Z.of_N (N.of_uint u)) (NilEmpty.uint_of_string s)
  end.

(** [s] is a numeral with exactly two decimal places: a minus sign when
    [neg], an integer part, a point and two digits; it denotes [c]
    hundredths. *)
Inductive two_decimals (neg : bool) (c : Z) (s : string) : Prop :=
| two_decimals_intro (ip fp : string) (i f : Z) :
    s = Fmt.sign neg +:+ ip +:+ "." +:+ fp →
    decimal_value ip = Some i →
    String.length fp = 2%nat →
    decimal_value fp = Some f →
    c = 100 * i + f →
    two_decimals neg c s.

(** [c] is the integer nearest to [100 * m * 2^e], the even one when two
    integers are equally near.  Both sides are scaled by [2^k] with
    [k = max 0 (-e)]. *)
Definition nearest_hundredths (m : positive) (e : Z) (c : Z) : Prop :=
  let k := Z.max 0 (- e) in
  let n := 100 * Z.pos m * 2 ^ (e + k) in
  2 * Z.abs (n - c * 2 ^ k) ≤ 2 ^ k
  ∧ (2 * Z.abs (n - c * 2 ^ k) = 2 ^ k → Z.even c = true).

(** The text shows a finite float correctly rounded to two decimals, with
    its sign. *)
Inductive float_shown : spec_float → string → Prop :=
| shown_zero (s : bool) (str : string) :
    two_decimals s 0 str → float_shown (S754_zero s) str
| shown_finite (s : bool) (m : positive) (e c : Z) (str : string) :
    nearest_hundredths m e c → two_decimals s c str →
    float_shown (S754_finite s m e) str.

(** The text shows the number with two decimals; an [int] is shown
    through its conversion to [float]. *)
Definition shown (n : Py.number) (str : string) : Prop :=
  ∃ x, Py.to_float n = Return x ∧ float_shown x str.

Definition is_finite (x : spec_float) : bool :=
  match x with
  | S754_zero _ | S754_finite _ _ _ => true
  | _ => false
  end.

(** The negative floats: those that are [< 0]. *)
Definition negative_float (x : spec_float) : bool :=
  match x with
  | S754_infinity true | S754_finite true _ _ => true
  | _ => false
  end.

(** A finite number within the range of [float]: neither an infinity nor
    not-a-number nor an [int] that [float] cannot hold. *)
Definition finite (n : Py.number) : Prop :=
  ∃ x, Py.to_float n = Return x ∧ is_finite x = true.

(** ** Sequences of account operations *)

Inductive operation :=
| Op_deposit (now : datetime) (amount : Py.value)
| Op_withdraw (now : datetime) (amount : Py.value).

Definition apply_operation (o : operation) : method BankAccount.t string :=
  match o with
  | Op_deposit now amount => BankAccount.deposit now amount
  | Op_withdraw now amount => BankAccount.withdraw now amount
  end.

(** The account after the calls, made one after the other on the same
    object. *)
Definition run (ops : list operation) (self : BankAccount.t) : BankAccount.t :=
  fold_left (λ s o, snd (apply_operation o s)) ops self.

(** Every call of the sequence returns. *)
Fixpoint all_return (ops : list operation) (self : BankAccount.t) : Prop :=
  match ops with
  | [] => True
  | o :: rest =>
      (∃ msg, fst (apply_operation o self) = Return msg)
      ∧ all_return rest (snd (apply_operation o self))
  end.

(** [sum(t['amount'] for t in transactions)], from the [int] 0, left to
    right. *)
Definition sum_amounts (txs : list Transaction.t) : outcome Py.number :=
  fold_left (λ acc t, outcome_bind acc (λ s, Py.add s (Transaction.amount t)))
    txs (Return Py.zero).

(** The balance as accumulated by the methods: each signed amount added to
    the running balance, left to right from the initial balance. *)
Definition accumulate (b0 : Py.number) (txs : list Transaction.t)
    : outcome Py.number :=
  fold_left (λ acc t, outcome_bind acc (λ s, Py.add s (Transaction.amount t)))
    txs (Return b0).

(** The exact sum of the recorded amounts when they are integers. *)
Definition int_sum (txs : list Transaction.t) : Z :=
  fold_right (λ t s, Py.int_value (Transaction.amount t) + s) 0 txs.

Definition operation_amount (o : operation) : Py.value :=
  match o with
  | Op_deposit _ amount | Op_withdraw _ amount => amount
  end.

(** A float as Python holds it: a binary64 datum, whose significand has at
    most 53 bits. *)
Definition float_ok (x : spec_float) : Prop :=
  valid_binary Py.prec Py.emax x = true.

Definition number_ok (n : Py.number) : Prop :=
  match n with
  | Py.PyFloat x => float_ok x
  | _ => True
  end.

Definition value_ok (v : Py.value) : Prop :=
  match v with
  | Py.VNum n => number_ok n
  | _ => True
  end.

Definition integral (v : Py.value) : Prop :=
  match v with
  | Py.VNum n => Py.is_float n = false
  | _ => True
  end.

(** ** The claims as the specification words them *)

(** C1 as stated, for the account constructed with [initial_balance] and
    taken through the calls [ops], all of which return: the balance is not
    negative and equals the initial balance plus the sum of the recorded
    amounts. *)
Definition balance_claim (uuid4 : string) (today : date) (name : string)
    (initial_balance : Py.value) (account_type : string)
    (ops : list operation) : Prop :=
  ∀ self0,
    BankAccount.__init__ uuid4 today name initial_balance account_type
    = Return self0 →
    all_return ops self0 →
    Py.lt (BankAccount.balance (run ops self0)) Py.zero = false
    ∧ ∃ s total,
        sum_amounts (BankAccount.transactions (run ops self0)) = Return s
        ∧ Py.add (BankAccount.balance self0) s = Return total
        ∧ Py.eq (BankAccount.balance (run ops self0)) total = true.

(** C3 as stated, at one account and amount. *)
Definition deposit_claim (now : datetime) (self : BankAccount.t) (a : Py.number)
    : Prop :=
  Py.gt a Py.zero = true →
  ∃ b' sa sb,
    BankAccount.deposit now (Py.VNum a) self
    = (Return ("Deposited $" +:+ sa +:+ ". New balance: $" +:+ sb),
       BankAccount.append_transaction
         {| Transaction.timestamp := now;
            Transaction.type := "Deposit";
            Transaction.amount := a |}
         (BankAccount.set_balance b' self))
    ∧ Py.add (BankAccount.balance self) a = Return b'
    ∧ shown a sa ∧ shown b' sb.

(** C2 as stated, at one account and amount. *)
Definition withdraw_claim (now : datetime) (self : BankAccount.t) (a : Py.number)
    : Prop :=
  Py.gt a Py.zero = true →
  Py.le a (BankAccount.balance self) = true →
  ∃ b' sa sb,
    BankAccount.withdraw now (Py.VNum a) self
    = (Return ("Withdrew $" +:+ sa +:+ ". New balance: $" +:+ sb),
       BankAccount.append_transaction
         {| Transaction.timestamp := now;
            Transaction.type := "Withdrawal";
            Transaction.amount := Py.neg a |}
         (BankAccount.set_balance b' self))
    ∧ Py.sub (BankAccount.balance self) a = Return b'
    ∧ shown a sa ∧ shown b' sb.

(** ** The layout of the transaction history *)

(** A reading of the clock: a calendar date with a four-digit year and a
    time of day. *)
Definition clock_reading (dt : datetime) : Prop :=
  1000 ≤ year dt ≤ 9999 ∧ 1 ≤ month dt ≤ 12 ∧ 1 ≤ day dt ≤ 31
  ∧ 0 ≤ hour dt ≤ 23 ∧ 0 ≤ minute dt ≤ 59 ∧ 0 ≤ second dt ≤ 59.

(** A field of exactly [w] digits denoting [n]. *)
Definition digits_field (w : nat) (n : Z) (s : string) : Prop :=
  String.length s = w ∧ decimal_value s = Some n.

(** The text [YYYY-MM-DD HH:MM:SS] of a date and time. *)
Inductive timestamp_text (dt : datetime) (s : string) : Prop :=
| timestamp_text_intro (Y M D h m sec : string) :
    s = Y +:+ "-" +:+ M +:+ "-" +:+ D +:+ " " +:+ h +:+ ":" +:+ m +:+ ":" +:+ sec →
    digits_field 4 (year dt) Y →
    digits_field 2 (month dt) M →
    digits_field 2 (day dt) D →
    digits_field 2 (hour dt) h →
    digits_field 2 (minute dt) m →
    digits_field 2 (second dt) sec →
    timestamp_text dt s.

(** [field] is [text] left-aligned (right-aligned) in a column of width
    [w]: padded with spaces on the other side, and not truncated. *)
Definition left_aligned (w : nat) (text field : string) : Prop :=
  ∃ n, field = text +:+ Fmt.spaces n
       ∧ String.length field = Nat.max w (String.length text).

Definition right_aligned (w : nat) (text field : string) : Prop :=
  ∃ n, field = Fmt.spaces n +:+ text
       ∧ String.length field = Nat.max w (String.length text).

(** The line of the history that lists a transaction. *)
Inductive history_line_of (t : Transaction.t) (line : string) : Prop :=
| history_line_intro (ts ty am body : string) :
    line = ts +:+ " - " +:+ ty +:+ ": $" +:+ am +:+ "
" →
    timestamp_text (Transaction.timestamp t) ts →
    left_aligned 10 (Transaction.type t) ty →
    shown (Transaction.amount t) body →
    right_aligned 8 body am →
    (Py.lt (Transaction.amount t) Py.zero = true →
     ∃ digits, body = "-" +:+ digits) →
    history_line_of t line.

Fixpoint join (lines : list string) : string :=
  match lines with
  | [] => ""
  | line :: rest => line +:+ join rest
  end.

(** C9 as stated, at one account. *)
Definition history_claim (self : BankAccount.t) : Prop :=
  match BankAccount.transactions self with
  | [] =>
      BankAccount.format_transaction_history self
      = (Return "No transactions yet.", self)
  | txs =>
      ∃ lines,
        BankAccount.format_transaction_history self
        = (Return (BankAccount.border +:+ "
Transaction History:
" +:+ BankAccount.border +:+ "
" +:+ join lines +:+ BankAccount.border), self)
        ∧ Forall2 history_line_of txs lines
  end.

(** What the history needs of a recorded transaction. *)
Definition listable (t : Transaction.t) : Prop :=
  clock_reading (Transaction.timestamp t) ∧ finite (Transaction.amount t).

(** The significand fits the 53 bits of a double. *)
Definition mantissa_ok (x : spec_float) : Prop :=
  match x with
  | S754_finite _ m _ => Z.pos (digits2_pos m) ≤ Py.prec
  | _ => True
  end.

Definition number_mantissa_ok (n : Py.number) : Prop :=
  match n with
  | Py.PyFloat x => mantissa_ok x
  | _ => True
  end.

(** The double an integer [z > 0] converts to: [z] itself when it has at
    most 53 bits; otherwise, with [n] the number of bits dropped, one of
    the neighbours [(z / 2^n) * 2^n] and [(z / 2^n + 1) * 2^n], the upper
    one only when bits that are dropped are set. *)
Inductive rounds_to (z : Z) : spec_float → Prop :=
| rounds_exact (m : positive) (e : Z) :
    e ≤ 0 → Z.pos m = z * 2 ^ (- e) →
    rounds_to z (S754_finite false m e)
| rounds_inexact (m : positive) (e n m1 : Z) :
    0 < n ≤ e →
    Z.pos m * 2 ^ (e - n) = m1 →
    2 ^ 52 ≤ z / 2 ^ n →
    m1 = z / 2 ^ n ∨ (m1 = z / 2 ^ n + 1 ∧ z mod 2 ^ n ≠ 0) →
    rounds_to z (S754_finite false m e).

(** ** The invariant of an account *)

(** What every call keeps, for an account whose initial balance was [b0]:
    the balance is not negative, it is a well-formed number, and it is the
    initial balance with the recorded amounts added one after the
    other. *)
Definition account_inv (b0 : Py.number) (self : BankAccount.t) : Prop :=
  Py.lt (BankAccount.balance self) Py.zero = false
  ∧ number_mantissa_ok (BankAccount.balance self)
  ∧ accumulate b0 (BankAccount.transactions self)
    = Return (BankAccount.balance self).

(** With integers only, the balance is an integer: the initial one plus
    the exact sum of the recorded amounts. *)
Definition integer_inv (z0 : Z) (self : BankAccount.t) : Prop :=
  Py.is_float (BankAccount.balance self) = false
  ∧ Py.int_value (BankAccount.balance self)
    = z0 + int_sum (BankAccount.transactions self).

(** ** Calls and what they record *)

Definition operation_now (o : operation) : datetime :=
  match o with
  | Op_deposit now _ | Op_withdraw now _ => now
  end.

(** A number that converts to [float]: every float, and every [int]
    that is not too large. *)
Definition convertible (n : Py.number) : Prop :=
  ∃ x, Py.to_float n = Return x.

(** A transaction as [deposit] and [withdraw] record them: a Deposit
    whose amount is not [<= 0], or a Withdrawal whose amount is not
    [>= 0]. *)
Definition well_signed (t : Transaction.t) : Prop :=
  (Transaction.type t = "Deposit"
   ∧ Py.le (Transaction.amount t) Py.zero = false)
  ∨ (Transaction.type t = "Withdrawal"
     ∧ Py.le Py.zero (Transaction.amount t) = false).

Definition not_a_number : Py.number := Py.PyFloat S754_nan.

(** The arguments of a call are data Python can hold. *)
Definition call_ok (c : call) : Prop :=
  match c with
  | CreateAccount _ _ _ initial_balance _ => value_ok initial_balance
  | DeleteAccount _ => True
  | Deposit _ _ amount | Withdraw _ _ amount => value_ok amount
  end.

(** What the calls of a sequence return or raise, in call order. *)
Fixpoint outcomes (ops : list operation) (self : BankAccount.t)
    : list (outcome string) :=
  match ops with
  | [] => []
  | o :: rest =>
      fst (apply_operation o self) :: outcomes rest (snd (apply_operation o self))
  end.

(** The call returned, or raised one of the two error kinds of the
    specification. *)
Definition documented (r : outcome string) : Prop :=
  match r with
  | Return _ => True
  | Raise e => is_invalid_argument e = true ∨ is_insufficient_funds e = true
  end.

(** An argument that is a [float], or no number at all. *)
Definition no_integer (v : Py.value) : Prop :=
  match v with
  | Py.VNum n => Py.is_float n = true
  | _ => True
  end.

(** The one exception arithmetic and formatting can raise. *)
Definition overflow_error : exn :=
  OverflowError "int too large to convert to float".

(** ** The layout of the account details *)

(** A date as [datetime.date] holds it. *)
Definition calendar_date (d : date) : Prop :=
  1 ≤ d_year d ≤ 9999 ∧ 1 ≤ d_month d ≤ 12 ∧ 1 ≤ d_day d ≤ 31.

(** The text [YYYY-MM-DD] of a date. *)
Inductive iso_date_text (d : date) (s : string) : Prop :=
| iso_date_text_intro (Y M D : string) :
    s = Y +:+ "-" +:+ M +:+ "-" +:+ D →
    digits_field 4 (d_year d) Y →
    digits_field 2 (d_month d) M →
    digits_field 2 (d_day d) D →
    iso_date_text d s.

(** ** The order of a dictionary *)

(** The keys of [self.accounts] in the order the dictionary yields them,
    after a call: a new key goes to the end, a key that is assigned again
    keeps its place, [del] takes the key out; a deposit or withdrawal
    assigns nothing. *)
Definition keys_after_call (c : call) (self : BankingSystem.t)
    (keys : list string) : list string :=
  match c with
  | CreateAccount uuid4 today name initial_balance account_type =>
      match BankAccount.__init__ uuid4 today name initial_balance
              account_type with
      | Return account =>
          match BankingSystem.accounts self
                !! BankAccount.account_number account with
          | Some _ => keys
          | None => keys ++ [BankAccount.account_number account]
          end
      | Raise _ => keys
      end
  | DeleteAccount account_number =>
      filter (λ k, k ≠ account_number) keys
  | Deposit _ _ _ | Withdraw _ _ _ => keys
  end.

Fixpoint keys_after_calls (cs : list call) (self : BankingSystem.t)
    (keys : list string) : list string :=
  match cs with
  | [] => keys
  | c :: rest =>
      keys_after_calls rest (do_call c self) (keys_after_call c self keys)
  end.

(** [list(self.accounts.items())] for a dictionary whose keys come in the
    order [keys]. *)
Definition dict_items (keys : list string) (self : BankingSystem.t)
    : list (string * BankAccount.t) :=
  omap (λ k, (λ account, (k, account)) <$> BankingSystem.accounts self !! k)
    keys.

(** The identifiers of the accounts the calls constructed, in call
    order. *)
Definition created_ids (cs : list call) : list string :=
  omap (λ c,
          match c with
          | CreateAccount uuid4 today name initial_balance account_type =>
              match BankAccount.__init__ uuid4 today name initial_balance
                      account_type with
              | Return account => Some (BankAccount.account_number account)
              | Raise _ => None
              end
          | _ => None
          end) cs.

(** The block that [list_all_accounts] writes for an entry: the details
    of the account and a border line. *)
Definition block_of (item : string * BankAccount.t) (block : string) : Prop :=
  ∃ details,
    fst (BankAccount.get_account_details (snd item)) = Return details
    ∧ block = details +:+ BankAccount.border +:+ "
".

(** ** Calls on the accounts of a ledger *)


(** ** The page script *)

(** Lines 107 to 191: the statements the module runs when it is loaded.
    What the widgets return is an input of the run; what [st.title],
    [st.subheader], [st.success], [st.warning] and [st.text] are given is
    its output. *)
Module App.

Inductive element :=
| Title (body : string)
| Subheader (body : string)
| Success (body : string)
| Warning (body : string)
| Text (body : string).

(** What the widgets return during one run. *)
Record widgets := {
  choice : string;               (* st.sidebar.selectbox("Menu", menu) *)
  account_holder_name : string;  (* st.text_input("Account Holder Name") *)
  initial_balance : Py.value;    (* st.number_input("Initial Balance", ...) *)
  account_type : string;         (* st.selectbox("Account Type", ...) *)
  account_number : string;       (* st.text_input("Account Number") *)
  amount : Py.value;             (* st.number_input("Amount", ...) *)
  button : bool                  (* st.button(...) of the branch taken *)
}.

(** What [uuid.uuid4()], [datetime.now().date()] and [datetime.now()]
    return during the run. *)
Record clock := { uuid4 : string; today : date; now : datetime }.

(** The module variable [banking_system] and the page written so far. *)
Record session := {
  banking_system : BankingSystem.t;
  page : list element
}.

Local Open Scope method_scope.

Definition st (e : element) : method session unit :=
  update (λ s, {| banking_system := banking_system s;
                  page := page s ++ [e] |}).

(** A method of [banking_system]. *)
Definition on_system {A} (m : method BankingSystem.t A) : method session A :=
  λ s,
    (fst (m (banking_system s)),
     {| banking_system := snd (m (banking_system s)); page := page s |}).

(** A method of the account that [get_account] returned: the object is
    the one the dictionary holds, so what the method does to it shows in
    [banking_system], also when the method raises. *)
Definition on_object {A} (account_number : string) (account : BankAccount.t)
    (m : method BankAccount.t A) : method session A :=
  λ s,
    (fst (m account),
     {| banking_system :=
          {| BankingSystem.accounts :=
               <[account_number := snd (m account)]>
                 (BankingSystem.accounts (banking_system s)) |};
        page := page s |}).

(** [account = banking_system.get_account(account_number)] and the
    [if account:] that follows; an account object is true, [None] is
    false. *)
Definition with_account (account_number : string)
    (found : BankAccount.t → method session unit) : method session unit :=
  let* account := on_system (BankingSystem.get_account account_number) in
  match account with
  | Some account => found account
  | None => st (Warning "Account not found.")
  end.

(** Lines 109 to 191; [keys] is the order of the keys of
    [banking_system.accounts] when the run reaches them. *)
Definition body (w : widgets) (c : clock) (keys : list string)
    : method session unit :=
  do st (Title "Banking System") in
  if String.eqb (choice w) "Create Account" then
    do st (Subheader "Create Account") in
    if button w then
      let* message :=
        on_system (BankingSystem.create_account (uuid4 c) (today c)
                     (account_holder_name w) (initial_balance w)
                     (account_type w)) in
      st (Success message)
    else ret tt
  else if String.eqb (choice w) "Deposit" then
    do st (Subheader "Deposit") in
    if button w then
      with_account (account_number w) (λ account,
        let* message :=
          on_object (account_number w) account
            (BankAccount.deposit (now c) (amount w)) in
        st (Success message))
    else ret tt
  else if String.eqb (choice w) "Withdraw" then
    do st (Subheader "Withdraw") in
    if button w then
      with_account (account_number w) (λ account,
        let* message :=
          on_object (account_number w) account
            (BankAccount.withdraw (now c) (amount w)) in
        st (Success message))
    else ret tt
  else if String.eqb (choice w) "Check Balance" then
    do st (Subheader "Check Balance") in
    if button w then
      with_account (account_number w) (λ account,
        let* balance :=
          on_object (account_number w) account BankAccount.get_balance in
        let* shown := lift (Fmt.format_2f balance) in
        st (Success ("Current balance: $" +:+ shown)))
    else ret tt
  else if String.eqb (choice w) "Account Details" then
    do st (Subheader "Account Details") in
    if button w then
      with_account (account_number w) (λ account,
        let* details :=
          on_object (account_number w) account
            BankAccount.get_account_details in
        st (Text details))
    else ret tt
  else if String.eqb (choice w) "Transaction History" then
    do st (Subheader "Transaction History") in
    if button w then
      with_account (account_number w) (λ account,
        let* history_text :=
          on_object (account_number w) account
            BankAccount.format_transaction_history in
        st (Text history_text))
    else ret tt
  else if String.eqb (choice w) "List All Accounts" then
    do st (Subheader "List All Accounts") in
    if button w then
      let* accounts_text :=
        λ s, on_system (BankingSystem.list_all_accounts
                          (dict_items keys (banking_system s))) s in
      st (Text accounts_text)
    else ret tt
  else if String.eqb (choice w) "Delete Account" then
    do st (Subheader "Delete Account") in
    if button w then
      let* message :=
        on_system (BankingSystem.delete_account (account_number w)) in
      st (Success message)
    else ret tt
  else ret tt.

(** The whole script: line 107 makes a new ledger, then the body runs. *)
Definition script (w : widgets) (c : clock) : outcome unit * session :=
  body w c [] {| banking_system := BankingSystem.__init__; page := [] |}.

(** The choices that look an account up before they act. *)
Definition account_choices : list string :=
  ["Deposit"; "Withdraw"; "Check Balance"; "Account Details";
   "Transaction History"].

End App.

(** ** Sample inputs *)

Definition sample_now : datetime :=
  {| year := 2024; month := 3; day := 7;
     hour := 9; minute := 5; second := 0; microsecond := 0 |}.

Definition sample_today : date := {| d_year := 2024; d_month := 3; d_day := 7 |}.

Definition sample_account (b : Py.number) : BankAccount.t :=
  {| BankAccount.account_number := "c0ffee";
     BankAccount.account_holder_name := "Alice";
     BankAccount.balance := b;
     BankAccount.account_type := "Savings";
     BankAccount.transactions := [];
     BankAccount.creation_date := sample_today |}.


Definition sample_ledger : BankingSystem.t :=
  {| BankingSystem.accounts :=
       <["c0ffee" := sample_account (Py.PyInt 120)]>
         {["beef" := sample_account (Py.PyInt 7)]} |}.

(** The doubles [1.0], [1e16] and [1e308]. *)
Definition float_1 : spec_float := S754_finite false 4503599627370496 (-52).
Definition float_1e16 : spec_float := S754_finite false 5000000000000000 1.
Definition float_1e308 : spec_float := S754_finite false 5010420900022432 971.

(** The account after a deposit of 50 and a withdrawal of 30.0 on a
    balance of 100. *)
Definition sample_history : BankAccount.t :=
  run [Op_deposit sample_now (Py.VNum (Py.PyInt 50));
       Op_withdraw sample_now
         (Py.VNum (Py.PyFloat (S754_finite false 8444249301319680 (-48))))]
    (sample_account (Py.PyInt 100)).

(** A deposit, a withdrawal, and a withdrawal that is refused. *)
Definition sample_ops : list operation :=
  [Op_deposit sample_now (Py.VNum (Py.PyInt 50));
   Op_withdraw sample_now (Py.VNum (Py.PyInt 30));
   Op_withdraw sample_now (Py.VNum (Py.PyInt 1000))].

(** Three accounts are opened, two are used, one of these is closed, and
    one creation is refused. *)
Definition sample_calls : list call :=
  [CreateAccount "a11" sample_today "Alice" (Py.VNum (Py.PyInt 100)) "Savings";
   CreateAccount "b22" sample_today "Bob" (Py.VNum (Py.PyInt 5)) "Checking";
   Deposit "a11" sample_now (Py.VNum (Py.PyInt 50));
   Deposit "b22" sample_now (Py.VNum (Py.PyInt 20));
   CreateAccount "d44" sample_today "Dan" (Py.VNum (Py.PyInt (-1))) "Savings";
   DeleteAccount "a11";
   CreateAccount "c33" sample_today "Carol" (Py.VNum (Py.PyInt 0)) "Savings"].

(** The entries of [sample_ledger] in the order of insertion. *)
Definition sample_items : list (string * BankAccount.t) :=
  [("beef", sample_account (Py.PyInt 7));
   ("c0ffee", sample_account (Py.PyInt 120))].

(** The account that [sample_calls] leave under ["b22"]. *)
Definition sample_stored : BankAccount.t :=
  {| BankAccount.account_number := "b22";
     BankAccount.account_holder_name := "Bob";
     BankAccount.balance := Py.PyInt 25;
     BankAccount.account_type := "Checking";
     BankAccount.transactions :=
       [{| Transaction.timestamp := sample_now;
           Transaction.type := "Deposit";
           Transaction.amount := Py.PyInt 20 |}];
     BankAccount.creation_date := sample_today |}.

(** A run in which a deposit of 50 into ["c0ffee"] is asked for. *)
Definition sample_widgets : App.widgets :=
  {| App.choice := "Deposit";
     App.account_holder_name := "";
     App.initial_balance := Py.VNum (Py.PyFloat (S754_zero false));
     App.account_type := "Savings";
     App.account_number := "c0ffee";
     App.amount := Py.VNum (Py.PyInt 50);
     App.button := true |}.

Definition sample_clock : App.clock :=
  {| App.uuid4 := "c0ffee"; App.today := sample_today; App.now := sample_now |}.

(** * Binary64 arithmetic *)

(** ** Digits and shifts *)

Lemma digits2_pos_size (p : positive) : digits2_pos p = Pos.size p.
Proof. induction p as [p IH|p IH|]; simpl; by rewrite ?IH. Qed.

Lemma digits2_pos_bounds (p : positive) :
  2 ^ (Z.pos (digits2_pos p) - 1) ≤ Z.pos p < 2 ^ Z.pos (digits2_pos p).
Proof.
  rewrite digits2_pos_size. split.
  - pose proof (Pos.size_le p) as H.
    assert (2 ^ Z.pos (Pos.size p) ≤ 2 * Z.pos p) as H2.
    { rewrite <- Pos2Z.inj_pow. change (2 * Z.pos p) with (Z.pos p~0). lia. }
    replace (Z.pos (Pos.size p)) with (Z.succ (Z.pos (Pos.size p) - 1)) in H2 by lia.
    rewrite Z.pow_succ_r in H2 by lia. lia.
  - pose proof (Pos.size_gt p) as H. rewrite <- Pos2Z.inj_pow. lia.
Qed.

Lemma Zdigits2_nonneg (m : Z) : 0 ≤ Zdigits2 m.
Proof. destruct m; simpl; lia. Qed.

Lemma Zdigits2_le (m k : Z) : 0 ≤ m → 0 ≤ k → m < 2 ^ k → Zdigits2 m ≤ k.
Proof.
  intros Hm Hk Hlt. destruct m as [|p|p]; simpl; [lia| |lia].
  destruct (Z.le_gt_cases (Z.pos (digits2_pos p)) k) as [|Hgt]; [done|].
  pose proof (digits2_pos_bounds p) as [Hlo _].
  assert (2 ^ k ≤ 2 ^ (Z.pos (digits2_pos p) - 1)) by (apply Z.pow_le_mono_r; lia).
  lia.
Qed.

Lemma iter_pos_nat {A : Type} (f : A → A) (p : positive) (x : A) :
  SpecFloat.iter_pos f p x = Nat.iter (Pos.to_nat p) f x.
Proof.
  revert x. induction p as [p IH|p IH|]; intros x.
  - change (SpecFloat.iter_pos f p~1 x)
      with (SpecFloat.iter_pos f p (SpecFloat.iter_pos f p (f x))).
    rewrite !IH, Pos2Nat.inj_xI.
    replace (S (2 * Pos.to_nat p)) with (Pos.to_nat p + (Pos.to_nat p + 1))%nat
      by lia.
    by rewrite !Nat.iter_add.
  - change (SpecFloat.iter_pos f p~0 x)
      with (SpecFloat.iter_pos f p (SpecFloat.iter_pos f p x)).
    rewrite !IH, Pos2Nat.inj_xO.
    replace (2 * Pos.to_nat p)%nat with (Pos.to_nat p + Pos.to_nat p)%nat by lia.
    by rewrite Nat.iter_add.
  - done.
Qed.

Lemma shr_1_m (r : shr_record) : 0 ≤ shr_m r → shr_m (shr_1 r) = shr_m r / 2.
Proof.
  destruct r as [m r s]. simpl. intros Hm.
  destruct m as [|[p|p|]|p]; simpl; try done; try lia.
  - rewrite Pos2Z.inj_xI. apply (Z.div_unique _ _ _ 1); lia.
  - rewrite Pos2Z.inj_xO. apply (Z.div_unique _ _ _ 0); lia.
Qed.

Lemma iter_shr_1_m (n : nat) (r : shr_record) :
  0 ≤ shr_m r → shr_m (Nat.iter n shr_1 r) = shr_m r / 2 ^ Z.of_nat n.
Proof.
  intros Hm. induction n as [|n IH].
  - simpl. by rewrite Z.div_1_r.
  - rewrite Nat2Z.inj_succ, Z.pow_succ_r by lia. simpl.
    rewrite shr_1_m.
    + rewrite IH. rewrite Z.div_div; [|lia..]. f_equal. lia.
    + rewrite IH. apply Z.div_pos; lia.
Qed.

Lemma shr_m_of_loc (m : Z) (l : location) : shr_m (shr_record_of_loc m l) = m.
Proof. by destruct l as [|[]]. Qed.

(** After the shift that [shr_fexp] makes the significand has at most
    [prec] bits. *)
Lemma shr_fexp_digits (m e : Z) (l : location) :
  0 ≤ m →
  0 ≤ shr_m (fst (shr_fexp Py.prec Py.emax m e l))
  ∧ Zdigits2 (shr_m (fst (shr_fexp Py.prec Py.emax m e l))) ≤ Py.prec.
Proof.
  intros Hm. unfold shr_fexp, shr.
  set (d := Zdigits2 m).
  assert (d + e - Py.prec ≤ fexp Py.prec Py.emax (d + e)) as Hfexp
    by (unfold fexp; lia).
  destruct (fexp Py.prec Py.emax (d + e) - e) as [|n|n] eqn:En; simpl.
  - rewrite shr_m_of_loc. split; [done|]. fold d. lia.
  - rewrite iter_pos_nat, iter_shr_1_m by (by rewrite shr_m_of_loc).
    rewrite shr_m_of_loc, positive_nat_Z.
    assert (0 < 2 ^ Z.pos n) by (apply Z.pow_pos_nonneg; lia).
    split; [apply Z.div_pos; lia|].
    apply Zdigits2_le; [apply Z.div_pos; lia|done|].
    apply Z.div_lt_upper_bound; [lia|].
    destruct m as [|p|p]; [unfold Py.prec; lia| |lia].
    pose proof (digits2_pos_bounds p) as [_ Hhi]. simpl in d.
    assert (2 ^ Z.pos (digits2_pos p) ≤ 2 ^ (Z.pos n + Py.prec)) as Hpow
      by (apply Z.pow_le_mono_r; unfold d in *; lia).
    rewrite Z.pow_add_r in Hpow by (unfold Py.prec; lia). lia.
  - rewrite shr_m_of_loc. split; [done|]. fold d. lia.
Qed.

Lemma round_nearest_even_nonneg (m : Z) (l : location) :
  0 ≤ m → 0 ≤ round_nearest_even m l.
Proof.
  intros Hm. destruct l as [|[]]; simpl; try done; [destruct (Z.even m)|]; lia.
Qed.

(** ** Rounded results *)

Lemma binary_round_aux_mantissa_ok (s : bool) (m e : Z) (l : location) :
  0 ≤ m → mantissa_ok (binary_round_aux Py.prec Py.emax s m e l).
Proof.
  intros Hm. unfold binary_round_aux.
  pose proof (shr_fexp_digits m e l Hm) as [Hm1 _].
  destruct (shr_fexp Py.prec Py.emax m e l) as [mrs' e'].
  simpl in Hm1.
  pose proof (shr_fexp_digits
                (round_nearest_even (shr_m mrs') (loc_of_shr_record mrs')) e'
                loc_Exact (round_nearest_even_nonneg _ _ Hm1)) as [_ Hd].
  destruct (shr_fexp Py.prec Py.emax _ e' loc_Exact) as [mrs'' e''].
  simpl in Hd.
  destruct (shr_m mrs'') as [|m''|m'']; [done| |done].
  by destruct (e'' <=? Py.emax - Py.prec).
Qed.

Lemma binary_normalize_mantissa_ok (m e : Z) (szero : bool) :
  mantissa_ok (binary_normalize Py.prec Py.emax m e szero).
Proof.
  unfold binary_normalize, binary_round.
  destruct m as [|p|p]; [done|..];
    destruct (shl_align _ _ _) as [mz ez];
    by apply binary_round_aux_mantissa_ok.
Qed.

Lemma binary_round_aux_sign (s : bool) (m e : Z) (l : location) :
  match binary_round_aux Py.prec Py.emax s m e l with
  | S754_zero s' | S754_infinity s' | S754_finite s' _ _ => s' = s
  | S754_nan => True
  end.
Proof.
  unfold binary_round_aux.
  destruct (shr_fexp _ _ _ _ _) as [mrs' e'].
  destruct (shr_fexp _ _ _ _ _) as [mrs'' e''].
  by destruct (shr_m mrs'') as [|m''|m'']; [|destruct (_ <=? _)|].
Qed.

Lemma binary_normalize_nonneg (m e : Z) :
  0 ≤ m → negative_float (binary_normalize Py.prec Py.emax m e false) = false.
Proof.
  intros Hm. unfold binary_normalize, binary_round.
  destruct m as [|p|p]; [done| |lia].
  destruct (shl_align _ _ _) as [mz ez].
  pose proof (binary_round_aux_sign false (Z.pos mz) ez loc_Exact) as Hs.
  by destruct (binary_round_aux _ _ _ _ _ _) as [| | |]; subst.
Qed.

Lemma float_ok_mantissa_ok (x : spec_float) : float_ok x → mantissa_ok x.
Proof.
  destruct x as [| | |s m e]; try done.
  unfold float_ok, valid_binary, bounded, canonical_mantissa, mantissa_ok.
  intros H. apply andb_prop in H as [H _]. apply Z.eqb_eq in H.
  unfold fexp in H. lia.
Qed.

(** ** The shift of [shr_fexp] on an exact input *)

Lemma shr_1_bits (r : shr_record) :
  0 ≤ shr_m r →
  shr_r (shr_1 r) = Z.odd (shr_m r) ∧ shr_s (shr_1 r) = shr_r r || shr_s r.
Proof. destruct r as [[|[p|p|]|p] r s]; simpl; try done; lia. Qed.

Lemma iter_shr_1_exact (n : nat) (r : shr_record) :
  0 ≤ shr_m r → shr_r r = false → shr_s r = false →
  shr_m r mod 2 ^ Z.of_nat n = 0 →
  shr_r (Nat.iter n shr_1 r) = false ∧ shr_s (Nat.iter n shr_1 r) = false.
Proof.
  intros Hm Hr Hs. induction n as [|n IH]; intros Hmod; [done|].
  rewrite Nat2Z.inj_succ, Z.pow_succ_r in Hmod by lia.
  assert (0 < 2 ^ Z.of_nat n) as Hpow by (apply Z.pow_pos_nonneg; lia).
  apply Z.mod_divide in Hmod; [|lia]. destruct Hmod as [k Hk].
  destruct IH as [IHr IHs].
  { apply Z.mod_divide; [lia|]. exists (2 * k). lia. }
  simpl.
  assert (0 ≤ shr_m (Nat.iter n shr_1 r)) as Hn
    by (rewrite iter_shr_1_m by done; apply Z.div_pos; lia).
  destruct (shr_1_bits _ Hn) as [-> ->]. rewrite IHr, IHs.
  split; [|done]. rewrite iter_shr_1_m by done.
  replace (shr_m r) with (2 * k * 2 ^ Z.of_nat n) by lia.
  rewrite Z.div_mul by lia. by rewrite Z.odd_mul.
Qed.

Lemma shr_fexp_no_shift (m e : Z) :
  fexp Py.prec Py.emax (Zdigits2 m + e) ≤ e →
  shr_fexp Py.prec Py.emax m e loc_Exact
  = ({| shr_m := m; shr_r := false; shr_s := false |}, e).
Proof.
  intros H. unfold shr_fexp, shr.
  destruct (fexp Py.prec Py.emax (Zdigits2 m + e) - e) eqn:E; [done|lia|done].
Qed.

Lemma shr_fexp_shift (m e n : Z) :
  0 ≤ m → 0 < n → fexp Py.prec Py.emax (Zdigits2 m + e) - e = n →
  ∃ rec, shr_fexp Py.prec Py.emax m e loc_Exact = (rec, e + n)
         ∧ shr_m rec = m / 2 ^ n
         ∧ (m mod 2 ^ n = 0 → loc_of_shr_record rec = loc_Exact).
Proof.
  intros Hm Hn E. unfold shr_fexp, shr. rewrite E.
  destruct n as [|n|n]; [lia| |lia].
  eexists. split; [reflexivity|].
  rewrite iter_pos_nat, iter_shr_1_m by done.
  rewrite positive_nat_Z. split; [done|]. intros Hmod.
  destruct (iter_shr_1_exact (Pos.to_nat n)
              {| shr_m := m; shr_r := false; shr_s := false |})
    as [Hr Hs]; try done.
  { by rewrite positive_nat_Z. }
  destruct (Nat.iter _ _ _) as [m' r' s']. simpl in *. by subst.
Qed.

Lemma Zdigits2_unique (m k : Z) :
  0 < k → 2 ^ (k - 1) ≤ m < 2 ^ k → Zdigits2 m = k.
Proof.
  intros Hk [Hlo Hhi].
  assert (0 < 2 ^ (k - 1)) by (apply Z.pow_pos_nonneg; lia).
  destruct m as [|p|p]; [lia| |lia]. simpl.
  pose proof (digits2_pos_bounds p) as [Hlo' Hhi'].
  destruct (Z.lt_trichotomy (Z.pos (digits2_pos p)) k) as [Hlt|[Heq|Hgt]];
    [|done|].
  - assert (2 ^ Z.pos (digits2_pos p) ≤ 2 ^ (k - 1))
      by (apply Z.pow_le_mono_r; lia). lia.
  - assert (2 ^ k ≤ 2 ^ (Z.pos (digits2_pos p) - 1))
      by (apply Z.pow_le_mono_r; lia). lia.
Qed.

(** ** Conversion of an integer *)

Lemma iter_xO_value (m d : positive) :
  Z.pos (Pos.iter xO m d) = Z.pos m * 2 ^ Z.pos d.
Proof.
  induction d as [|d IH] using Pos.peano_ind.
  - simpl. lia.
  - rewrite Pos.iter_succ, Pos2Z.inj_xO, IH, Pos2Z.inj_succ.
    rewrite Z.pow_succ_r by lia. lia.
Qed.

Lemma shl_align_value (m : positive) (e ez : Z) :
  ez ≤ e → Z.pos (fst (shl_align m e ez)) = Z.pos m * 2 ^ (e - ez).
Proof.
  intros He. unfold shl_align.
  destruct (ez - e) as [|d|d] eqn:E; simpl.
  - replace (e - ez) with 0 by lia. lia.
  - lia.
  - rewrite iter_xO_value. f_equal. f_equal. lia.
Qed.

Lemma binary_round_aux_unfold (s : bool) (m e : Z) (l : location) :
  binary_round_aux Py.prec Py.emax s m e l
  = let r1 := shr_fexp Py.prec Py.emax m e l in
    let m1 := round_nearest_even (shr_m (fst r1)) (loc_of_shr_record (fst r1)) in
    let r2 := shr_fexp Py.prec Py.emax m1 (snd r1) loc_Exact in
    match shr_m (fst r2) with
    | 0 => S754_zero s
    | Z.pos m2 =>
        if snd r2 <=? Py.emax - Py.prec then S754_finite s m2 (snd r2)
        else S754_infinity s
    | Z.neg _ => S754_nan
    end.
Proof.
  unfold binary_round_aux.
  destruct (shr_fexp Py.prec Py.emax m e l) as [mrs' e']. simpl.
  by destruct (shr_fexp Py.prec Py.emax _ e' loc_Exact) as [mrs'' e''].
Qed.

Lemma shl_align_snd (m : positive) (e ez : Z) :
  ez ≤ e → snd (shl_align m e ez) = ez.
Proof.
  intros He. unfold shl_align.
  destruct (ez - e) as [|d|d] eqn:E; simpl; lia.
Qed.

Lemma round_nearest_even_cases (m : Z) (l : location) :
  round_nearest_even m l = m
  ∨ (round_nearest_even m l = m + 1 ∧ l ≠ loc_Exact).
Proof.
  destruct l as [|[]]; simpl; auto.
  destruct (Z.even m); auto.
Qed.

(** A positive integer rounds to a double as [rounds_to] says, or, with
    1024 bits or more, to infinity. *)
Lemma binary_normalize_positive (p : positive) :
  rounds_to (Z.pos p) (binary_normalize Py.prec Py.emax (Z.pos p) 0 false)
  ∨ (binary_normalize Py.prec Py.emax (Z.pos p) 0 false = S754_infinity false
     ∧ 1024 ≤ Z.pos (digits2_pos p)).
Proof.
  unfold binary_normalize, binary_round.
  pose proof (digits2_pos_bounds p) as [Hlo Hhi].
  set (d := Z.pos (digits2_pos p)) in *.
  assert (0 < d) as Hdpos by (unfold d; lia).
  assert (fexp Py.prec Py.emax (d + 0) = d - 53) as ->
    by (unfold fexp, emin, Py.prec, Py.emax; lia).
  destruct (Z.le_gt_cases d 53) as [Hd|Hd].
  - (* at most 53 bits: exact *)
    pose proof (shl_align_value p 0 (d - 53) ltac:(lia)) as Hmz.
    pose proof (shl_align_snd p 0 (d - 53) ltac:(lia)) as Hez.
    destruct (shl_align p 0 (d - 53)) as [mz ez]. simpl in Hmz, Hez. subst ez.
    replace (0 - (d - 53)) with (53 - d) in Hmz by lia.
    assert (Zdigits2 (Z.pos mz) = 53) as Hdig.
    { assert (2 ^ (53 - 1) = 2 ^ (d - 1) * 2 ^ (53 - d)) as H52
        by (rewrite <- Z.pow_add_r by lia; f_equal; lia).
      assert (2 ^ 53 = 2 ^ d * 2 ^ (53 - d)) as H53
        by (rewrite <- Z.pow_add_r by lia; f_equal; lia).
      assert (0 < 2 ^ (53 - d)) by (apply Z.pow_pos_nonneg; lia).
      apply Zdigits2_unique; [lia|]. rewrite Hmz, H52, H53. nia. }
    assert (shr_fexp Py.prec Py.emax (Z.pos mz) (d - 53) loc_Exact
            = ({| shr_m := Z.pos mz; shr_r := false; shr_s := false |}, d - 53))
      as Hshr.
    { apply shr_fexp_no_shift. rewrite Hdig.
      unfold fexp, emin, Py.prec, Py.emax. lia. }
    rewrite binary_round_aux_unfold. cbv zeta. rewrite Hshr. simpl fst. simpl snd.
    change (round_nearest_even (Z.pos mz) loc_Exact) with (Z.pos mz).
    rewrite Hshr. simpl fst. simpl snd. cbn [shr_m].
    destruct (d - 53 <=? Py.emax - Py.prec) eqn:E;
      [|unfold Py.emax, Py.prec in E; lia].
    left. apply rounds_exact; [lia|].
    rewrite Hmz. f_equal. f_equal. lia.
  - (* more than 53 bits: rounded *)
    assert (shl_align p 0 (d - 53) = (p, 0)) as ->.
    { unfold shl_align. destruct (d - 53 - 0) eqn:E; [done|done|lia]. }
    set (n := d - 53).
    destruct (shr_fexp_shift (Z.pos p) 0 n) as (rec & Hshr & Hm0 & Hexact);
      [lia|lia|unfold fexp, emin, Py.prec, Py.emax; simpl Zdigits2; fold d; lia|].
    assert (0 < 2 ^ n) as Hpow by (apply Z.pow_pos_nonneg; lia).
    assert (2 ^ 52 ≤ Z.pos p / 2 ^ n < 2 ^ 53) as [Hm0lo Hm0hi].
    { split.
      - apply Z.div_le_lower_bound; [done|].
        rewrite <- Z.pow_add_r by lia. by replace (n + 52) with (d - 1) by lia.
      - apply Z.div_lt_upper_bound; [done|].
        rewrite <- Z.pow_add_r by lia. by replace (n + 53) with d by lia. }
    rewrite binary_round_aux_unfold. cbv zeta. rewrite Hshr. simpl fst. simpl snd.
    rewrite Hm0.
    set (m0 := Z.pos p / 2 ^ n) in *.
    set (m1 := round_nearest_even m0 (loc_of_shr_record rec)).
    assert (m1 = m0 ∨ (m1 = m0 + 1 ∧ Z.pos p mod 2 ^ n ≠ 0)) as Hm1.
    { destruct (round_nearest_even_cases m0 (loc_of_shr_record rec))
        as [H|[H Hl]]; [by left|right]. split; [done|].
      intros Hmod. by apply Hl, Hexact. }
    destruct (Z.lt_ge_cases m1 (2 ^ 53)) as [Hlt|Hge].
    + (* the rounded significand still has 53 bits *)
      assert (Zdigits2 m1 = 53) as Hdig
        by (apply Zdigits2_unique; [lia|]; simpl (53 - 1); lia).
      rewrite shr_fexp_no_shift
        by (rewrite Hdig; unfold fexp, emin, Py.prec, Py.emax; lia).
      simpl fst. simpl snd. cbn [shr_m].
      destruct m1 as [|q|q] eqn:Em1; [lia| |lia].
      destruct (0 + n <=? Py.emax - Py.prec) eqn:E;
        [|right; split; [done|unfold Py.emax, Py.prec in E; lia]].
      left. apply (rounds_inexact _ q (0 + n) n (Z.pos q)).
      * lia.
      * replace (0 + n - n) with 0 by lia. lia.
      * done.
      * done.
    + (* the rounded significand is 2^53 *)
      assert (m1 = 2 ^ 53) as Hm153 by lia.
      destruct (shr_fexp_shift m1 (0 + n) 1) as (rec2 & Hshr2 & Hm2 & _);
        [lia|lia| |].
      { rewrite Hm153. change (Zdigits2 (2 ^ 53)) with 54.
        unfold fexp, emin, Py.prec, Py.emax. lia. }
      rewrite Hshr2. simpl fst. simpl snd. rewrite Hm2, Hm153.
      change (2 ^ 53 / 2 ^ 1) with (Z.pos (2 ^ 52)).
      destruct (0 + n + 1 <=? Py.emax - Py.prec) eqn:E;
        [|right; split; [done|unfold Py.emax, Py.prec in E; lia]].
      left. apply (rounds_inexact _ (2 ^ 52) (0 + n + 1) n m1).
      * lia.
      * replace (0 + n + 1 - n) with 1 by lia. by rewrite Hm153.
      * done.
      * done.
Qed.

Lemma float_of_int_rounds (p : positive) (x : spec_float) :
  Py.float_of_int (Z.pos p) = Return x → rounds_to (Z.pos p) x.
Proof.
  unfold Py.float_of_int.
  destruct (binary_normalize_positive p) as [Hr|[-> _]]; [|done].
  by destruct Hr; intros [= <-]; [apply rounds_exact|eapply rounds_inexact].
Qed.

(** An integer of fewer than 1024 bits converts. *)
Lemma float_of_int_returns (p : positive) :
  Z.pos p < 2 ^ 1023 →
  ∃ m e, Py.float_of_int (Z.pos p) = Return (S754_finite false m e).
Proof.
  intros Hp. unfold Py.float_of_int.
  destruct (binary_normalize_positive p) as [Hr|[_ Hd]].
  - destruct Hr; eauto.
  - pose proof (Zdigits2_le (Z.pos p) 1023 ltac:(lia) ltac:(lia) Hp) as H.
    simpl in H. lia.
Qed.

(** * Python numbers *)

(** ** Ordering tests *)

Lemma gt_not_le (a b : Py.number) : Py.gt a b = true → Py.le a b = false.
Proof. unfold Py.gt, Py.le. by destruct (Py.compare a b) as [[]|]. Qed.

Lemma le_not_gt (a b : Py.number) : Py.le a b = true → Py.gt a b = false.
Proof. unfold Py.gt, Py.le. by destruct (Py.compare a b) as [[]|]. Qed.

Lemma lt_le (a b : Py.number) : Py.lt a b = true → Py.le a b = true.
Proof. unfold Py.lt, Py.le. by destruct (Py.compare a b) as [[]|]. Qed.

Lemma xcompare_antisym (a b : Py.xnum) :
  Py.xcompare b a = option_map CompOpp (Py.xcompare a b).
Proof.
  destruct a as [|s1|m1 e1], b as [|s2|m2 e2]; simpl; try done.
  - by destruct s1, s2.
  - by destruct s1.
  - by destruct s2.
  - by rewrite (Z.min_comm e2 e1), Z.compare_antisym.
Qed.

Lemma compare_antisym (a b : Py.number) :
  Py.compare b a = option_map CompOpp (Py.compare a b).
Proof. apply xcompare_antisym. Qed.

Lemma le_not_lt (a b : Py.number) : Py.le a b = true → Py.lt b a = false.
Proof.
  unfold Py.le, Py.lt. rewrite (compare_antisym a b).
  by destruct (Py.compare a b) as [[]|].
Qed.

Lemma xcompare_fin_zero (m e : Z) :
  Py.xcompare (Py.XFin m e) (Py.XFin 0 0) = Some (m ?= 0).
Proof.
  unfold Py.xcompare. f_equal. rewrite Z.mul_0_l.
  assert (0 < 2 ^ (e - Z.min e 0)) as Hpow by (apply Z.pow_pos_nonneg; lia).
  destruct m as [|p|p].
  - done.
  - apply Z.compare_gt_iff. lia.
  - apply Z.compare_lt_iff. nia.
Qed.

Lemma float_lt_zero (x : spec_float) :
  Py.lt (Py.PyFloat x) Py.zero = negative_float x.
Proof.
  unfold Py.lt, Py.compare, Py.zero.
  destruct x as [s|s| |s m e]; try done.
  - by destruct s.
  - change (Py.xnum_of (Py.PyFloat (S754_finite s m e)))
      with (Py.XFin (cond_Zopp s (Z.pos m)) e).
    change (Py.xnum_of (Py.PyInt 0)) with (Py.XFin 0 0).
    rewrite xcompare_fin_zero. by destruct s.
Qed.

Lemma int_lt_zero (n : Py.number) :
  Py.is_float n = false → Py.lt n Py.zero = (Py.int_value n <? 0).
Proof.
  intros Hn. unfold Py.lt, Py.compare, Py.zero.
  assert (Py.xnum_of n = Py.XFin (Py.int_value n) 0) as ->
    by by destruct n.
  change (Py.xnum_of (Py.PyInt 0)) with (Py.XFin 0 0).
  rewrite xcompare_fin_zero. unfold Z.ltb. by destruct (_ ?= _).
Qed.

(** ** Sums and differences of doubles *)

#[local] Arguments binary_normalize : simpl never.

Lemma SFadd_mantissa_ok (x y : spec_float) :
  mantissa_ok x → mantissa_ok y → mantissa_ok (SFadd Py.prec Py.emax x y).
Proof.
  intros Hx Hy.
  destruct x as [sx|sx| |sx mx ex], y as [sy|sy| |sy my ey]; simpl; try done;
    try (by destruct sx, sy).
  apply binary_normalize_mantissa_ok.
Qed.

Lemma SFsub_mantissa_ok (x y : spec_float) :
  mantissa_ok x → mantissa_ok y → mantissa_ok (SFsub Py.prec Py.emax x y).
Proof.
  intros Hx Hy.
  destruct x as [sx|sx| |sx mx ex], y as [sy|sy| |sy my ey]; simpl; try done;
    try (by destruct sx, sy).
  apply binary_normalize_mantissa_ok.
Qed.

Lemma SFadd_nonneg (x y : spec_float) :
  negative_float x = false → negative_float y = false →
  negative_float (SFadd Py.prec Py.emax x y) = false.
Proof.
  intros Hx Hy.
  destruct x as [sx|sx| |sx mx ex], y as [sy|sy| |sy my ey]; simpl; try done;
    try (by destruct sx, sy).
  destruct sx, sy; try done. simpl.
  apply binary_normalize_nonneg. lia.
Qed.

(** [x - y] is [x + (-y)]. *)
Lemma SFadd_opp (x y : spec_float) :
  SFadd Py.prec Py.emax x (SFopp y) = SFsub Py.prec Py.emax x y.
Proof.
  destruct x as [sx|sx| |sx mx ex], y as [sy|sy| |sy my ey]; simpl; try done;
    try (by destruct sx, sy).
Qed.

(** The order of two finite values, read off their aligned
    significands. *)
Lemma xcompare_fin_not_gt (m1 e1 m2 e2 : Z) :
  Py.xcompare (Py.XFin m1 e1) (Py.XFin m2 e2) ≠ Some Gt ↔
  m1 * 2 ^ (e1 - Z.min e1 e2) ≤ m2 * 2 ^ (e2 - Z.min e1 e2).
Proof.
  unfold Py.xcompare, Z.le. cbv zeta. split.
  - intros H Hgt. apply H. by rewrite Hgt.
  - intros H [= Hgt]. by apply H.
Qed.

Lemma SFsub_nonneg (x y : spec_float) :
  negative_float y = false →
  Py.xcompare (Py.xnum_of_float y) (Py.xnum_of_float x) ≠ Some Gt →
  negative_float (SFsub Py.prec Py.emax x y) = false.
Proof.
  intros Hy Hle.
  destruct x as [sx|sx| |sx mx ex], y as [sy|sy| |sy my ey];
    try done; try (by destruct sx, sy);
    cbn [Py.xnum_of_float] in Hle; try apply xcompare_fin_not_gt in Hle;
    simpl in Hy |- *.
  - (* 0 - finite *)
    destruct sy; [done|]. exfalso.
    assert (0 < 2 ^ (ey - Z.min ey 0)) by (apply Z.pow_pos_nonneg; lia).
    simpl in Hle. lia.
  - (* finite - 0 *)
    destruct sx; [|done]. exfalso.
    assert (0 < 2 ^ (ex - Z.min 0 ex)) by (apply Z.pow_pos_nonneg; lia).
    simpl in Hle. lia.
  - (* finite - finite *)
    destruct sy; [done|]. apply binary_normalize_nonneg.
    rewrite !shl_align_value by lia. rewrite (Z.min_comm ex ey).
    assert (0 < 2 ^ (ex - Z.min ey ex)) by (apply Z.pow_pos_nonneg; lia).
    assert (0 < 2 ^ (ey - Z.min ey ex)) by (apply Z.pow_pos_nonneg; lia).
    destruct sx; simpl in *; nia.
Qed.

(** ** The order is kept by the conversion of an integer *)

Lemma xcompare_fin_scaled (m1 e1 m2 e2 e0 : Z) :
  e0 ≤ e1 → e0 ≤ e2 →
  Py.xcompare (Py.XFin m1 e1) (Py.XFin m2 e2) ≠ Some Gt ↔
  m1 * 2 ^ (e1 - e0) ≤ m2 * 2 ^ (e2 - e0).
Proof.
  intros H1 H2. rewrite xcompare_fin_not_gt.
  set (em := Z.min e1 e2).
  assert (0 < 2 ^ (em - e0)) as HK by (apply Z.pow_pos_nonneg; lia).
  replace (e1 - e0) with ((e1 - em) + (em - e0)) by lia.
  replace (e2 - e0) with ((e2 - em) + (em - e0)) by lia.
  rewrite !Z.pow_add_r by lia. rewrite !Z.mul_assoc.
  split; intros H.
  - by apply Z.mul_le_mono_nonneg_r; [lia|].
  - by apply Z.mul_le_mono_pos_r in H.
Qed.

Section Bracket.

Variables z n m1 F ef e0 : Z.
Hypothesis Hz : 0 < z.
Hypothesis Hn : 0 < n.
Hypothesis He0 : e0 ≤ 0.
Hypothesis Hef : e0 ≤ ef.
Hypothesis HF : 0 < F < 2 ^ 53.
Hypothesis Hm0 : 2 ^ 52 ≤ z / 2 ^ n.
Hypothesis Hm1 : m1 = z / 2 ^ n ∨ (m1 = z / 2 ^ n + 1 ∧ z mod 2 ^ n ≠ 0).

Let A := 2 ^ (0 - e0).
Let B := 2 ^ (ef - e0).
Let P := 2 ^ n.

Local Lemma bracket_facts :
  0 < A ∧ 0 < B ∧ 0 < P ∧ 2 ^ (n - e0) = P * A
  ∧ z = P * (z / P) + z mod P ∧ 0 ≤ z mod P < P
  ∧ (n ≤ ef → B = 2 ^ (ef - n) * P * A ∧ 0 < 2 ^ (ef - n))
  ∧ (ef < n → 2 ^ 53 * B ≤ 2 ^ 52 * (P * A)).
Proof.
  assert (0 < A) by (apply Z.pow_pos_nonneg; lia).
  assert (0 < B) by (apply Z.pow_pos_nonneg; lia).
  assert (0 < P) by (apply Z.pow_pos_nonneg; lia).
  assert (2 ^ (n - e0) = P * A) as Hfact1
    by (unfold P, A; rewrite <- Z.pow_add_r by lia; f_equal; lia).
  assert (z = P * (z / P) + z mod P) as Hfact2 by (apply Z.div_mod; lia).
  assert (0 ≤ z mod P < P) as Hfact3 by (by apply Z.mod_pos_bound).
  assert (n ≤ ef → B = 2 ^ (ef - n) * P * A ∧ 0 < 2 ^ (ef - n)) as Hfact4.
  { intros Hc. split; [|apply Z.pow_pos_nonneg; lia].
    unfold B, P, A. rewrite <- !Z.pow_add_r by lia. f_equal. lia. }
  assert (ef < n → 2 ^ 53 * B ≤ 2 ^ 52 * (P * A)) as Hfact5.
  { intros Hc. unfold B, P, A. rewrite <- !Z.pow_add_r by lia.
    apply Z.pow_le_mono_r; lia. }
  done.
Qed.

Lemma bracket_le :
  z * 2 ^ (0 - e0) ≤ F * 2 ^ (ef - e0) →
  m1 * 2 ^ (n - e0) ≤ F * 2 ^ (ef - e0).
Proof.
  destruct bracket_facts as (HA & HB & HP & -> & Hdiv & Hmod & Hge & Hlt).
  fold A B P in Hm0, Hm1 |- *. intros Hle.
  set (m0 := z / P) in *. set (r := z mod P) in *.
  destruct (Z.le_gt_cases n ef) as [Hc|Hc].
  - destruct (Hge Hc) as [HBeq HQ]. rewrite HBeq in Hle |- *.
    set (Q := F * 2 ^ (ef - n)).
    replace (F * (2 ^ (ef - n) * P * A)) with (Q * P * A) in Hle |- * by (unfold Q; ring).
    assert (z ≤ Q * P) as HzQ by nia.
    destruct Hm1 as [->|[-> Hr]]; [nia|].
    assert (m0 < Q) by nia. nia.
  - specialize (Hlt Hc).
    assert (F * B < 2 ^ 53 * B) by nia.
    assert (2 ^ 52 * (P * A) ≤ m0 * (P * A)) by nia.
    assert (m0 * (P * A) ≤ z * A) by nia.
    lia.
Qed.

Lemma bracket_ge :
  F * 2 ^ (ef - e0) ≤ z * 2 ^ (0 - e0) →
  F * 2 ^ (ef - e0) ≤ m1 * 2 ^ (n - e0).
Proof.
  destruct bracket_facts as (HA & HB & HP & -> & Hdiv & Hmod & Hge & Hlt).
  fold A B P in Hm0, Hm1 |- *. intros Hle.
  set (m0 := z / P) in *. set (r := z mod P) in *.
  destruct Hm1 as [->|[-> Hr]].
  - destruct (Z.le_gt_cases n ef) as [Hc|Hc].
    + destruct (Hge Hc) as [HBeq HQ]. rewrite HBeq in Hle |- *.
      set (Q := F * 2 ^ (ef - n)).
      replace (F * (2 ^ (ef - n) * P * A)) with (Q * P * A) in Hle |- *
        by (unfold Q; ring).
      assert (Q * P ≤ z) as HzQ by nia.
      assert (Q ≤ m0) by nia. nia.
    + specialize (Hlt Hc).
      assert (F * B < 2 ^ 53 * B) by nia.
      assert (2 ^ 52 * (P * A) ≤ m0 * (P * A)) by nia.
      lia.
  - assert (z * A < (m0 + 1) * (P * A)) by nia. lia.
Qed.

End Bracket.

Lemma mantissa_bound (s : bool) (m : positive) (e : Z) :
  mantissa_ok (S754_finite s m e) → 0 < Z.pos m < 2 ^ 53.
Proof.
  simpl. intros H. split; [lia|].
  pose proof (digits2_pos_bounds m) as [_ Hhi].
  assert (2 ^ Z.pos (digits2_pos m) ≤ 2 ^ 53)
    by (apply Z.pow_le_mono_r; unfold Py.prec in H; lia).
  lia.
Qed.

Lemma rounds_to_scaled (z : Z) (m : positive) (e e0 : Z) :
  rounds_to z (S754_finite false m e) → e0 ≤ 0 → e0 ≤ e →
  Z.pos m * 2 ^ (e - e0) = z * 2 ^ (0 - e0)
  ∨ ∃ n m1, 0 < n ∧ Z.pos m * 2 ^ (e - e0) = m1 * 2 ^ (n - e0)
            ∧ 2 ^ 52 ≤ z / 2 ^ n
            ∧ (m1 = z / 2 ^ n ∨ (m1 = z / 2 ^ n + 1 ∧ z mod 2 ^ n ≠ 0)).
Proof.
  intros Hr He0 Hee0.
  inversion Hr as [m' e' He Hm|m' e' n m1 Hn Hm1 Hm0 Hcase]; subst.
  - left. rewrite Hm, <- Z.mul_assoc, <- Z.pow_add_r by lia.
    f_equal. f_equal. lia.
  - right. exists n, (Z.pos m * 2 ^ (e - n)). repeat split; try done; [lia|].
    rewrite <- Z.mul_assoc, <- Z.pow_add_r by lia. f_equal. f_equal. lia.
Qed.

Lemma rounds_to_le (z : Z) (x f : spec_float) :
  0 < z → rounds_to z x → mantissa_ok f →
  Py.xcompare (Py.XFin z 0) (Py.xnum_of_float f) ≠ Some Gt →
  Py.xcompare (Py.xnum_of_float x) (Py.xnum_of_float f) ≠ Some Gt.
Proof.
  intros Hz Hr Hf Hle.
  assert (∃ m e, x = S754_finite false m e) as (m & e & ->)
    by (destruct Hr; eauto).
  destruct f as [sf|sf| |sf mf ef]; cbn [Py.xnum_of_float] in *.
  - rewrite xcompare_fin_zero in Hle. exfalso. apply Hle. f_equal.
    by apply Z.compare_gt_iff.
  - done.
  - done.
  - set (e0 := Z.min e (Z.min 0 ef)).
    apply (xcompare_fin_scaled _ _ _ _ e0) in Hle; [|lia..].
    apply (xcompare_fin_scaled _ _ _ _ e0); [lia..|].
    assert (0 < 2 ^ (0 - e0)) by (apply Z.pow_pos_nonneg; lia).
    assert (0 < 2 ^ (ef - e0)) by (apply Z.pow_pos_nonneg; lia).
    destruct sf; simpl in Hle |- *; [nia|].
    destruct (rounds_to_scaled z m e e0 Hr)
      as [->|(n & m1 & Hn & -> & Hm0 & Hcase)]; [lia..|done|].
    apply (bracket_le z n m1 (Z.pos mf) ef e0); try done; try lia;
      by apply (mantissa_bound false mf ef).
Qed.

Lemma rounds_to_ge (z : Z) (x f : spec_float) :
  0 < z → rounds_to z x → mantissa_ok f →
  Py.xcompare (Py.xnum_of_float f) (Py.XFin z 0) ≠ Some Gt →
  Py.xcompare (Py.xnum_of_float f) (Py.xnum_of_float x) ≠ Some Gt.
Proof.
  intros Hz Hr Hf Hle.
  assert (∃ m e, x = S754_finite false m e) as (m & e & ->)
    by (destruct Hr; eauto).
  destruct f as [sf|sf| |sf mf ef]; cbn [Py.xnum_of_float] in *.
  - apply (xcompare_fin_scaled _ _ _ _ (Z.min 0 e)); [lia..|].
    assert (0 < 2 ^ (e - Z.min 0 e)) by (apply Z.pow_pos_nonneg; lia).
    simpl. lia.
  - done.
  - done.
  - set (e0 := Z.min e (Z.min 0 ef)).
    apply (xcompare_fin_scaled _ _ _ _ e0) in Hle; [|lia..].
    apply (xcompare_fin_scaled _ _ _ _ e0); [lia..|].
    assert (0 < 2 ^ (e - e0)) by (apply Z.pow_pos_nonneg; lia).
    assert (0 < 2 ^ (ef - e0)) by (apply Z.pow_pos_nonneg; lia).
    destruct sf; simpl in Hle |- *; [nia|].
    destruct (rounds_to_scaled z m e e0 Hr)
      as [->|(n & m1 & Hn & -> & Hm0 & Hcase)]; [lia..|done|].
    apply (bracket_ge z n m1 (Z.pos mf) ef e0); try done; try lia;
      by apply (mantissa_bound false mf ef).
Qed.

(** ** Python arithmetic on balances *)

Lemma xcompare_integers (z1 z2 : Z) :
  Py.xcompare (Py.XFin z1 0) (Py.XFin z2 0) = Some (z1 ?= z2).
Proof. unfold Py.xcompare. cbv zeta. by rewrite !Z.mul_1_r. Qed.

Lemma xnum_of_integer (n : Py.number) :
  Py.is_float n = false → Py.xnum_of n = Py.XFin (Py.int_value n) 0.
Proof. by destruct n. Qed.

Lemma int_le_zero (n : Py.number) :
  Py.is_float n = false → Py.le n Py.zero = (Py.int_value n <=? 0).
Proof.
  intros Hn. unfold Py.le, Py.compare, Py.zero.
  rewrite (xnum_of_integer n Hn). change (Py.xnum_of (Py.PyInt 0)) with (Py.XFin 0 0).
  rewrite xcompare_integers. unfold Z.leb. by destruct (_ ?= _).
Qed.

Lemma int_gt (a b : Py.number) :
  Py.is_float a = false → Py.is_float b = false →
  Py.gt a b = (Py.int_value b <? Py.int_value a).
Proof.
  intros Ha Hb. unfold Py.gt, Py.compare.
  rewrite (xnum_of_integer a Ha), (xnum_of_integer b Hb), xcompare_integers.
  rewrite Z.ltb_antisym. unfold Z.leb. by destruct (_ ?= _).
Qed.

Lemma le_false_lt_false (a : Py.number) :
  Py.le a Py.zero = false → Py.lt a Py.zero = false.
Proof.
  intros H. destruct (Py.lt a Py.zero) eqn:E; [|done].
  by rewrite (lt_le _ _ E) in H.
Qed.

Lemma float_of_int_eq (z : Z) (x : spec_float) :
  Py.float_of_int z = Return x → x = binary_normalize Py.prec Py.emax z 0 false.
Proof.
  unfold Py.float_of_int.
  by destruct (binary_normalize _ _ _ _ _); intros [= <-].
Qed.

Lemma to_float_integer (n : Py.number) :
  Py.is_float n = false → Py.to_float n = Py.float_of_int (Py.int_value n).
Proof. by destruct n. Qed.

Lemma to_float_nonneg (n : Py.number) (x : spec_float) :
  Py.lt n Py.zero = false → Py.to_float n = Return x →
  negative_float x = false.
Proof.
  intros Hn Hx. destruct (Py.is_float n) eqn:E.
  - destruct n as [| |y]; try done. injection Hx as <-.
    by rewrite float_lt_zero in Hn.
  - rewrite int_lt_zero in Hn by done. rewrite to_float_integer in Hx by done.
    rewrite (float_of_int_eq _ _ Hx). apply binary_normalize_nonneg. lia.
Qed.

Lemma to_float_mantissa_ok (n : Py.number) (x : spec_float) :
  number_mantissa_ok n → Py.to_float n = Return x → mantissa_ok x.
Proof.
  intros Hn Hx. destruct (Py.is_float n) eqn:E.
  - destruct n as [| |y]; try done. by injection Hx as <-.
  - rewrite to_float_integer in Hx by done.
    rewrite (float_of_int_eq _ _ Hx). apply binary_normalize_mantissa_ok.
Qed.

(** Converting the operands keeps [amount <= balance]. *)
Lemma to_float_order (a b : Py.number) (x y : spec_float) :
  Py.is_float b || Py.is_float a = true →
  number_mantissa_ok a → number_mantissa_ok b →
  Py.le a Py.zero = false → Py.lt b Py.zero = false →
  Py.gt a b = false →
  Py.to_float a = Return y → Py.to_float b = Return x →
  Py.xcompare (Py.xnum_of_float y) (Py.xnum_of_float x) ≠ Some Gt.
Proof.
  intros Hfloat Ha Hb Hpos Hnonneg Hgt Hy Hx.
  assert (Py.xcompare (Py.xnum_of a) (Py.xnum_of b) ≠ Some Gt) as Hle.
  { unfold Py.gt, Py.compare in Hgt. intros H. by rewrite H in Hgt. }
  destruct (Py.is_float a) eqn:Ea, (Py.is_float b) eqn:Eb; try done.
  - destruct a as [| |ya], b as [| |xb]; try done.
    by injection Hy as <-; injection Hx as <-.
  - (* float amount, integer balance *)
    destruct a as [| |ya]; try done. injection Hy as <-.
    rewrite (xnum_of_integer b Eb) in Hle.
    rewrite to_float_integer in Hx by done.
    rewrite int_lt_zero in Hnonneg by done.
    destruct (Py.int_value b) as [|p|p] eqn:Ez; [|..|lia].
    + by rewrite (float_of_int_eq _ _ Hx).
    + apply (rounds_to_ge (Z.pos p)); [lia| |done..].
      by apply float_of_int_rounds.
  - (* integer amount, float balance *)
    destruct b as [| |xb]; try done. injection Hx as <-.
    rewrite (xnum_of_integer a Ea) in Hle.
    rewrite to_float_integer in Hy by done.
    rewrite int_le_zero in Hpos by done.
    destruct (Py.int_value a) as [|p|p] eqn:Ez; [lia| |lia].
    apply (rounds_to_le (Z.pos p)); [lia| |done..].
    by apply float_of_int_rounds.
Qed.

Lemma add_nonneg (b a b' : Py.number) :
  Py.lt b Py.zero = false → Py.le a Py.zero = false →
  Py.add b a = Return b' → Py.lt b' Py.zero = false.
Proof.
  intros Hb Ha. unfold Py.add.
  destruct (Py.is_float b || Py.is_float a) eqn:E.
  - destruct (Py.to_float b) as [x|] eqn:Ex; [|done].
    destruct (Py.to_float a) as [y|] eqn:Ey; [|done]. simpl.
    intros [= <-]. rewrite float_lt_zero.
    apply SFadd_nonneg; eauto using to_float_nonneg, le_false_lt_false.
  - apply orb_false_elim in E as [Eb Ea]. intros [= <-].
    rewrite int_lt_zero in * by done. rewrite int_le_zero in Ha by done.
    simpl. lia.
Qed.

Lemma add_mantissa_ok (b a b' : Py.number) :
  number_mantissa_ok b → number_mantissa_ok a →
  Py.add b a = Return b' → number_mantissa_ok b'.
Proof.
  intros Hb Ha. unfold Py.add.
  destruct (Py.is_float b || Py.is_float a).
  - destruct (Py.to_float b) as [x|] eqn:Ex; [|done].
    destruct (Py.to_float a) as [y|] eqn:Ey; [|done]. simpl.
    intros [= <-]. apply SFadd_mantissa_ok; eauto using to_float_mantissa_ok.
  - by intros [= <-].
Qed.

Lemma sub_nonneg (b a b' : Py.number) :
  number_mantissa_ok b → number_mantissa_ok a →
  Py.lt b Py.zero = false → Py.le a Py.zero = false → Py.gt a b = false →
  Py.sub b a = Return b' → Py.lt b' Py.zero = false.
Proof.
  intros Hbok Haok Hb Ha Hgt. unfold Py.sub.
  destruct (Py.is_float b || Py.is_float a) eqn:E.
  - destruct (Py.to_float b) as [x|] eqn:Ex; [|done].
    destruct (Py.to_float a) as [y|] eqn:Ey; [|done]. simpl.
    intros [= <-]. rewrite float_lt_zero.
    apply SFsub_nonneg; eauto using to_float_nonneg, le_false_lt_false.
    by apply (to_float_order a b).
  - apply orb_false_elim in E as [Eb Ea]. intros [= <-].
    rewrite int_lt_zero in * by done. rewrite int_gt in Hgt by done.
    simpl. lia.
Qed.

Lemma sub_mantissa_ok (b a b' : Py.number) :
  number_mantissa_ok b → number_mantissa_ok a →
  Py.sub b a = Return b' → number_mantissa_ok b'.
Proof.
  intros Hb Ha. unfold Py.sub.
  destruct (Py.is_float b || Py.is_float a).
  - destruct (Py.to_float b) as [x|] eqn:Ex; [|done].
    destruct (Py.to_float a) as [y|] eqn:Ey; [|done]. simpl.
    intros [= <-]. apply SFsub_mantissa_ok; eauto using to_float_mantissa_ok.
  - by intros [= <-].
Qed.

Lemma float_of_int_opp (p : positive) :
  Py.float_of_int (Z.neg p)
  = outcome_bind (Py.float_of_int (Z.pos p)) (λ y, Return (SFopp y)).
Proof.
  unfold Py.float_of_int, binary_normalize, binary_round.
  destruct (shl_align p 0 _) as [mz ez].
  rewrite !binary_round_aux_unfold. cbv zeta.
  destruct (shr_m _) as [|m2|m2]; try done.
  by destruct (_ <=? _).
Qed.

(** Recording [-amount] and adding it gives the balance [withdraw]
    computes. *)
Lemma add_neg (b a : Py.number) :
  Py.le a Py.zero = false → Py.add b (Py.neg a) = Py.sub b a.
Proof.
  intros Ha. unfold Py.add, Py.sub.
  destruct (Py.is_float a) eqn:Ea.
  - destruct a as [| |y]; try done. simpl. rewrite !orb_true_r.
    destruct (Py.to_float b) as [x|]; simpl; [|done]. by rewrite SFadd_opp.
  - rewrite int_le_zero in Ha by done.
    assert (Py.neg a = Py.PyInt (- Py.int_value a)) as -> by by destruct a.
    simpl Py.is_float. rewrite !orb_false_r.
    destruct (Py.is_float b).
    + destruct (Py.to_float b) as [x|]; simpl; [|done].
      rewrite (to_float_integer a Ea).
      destruct (Py.int_value a) as [|p|p]; [lia| |lia].
      change (- Z.pos p) with (Z.neg p). rewrite float_of_int_opp.
      destruct (Py.float_of_int (Z.pos p)) as [y|]; simpl; [|done].
      by rewrite SFadd_opp.
    + simpl. by rewrite Z.add_opp_r.
Qed.

(** Every [int] of magnitude below [2^1023], and every [bool], is a finite
    number within the range of [float]. *)
Lemma integer_finite (n : Py.number) :
  Py.is_float n = false → Z.abs (Py.int_value n) < 2 ^ 1023 → finite n.
Proof.
  intros Hn Hz. unfold finite. rewrite (to_float_integer n Hn).
  destruct (Py.int_value n) as [|p|p].
  - by exists (S754_zero false).
  - destruct (float_of_int_returns p) as (m & e & ->); [lia|]. eauto.
  - rewrite float_of_int_opp.
    destruct (float_of_int_returns p) as (m & e & ->); [lia|]. simpl. eauto.
Qed.

(** * Formatted text *)

(** ** Numbers with two decimals *)

Lemma dec_nonempty (n : Z) : Fmt.dec n ≠ "".
Proof.
  unfold Fmt.dec. intros H.
  pose proof (NilEmpty.usu (N.to_uint (Z.to_N n))) as Hu.
  rewrite H in Hu. simpl in Hu. injection Hu as Hu.
  pose proof (Unsigned.of_to (Z.to_N n)) as Hn.
  rewrite <- Hu in Hn. simpl in Hn. rewrite <- Hn in Hu. discriminate Hu.
Qed.

Lemma decimal_value_dec (n : Z) : 0 ≤ n → decimal_value (Fmt.dec n) = Some n.
Proof.
  intros Hn. unfold decimal_value.
  destruct (Fmt.dec n) eqn:E; [by destruct (dec_nonempty n)|].
  rewrite <- E. unfold Fmt.dec.
  rewrite NilEmpty.usu. simpl. by rewrite Unsigned.of_to, Z2N.id.
Qed.

(** Checked for each of the hundred values. *)
Lemma pad2_spec (n : Z) :
  0 ≤ n < 100 →
  String.length (Fmt.pad2 n) = 2%nat ∧ decimal_value (Fmt.pad2 n) = Some n.
Proof.
  intros Hn.
  assert (Forall (λ k : nat, String.length (Fmt.pad2 (Z.of_nat k)) = 2%nat
                             ∧ decimal_value (Fmt.pad2 (Z.of_nat k))
                               = Some (Z.of_nat k)) (seq 0 100)) as Hall.
  { apply (bool_decide_unpack _). by vm_compute. }
  rewrite Forall_forall in Hall.
  specialize (Hall (Z.to_nat n)). rewrite Z2Nat.id in Hall by lia.
  apply Hall. apply elem_of_seq. lia.
Qed.

Lemma fixed2_two_decimals (neg : bool) (c : Z) :
  0 ≤ c → two_decimals neg c (Fmt.sign neg +:+ Fmt.fixed2 c).
Proof.
  intros Hc. unfold Fmt.fixed2.
  destruct (pad2_spec (c mod 100)) as [Hlen Hval].
  { apply Z.mod_pos_bound. lia. }
  apply (two_decimals_intro neg c _ (Fmt.dec (c / 100)) (Fmt.pad2 (c mod 100))
           (c / 100) (c mod 100)); try done.
  - apply decimal_value_dec. apply Z.div_pos; lia.
  - apply Z.div_mod. lia.
Qed.

Lemma cents_nonneg (m : positive) (e : Z) : 0 ≤ Fmt.cents m e.
Proof.
  unfold Fmt.cents. destruct e as [|p|p].
  - lia.
  - pose proof (Z.pow_pos_nonneg 2 (Z.pos p)). nia.
  - assert (0 < 2 ^ Z.pos p) as Hd by (apply Z.pow_pos_nonneg; lia).
    assert (0 ≤ 100 * Z.pos m / 2 ^ Z.pos p) as Hq by (apply Z.div_pos; lia).
    cbv zeta. destruct (_ ?= _); [destruct (Z.even _)|..]; lia.
Qed.

Lemma cents_nearest (m : positive) (e : Z) :
  nearest_hundredths m e (Fmt.cents m e).
Proof.
  unfold nearest_hundredths, Fmt.cents. destruct e as [|p|p]; cbv zeta.
  - change (Z.max 0 (- 0)) with 0. change (2 ^ (0 + 0)) with 1.
    change (2 ^ 0) with 1. split; lia.
  - rewrite Z.max_l by lia. rewrite Z.add_0_r. rewrite Z.pow_0_r.
    split; lia.
  - replace (Z.max 0 (- Z.neg p)) with (Z.pos p) by lia.
    replace (Z.neg p + Z.pos p) with 0 by lia. rewrite Z.pow_0_r, Z.mul_1_r.
    set (d := 2 ^ Z.pos p). set (n := 100 * Z.pos m).
    assert (0 < d) as Hd by (apply Z.pow_pos_nonneg; lia).
    pose proof (Z.div_mod n d ltac:(lia)) as Hdiv.
    pose proof (Z.mod_pos_bound n d Hd) as Hr.
    set (q := n / d) in *. set (r := n mod d) in *.
    rewrite (Z.mul_comm d q) in Hdiv.
    destruct (2 * r ?= d) eqn:E.
    + apply Z.compare_eq in E.
      destruct (Z.even q) eqn:Eq.
      * split; [lia|done].
      * rewrite Z.mul_add_distr_r. split; [lia|].
        intros _. rewrite Z.even_add, Eq. done.
    + rewrite Z.compare_lt_iff in E. split; lia.
    + rewrite Z.compare_gt_iff in E. rewrite Z.mul_add_distr_r. split; lia.
Qed.

Lemma float_2f_shown (x : spec_float) :
  is_finite x = true → float_shown x (Fmt.float_2f x).
Proof.
  destruct x as [s|s| |s m e]; try done; intros _; simpl.
  - apply shown_zero. apply (fixed2_two_decimals s 0). lia.
  - apply (shown_finite s m e (Fmt.cents m e)).
    + apply cents_nearest.
    + apply fixed2_two_decimals, cents_nonneg.
Qed.

Lemma format_2f_shown (n : Py.number) :
  finite n → ∃ s, Fmt.format_2f n = Return s ∧ shown n s.
Proof.
  intros (x & Hx & Hfin). exists (Fmt.float_2f x). split.
  - unfold Fmt.format_2f. by rewrite Hx.
  - exists x. split; [done|]. by apply float_2f_shown.
Qed.

(** Not-a-number and the infinities have no two-decimal numeral. *)
Lemma shown_finite_only (n : Py.number) (s : string) : shown n s → finite n.
Proof.
  intros (x & Hx & Hs). exists x. split; [done|]. by destruct Hs.
Qed.

(** * The account *)

Lemma invalid_argument_not_insufficient (e : exn) :
  is_invalid_argument e = true → is_insufficient_funds e = false.
Proof. destruct e as [msg|msg|msg]; simpl; try done. by destruct (String.eqb _ _). Qed.

(** ** Rejected calls *)

(** C4: a withdrawal of a positive amount larger than the balance raises
    the insufficient-funds error and leaves the account, hence its balance
    and its transaction log, as it was. *)
Theorem withdraw_insufficient_funds
    (now : datetime) (self : BankAccount.t) (a : Py.number) :
  Py.gt a (BankAccount.balance self) = true →
  Py.gt a Py.zero = true →
  ∃ e, BankAccount.withdraw now (Py.VNum a) self = (Raise e, self)
       ∧ is_insufficient_funds e = true
       ∧ BankAccount.balance (snd (BankAccount.withdraw now (Py.VNum a) self))
         = BankAccount.balance self
       ∧ BankAccount.transactions (snd (BankAccount.withdraw now (Py.VNum a) self))
         = BankAccount.transactions self.
Proof.
  intros Hgt Hpos. exists (ValueError "Insufficient funds.").
  assert (BankAccount.withdraw now (Py.VNum a) self
          = (Raise (ValueError "Insufficient funds."), self)) as ->.
  { unfold BankAccount.withdraw. simpl.
    rewrite (gt_not_le _ _ Hpos). unfold bind, read. simpl. by rewrite Hgt. }
  done.
Qed.

Lemma withdraw_insufficient_funds_witness :
  ∃ e, BankAccount.withdraw sample_now (Py.VNum (Py.PyInt 1000))
         (sample_account (Py.PyInt 120))
       = (Raise e, sample_account (Py.PyInt 120))
       ∧ is_insufficient_funds e = true
       ∧ BankAccount.balance
           (snd (BankAccount.withdraw sample_now (Py.VNum (Py.PyInt 1000))
                   (sample_account (Py.PyInt 120))))
         = Py.PyInt 120
       ∧ BankAccount.transactions
           (snd (BankAccount.withdraw sample_now (Py.VNum (Py.PyInt 1000))
                   (sample_account (Py.PyInt 120))))
         = [].
Proof.
  apply (withdraw_insufficient_funds sample_now (sample_account (Py.PyInt 120))
           (Py.PyInt 1000)); reflexivity.
Defined.

(** C5: [deposit] and [withdraw] with an amount that is not a number or is
    not positive, and the constructor with an initial balance that is not
    a number or is negative, raise an invalid-argument error, which is not
    the insufficient-funds error; the account is left as it was, and the
    constructor returns no account. *)
Theorem invalid_argument_no_state_change
    (now : datetime) (self : BankAccount.t) (amount : Py.value)
    (uuid4 : string) (today : date) (name : string)
    (initial_balance : Py.value) (account_type : string) :
  invalid_amount amount →
  invalid_initial_balance initial_balance →
  (∃ e, BankAccount.deposit now amount self = (Raise e, self)
        ∧ is_invalid_argument e = true ∧ is_insufficient_funds e = false)
  ∧ (∃ e, BankAccount.withdraw now amount self = (Raise e, self)
          ∧ is_invalid_argument e = true ∧ is_insufficient_funds e = false)
  ∧ (∃ e, BankAccount.__init__ uuid4 today name initial_balance account_type
          = Raise e
          ∧ is_invalid_argument e = true ∧ is_insufficient_funds e = false).
Proof.
  intros Hamount Hinit. repeat split.
  - destruct Hamount as [v Hv|a Ha].
    + exists (TypeError "Deposit amount must be a number.").
      unfold BankAccount.deposit. by rewrite Hv.
    + exists (ValueError "Deposit amount must be positive.").
      unfold BankAccount.deposit. simpl. by rewrite Ha.
  - destruct Hamount as [v Hv|a Ha].
    + exists (TypeError "Withdrawal amount must be a number.").
      unfold BankAccount.withdraw. by rewrite Hv.
    + exists (ValueError "Withdrawal amount must be positive.").
      unfold BankAccount.withdraw. simpl. by rewrite Ha.
  - destruct Hinit as [v Hv|b Hb].
    + exists (TypeError "Initial balance must be a number.").
      unfold BankAccount.__init__. by rewrite Hv.
    + exists (ValueError "Initial balance cannot be negative.").
      unfold BankAccount.__init__. simpl. by rewrite Hb.
Qed.

Lemma invalid_argument_no_state_change_witness :
  (∃ e, BankAccount.deposit sample_now (Py.VNum (Py.PyInt 0))
          (sample_account (Py.PyInt 120))
        = (Raise e, sample_account (Py.PyInt 120))
        ∧ is_invalid_argument e = true ∧ is_insufficient_funds e = false)
  ∧ (∃ e, BankAccount.withdraw sample_now (Py.VNum (Py.PyInt 0))
            (sample_account (Py.PyInt 120))
          = (Raise e, sample_account (Py.PyInt 120))
          ∧ is_invalid_argument e = true ∧ is_insufficient_funds e = false)
  ∧ (∃ e, BankAccount.__init__ "c0ffee" sample_today "Alice" (Py.VStr "100")
            "Savings" = Raise e
          ∧ is_invalid_argument e = true ∧ is_insufficient_funds e = false).
Proof.
  apply (invalid_argument_no_state_change sample_now
           (sample_account (Py.PyInt 120)) (Py.VNum (Py.PyInt 0))
           "c0ffee" sample_today "Alice" (Py.VStr "100") "Savings").
  - apply amount_not_positive. reflexivity.
  - apply initial_not_number. reflexivity.
Defined.

(** ** Deposits and withdrawals *)

Lemma deposit_returns (now : datetime) (self : BankAccount.t)
    (a b' : Py.number) (sa sb : string) :
  Py.le a Py.zero = false →
  Py.add (BankAccount.balance self) a = Return b' →
  Fmt.format_2f a = Return sa →
  Fmt.format_2f b' = Return sb →
  BankAccount.deposit now (Py.VNum a) self
  = (Return ("Deposited $" +:+ sa +:+ ". New balance: $" +:+ sb),
     BankAccount.append_transaction
       {| Transaction.timestamp := now;
          Transaction.type := "Deposit";
          Transaction.amount := a |}
       (BankAccount.set_balance b' self)).
Proof.
  intros Hle Hadd Hsa Hsb.
  unfold BankAccount.deposit, BankAccount._add_transaction. simpl.
  rewrite Hle. unfold bind, read, lift, update, ret.
  rewrite Hadd, Hsa. simpl. by rewrite Hsb.
Qed.

Lemma withdraw_returns (now : datetime) (self : BankAccount.t)
    (a b' : Py.number) (sa sb : string) :
  Py.le a Py.zero = false →
  Py.gt a (BankAccount.balance self) = false →
  Py.sub (BankAccount.balance self) a = Return b' →
  Fmt.format_2f a = Return sa →
  Fmt.format_2f b' = Return sb →
  BankAccount.withdraw now (Py.VNum a) self
  = (Return ("Withdrew $" +:+ sa +:+ ". New balance: $" +:+ sb),
     BankAccount.append_transaction
       {| Transaction.timestamp := now;
          Transaction.type := "Withdrawal";
          Transaction.amount := Py.neg a |}
       (BankAccount.set_balance b' self)).
Proof.
  intros Hle Hgt Hsub Hsa Hsb.
  unfold BankAccount.withdraw, BankAccount._add_transaction. simpl.
  rewrite Hle. unfold bind, read, lift, update, ret. rewrite Hgt.
  rewrite Hsub, Hsa. simpl. by rewrite Hsb.
Qed.

Lemma add_integers (a b c : Py.number) :
  Py.is_float a = false → Py.is_float b = false →
  Py.add a b = Return c → c = Py.PyInt (Py.int_value a + Py.int_value b).
Proof. unfold Py.add. intros -> -> H. simpl in H. by injection H. Qed.

Lemma sub_integers (a b c : Py.number) :
  Py.is_float a = false → Py.is_float b = false →
  Py.sub a b = Return c → c = Py.PyInt (Py.int_value a - Py.int_value b).
Proof. unfold Py.sub. intros -> -> H. simpl in H. by injection H. Qed.

(** With integers of magnitude below [2^1023] the sum and the difference
    are exact and both calls return. *)
Lemma deposit_integers (now : datetime) (self : BankAccount.t) (a : Py.number) :
  Py.is_float (BankAccount.balance self) = false → Py.is_float a = false →
  0 < Py.int_value a →
  Z.abs (Py.int_value a) < 2 ^ 1023 →
  Z.abs (Py.int_value (BankAccount.balance self) + Py.int_value a) < 2 ^ 1023 →
  ∃ sa sb self',
    BankAccount.deposit now (Py.VNum a) self
    = (Return ("Deposited $" +:+ sa +:+ ". New balance: $" +:+ sb), self')
    ∧ BankAccount.balance self'
      = Py.PyInt (Py.int_value (BankAccount.balance self) + Py.int_value a).
Proof.
  intros Hb Ha Hpos Hsmall Hsum.
  destruct (format_2f_shown a (integer_finite a Ha Hsmall)) as (sa & Hsa & _).
  destruct (format_2f_shown _
              (integer_finite
                 (Py.PyInt (Py.int_value (BankAccount.balance self)
                            + Py.int_value a)) eq_refl Hsum)) as (sb & Hsb & _).
  exists sa, sb. eexists. split.
  - apply (deposit_returns now self a
             (Py.PyInt (Py.int_value (BankAccount.balance self)
                        + Py.int_value a))); try done.
    + rewrite int_le_zero by done. lia.
    + unfold Py.add. by rewrite Hb, Ha.
  - reflexivity.
Qed.

Lemma withdraw_integers (now : datetime) (self : BankAccount.t) (a : Py.number) :
  Py.is_float (BankAccount.balance self) = false → Py.is_float a = false →
  0 < Py.int_value a ≤ Py.int_value (BankAccount.balance self) →
  Py.int_value (BankAccount.balance self) < 2 ^ 1023 →
  ∃ sa sb self',
    BankAccount.withdraw now (Py.VNum a) self
    = (Return ("Withdrew $" +:+ sa +:+ ". New balance: $" +:+ sb), self')
    ∧ BankAccount.balance self'
      = Py.PyInt (Py.int_value (BankAccount.balance self) - Py.int_value a).
Proof.
  intros Hb Ha Hpos Hsmall.
  destruct (format_2f_shown a (integer_finite a Ha ltac:(lia))) as (sa & Hsa & _).
  destruct (format_2f_shown _
              (integer_finite
                 (Py.PyInt (Py.int_value (BankAccount.balance self)
                            - Py.int_value a)) eq_refl ltac:(simpl; lia)))
    as (sb & Hsb & _).
  exists sa, sb. eexists. split.
  - apply (withdraw_returns now self a
             (Py.PyInt (Py.int_value (BankAccount.balance self)
                        - Py.int_value a))); try done.
    + rewrite int_le_zero by done. lia.
    + rewrite int_gt by done. lia.
    + unfold Py.sub. by rewrite Hb, Ha.
  - reflexivity.
Qed.

(** C3, as the specification words it, fails: depositing the double 1e308
    into a balance of 1e308 makes the balance infinite, and the message
    reports it as [inf]. *)
Lemma deposit_claim_counterexample :
  ¬ deposit_claim sample_now (sample_account (Py.PyFloat float_1e308))
      (Py.PyFloat float_1e308).
Proof.
  intros H. destruct (H eq_refl) as (b' & sa & sb & _ & Hadd & _ & Hsb).
  vm_compute in Hadd. injection Hadd as <-.
  destruct (shown_finite_only _ _ Hsb) as (x & Hx & Hfin).
  simpl in Hx. injection Hx as <-. discriminate Hfin.
Qed.

(** C3, amended: when the amount is positive and finite and Python's
    [balance + amount] is a finite number [b'], [deposit] sets the balance
    to [b'] (the exact sum for integers, the correctly rounded sum
    otherwise), appends exactly one Deposit transaction carrying the
    amount, and returns the message that shows the amount and the new
    balance with two decimals. *)
Theorem deposit_spec (now : datetime) (self : BankAccount.t) (a b' : Py.number) :
  Py.gt a Py.zero = true →
  Py.add (BankAccount.balance self) a = Return b' →
  finite a →
  finite b' →
  ∃ sa sb self',
    BankAccount.deposit now (Py.VNum a) self
    = (Return ("Deposited $" +:+ sa +:+ ". New balance: $" +:+ sb), self')
    ∧ shown a sa ∧ shown b' sb
    ∧ BankAccount.balance self' = b'
    ∧ BankAccount.transactions self'
      = BankAccount.transactions self
        ++ [{| Transaction.timestamp := now;
               Transaction.type := "Deposit";
               Transaction.amount := a |}]
    ∧ (Py.is_float (BankAccount.balance self) = false →
       Py.is_float a = false →
       b' = Py.PyInt (Py.int_value (BankAccount.balance self) + Py.int_value a)).
Proof.
  intros Hpos Hadd Ha Hb'.
  destruct (format_2f_shown a Ha) as (sa & Hsa & Hshown_a).
  destruct (format_2f_shown b' Hb') as (sb & Hsb & Hshown_b).
  exists sa, sb. eexists. split.
  { apply deposit_returns; eauto using gt_not_le. }
  repeat split; try done.
  intros Hfb Hfa. by apply add_integers.
Qed.

Lemma deposit_spec_witness :
  ∃ sa sb self',
    BankAccount.deposit sample_now (Py.VNum (Py.PyInt 50))
      (sample_account (Py.PyInt 100))
    = (Return ("Deposited $" +:+ sa +:+ ". New balance: $" +:+ sb), self')
    ∧ shown (Py.PyInt 50) sa ∧ shown (Py.PyInt 150) sb
    ∧ BankAccount.balance self' = Py.PyInt 150
    ∧ BankAccount.transactions self'
      = BankAccount.transactions (sample_account (Py.PyInt 100))
        ++ [{| Transaction.timestamp := sample_now;
               Transaction.type := "Deposit";
               Transaction.amount := Py.PyInt 50 |}]
    ∧ (Py.is_float (BankAccount.balance (sample_account (Py.PyInt 100))) = false →
       Py.is_float (Py.PyInt 50) = false →
       Py.PyInt 150
       = Py.PyInt (Py.int_value (BankAccount.balance (sample_account (Py.PyInt 100)))
                   + Py.int_value (Py.PyInt 50))).
Proof.
  apply (deposit_spec sample_now (sample_account (Py.PyInt 100))
           (Py.PyInt 50) (Py.PyInt 150)).
  - reflexivity.
  - reflexivity.
  - eexists. split; [vm_compute; reflexivity | reflexivity].
  - eexists. split; [vm_compute; reflexivity | reflexivity].
Defined.

(** C2, as the specification words it, fails: on an [int] balance of
    10**400 a withdrawal of 1 passes the checks and updates the account,
    and then formatting the new balance raises [OverflowError]. *)
Lemma withdraw_claim_counterexample :
  ¬ withdraw_claim sample_now (sample_account (Py.PyInt (10 ^ 400))) (Py.PyInt 1).
Proof.
  intros H.
  destruct (H eq_refl eq_refl) as (b' & sa & sb & Hw & _).
  vm_compute in Hw. discriminate Hw.
Qed.

(** C2, amended: when the amount is finite, [0 < amount <= balance], and
    Python's [balance - amount] is a finite number [b'], [withdraw] sets
    the balance to [b'] (the exact difference for integers, the correctly
    rounded one otherwise), appends exactly one Withdrawal transaction
    carrying [-amount], and returns the message that shows the amount and
    the new balance with two decimals. *)
Theorem withdraw_spec (now : datetime) (self : BankAccount.t) (a b' : Py.number) :
  Py.gt a Py.zero = true →
  Py.le a (BankAccount.balance self) = true →
  Py.sub (BankAccount.balance self) a = Return b' →
  finite a →
  finite b' →
  ∃ sa sb self',
    BankAccount.withdraw now (Py.VNum a) self
    = (Return ("Withdrew $" +:+ sa +:+ ". New balance: $" +:+ sb), self')
    ∧ shown a sa ∧ shown b' sb
    ∧ BankAccount.balance self' = b'
    ∧ BankAccount.transactions self'
      = BankAccount.transactions self
        ++ [{| Transaction.timestamp := now;
               Transaction.type := "Withdrawal";
               Transaction.amount := Py.neg a |}]
    ∧ (Py.is_float (BankAccount.balance self) = false →
       Py.is_float a = false →
       b' = Py.PyInt (Py.int_value (BankAccount.balance self) - Py.int_value a)).
Proof.
  intros Hpos Hle Hsub Ha Hb'.
  destruct (format_2f_shown a Ha) as (sa & Hsa & Hshown_a).
  destruct (format_2f_shown b' Hb') as (sb & Hsb & Hshown_b).
  exists sa, sb. eexists. split.
  { apply withdraw_returns; eauto using gt_not_le, le_not_gt. }
  repeat split; try done.
  intros Hfb Hfa. by apply sub_integers.
Qed.

Lemma withdraw_spec_witness :
  ∃ sa sb self',
    BankAccount.withdraw sample_now (Py.VNum (Py.PyInt 30))
      (sample_account (Py.PyInt 150))
    = (Return ("Withdrew $" +:+ sa +:+ ". New balance: $" +:+ sb), self')
    ∧ shown (Py.PyInt 30) sa ∧ shown (Py.PyInt 120) sb
    ∧ BankAccount.balance self' = Py.PyInt 120
    ∧ BankAccount.transactions self'
      = BankAccount.transactions (sample_account (Py.PyInt 150))
        ++ [{| Transaction.timestamp := sample_now;
               Transaction.type := "Withdrawal";
               Transaction.amount := Py.neg (Py.PyInt 30) |}]
    ∧ (Py.is_float (BankAccount.balance (sample_account (Py.PyInt 150))) = false →
       Py.is_float (Py.PyInt 30) = false →
       Py.PyInt 120
       = Py.PyInt (Py.int_value (BankAccount.balance (sample_account (Py.PyInt 150)))
                   - Py.int_value (Py.PyInt 30))).
Proof.
  apply (withdraw_spec sample_now (sample_account (Py.PyInt 150))
           (Py.PyInt 30) (Py.PyInt 120)).
  - reflexivity.
  - reflexivity.
  - reflexivity.
  - eexists. split; [vm_compute; reflexivity | reflexivity].
  - eexists. split; [vm_compute; reflexivity | reflexivity].
Defined.

(** ** The transaction history *)

Lemma append_assoc (a b c : string) : (a +:+ b) +:+ c = a +:+ (b +:+ c).
Proof.
  induction a as [|ch a IH]; [done|].
  change (String ch ((a +:+ b) +:+ c) = String ch (a +:+ b +:+ c)).
  by rewrite IH.
Qed.

Lemma append_empty_r (a : string) : a +:+ "" = a.
Proof.
  induction a as [|ch a IH]; [done|].
  change (String ch (a +:+ "") = String ch a). by rewrite IH.
Qed.

Lemma length_append (a b : string) :
  String.length (a +:+ b) = (String.length a + String.length b)%nat.
Proof.
  induction a as [|ch a IH]; [done|].
  change (S (String.length (a +:+ b)) = S (String.length a + String.length b)).
  by rewrite IH.
Qed.

Lemma length_spaces (n : nat) : String.length (Fmt.spaces n) = n.
Proof.
  induction n as [|n IH]; [done|].
  change (S (String.length (Fmt.spaces n)) = S n). by rewrite IH.
Qed.

Lemma ljust_left_aligned (w : nat) (s : string) :
  left_aligned w s (Fmt.ljust w s).
Proof.
  exists (w - String.length s)%nat. split; [done|].
  unfold Fmt.ljust. rewrite length_append, length_spaces. lia.
Qed.

Lemma rjust_right_aligned (w : nat) (s : string) :
  right_aligned w s (Fmt.rjust w s).
Proof.
  exists (w - String.length s)%nat. split; [done|].
  unfold Fmt.rjust. rewrite length_append, length_spaces. lia.
Qed.

Lemma pad2_field (n : Z) : 0 ≤ n < 100 → digits_field 2 n (Fmt.pad2 n).
Proof. apply pad2_spec. Qed.

(** Checked for each year from 1000 to 9999. *)
Lemma year_field (y : Z) : 1000 ≤ y ≤ 9999 → digits_field 4 y (Fmt.dec y).
Proof.
  intros Hy. split; [|apply decimal_value_dec; lia].
  assert (Forall (λ k : nat, String.length (Fmt.dec (Z.of_nat k)) = 4%nat)
            (seq (10 * 100) (90 * 100))) as Hall.
  { apply (bool_decide_unpack _). by vm_compute. }
  rewrite Forall_forall in Hall.
  specialize (Hall (Z.to_nat y)). rewrite Z2Nat.id in Hall by lia.
  apply Hall. apply elem_of_seq. lia.
Qed.

Lemma strftime_timestamp_text (dt : datetime) :
  clock_reading dt → timestamp_text dt (strftime_Ymd_HMS dt).
Proof.
  intros (HY & HM & HD & Hh & Hm & Hs).
  apply (timestamp_text_intro dt _ (Fmt.dec (year dt)) (Fmt.pad2 (month dt))
           (Fmt.pad2 (day dt)) (Fmt.pad2 (hour dt)) (Fmt.pad2 (minute dt))
           (Fmt.pad2 (second dt)));
    [done|by apply year_field|apply pad2_field; lia..].
Qed.

(** A negative number is shown with a minus sign. *)
Lemma binary_normalize_negative (p : positive) (e : Z) :
  match binary_normalize Py.prec Py.emax (Z.neg p) e false with
  | S754_zero s | S754_infinity s | S754_finite s _ _ => s = true
  | S754_nan => True
  end.
Proof.
  unfold binary_normalize, binary_round.
  destruct (shl_align _ _ _) as [mz ez].
  unfold binary_round_aux.
  destruct (shr_fexp _ _ _ _ _) as [mrs' e'].
  destruct (shr_fexp _ _ _ _ _) as [mrs'' e''].
  by destruct (shr_m mrs'') as [|m|m]; [|destruct (_ <=? _)|].
Qed.

Lemma shown_negative (n : Py.number) (body : string) :
  shown n body → Py.lt n Py.zero = true → ∃ digits, body = "-" +:+ digits.
Proof.
  intros (x & Hx & Hshown) Hlt.
  assert (match x with
          | S754_zero s | S754_finite s _ _ => s = true
          | _ => True
          end) as Hsign.
  { destruct n as [b|z|y]; simpl in Hx.
    - by destruct b.
    - destruct z as [|p|p]; [done..|].
      unfold Py.float_of_int in Hx.
      pose proof (binary_normalize_negative p 0) as Hs.
      destruct (binary_normalize _ _ _ _ _); by inversion Hx; subst.
    - injection Hx as <-. rewrite float_lt_zero in Hlt.
      by destruct y as [[]|[]| |[] m e]. }
  destruct Hshown as [s str [ip fp i f -> _ _ _ _]|s m e c str _ [ip fp i f -> _ _ _ _]];
    subst; by eexists.
Qed.

Lemma history_line_spec (t : Transaction.t) :
  listable t →
  ∃ line, BankAccount.history_line t = Return line ∧ history_line_of t line.
Proof.
  intros [Hclock Hfin].
  destruct (format_2f_shown _ Hfin) as (body & Hbody & Hshown).
  eexists. split.
  { unfold BankAccount.history_line, Fmt.format_r8_2f. rewrite Hbody.
    simpl. reflexivity. }
  apply (history_line_intro t _ (strftime_Ymd_HMS (Transaction.timestamp t))
           (Fmt.ljust 10 (Transaction.type t)) (Fmt.rjust 8 body) body).
  - done.
  - by apply strftime_timestamp_text.
  - apply ljust_left_aligned.
  - done.
  - apply rjust_right_aligned.
  - by apply shown_negative.
Qed.

Lemma history_loop_spec (txs : list Transaction.t) (history_text : string) :
  Forall listable txs →
  ∃ lines,
    BankAccount.history_loop txs history_text
    = Return (history_text +:+ join lines)
    ∧ Forall2 history_line_of txs lines.
Proof.
  intros Htxs. revert history_text.
  induction Htxs as [|t txs Ht _ IH]; intros history_text.
  - exists []. split; [|constructor]. simpl. by rewrite append_empty_r.
  - destruct (history_line_spec t Ht) as (line & Hline & Hof).
    destruct (IH (history_text +:+ line)) as (lines & Hloop & Hall).
    exists (line :: lines). split; [|by constructor].
    simpl. rewrite Hline. simpl. by rewrite Hloop, append_assoc.
Qed.

(** C9, as the specification words it, fails: after a deposit of the
    double infinity the account lists the amount as [inf], which is not a
    two-decimal numeral. *)
Lemma history_claim_counterexample :
  ¬ history_claim
      (snd (BankAccount.deposit sample_now
              (Py.VNum (Py.PyFloat (S754_infinity false)))
              (sample_account (Py.PyInt 100)))).
Proof.
  unfold history_claim. simpl.
  intros (lines & _ & Hall).
  inversion Hall as [|t line txs rest Hline _]; subst.
  destruct Hline as [ts ty am body _ _ _ Hshown _ _].
  destruct (shown_finite_only _ _ Hshown) as (x & Hx & Hfin).
  simpl in Hx. injection Hx as <-. discriminate Hfin.
Qed.

(** C9, amended: with an empty log [format_transaction_history] returns
    "No transactions yet."; with a log whose timestamps are clock readings
    and whose amounts are finite it returns the bordered block that lists
    every transaction in log order, one line each: the timestamp as
    [YYYY-MM-DD HH:MM:SS], the type left-aligned in width 10, the amount
    right-aligned in width 8 with two decimals and its minus sign. *)
Theorem format_transaction_history_spec (self : BankAccount.t) :
  Forall listable (BankAccount.transactions self) →
  history_claim self.
Proof.
  intros Htxs. unfold history_claim, BankAccount.format_transaction_history.
  unfold bind, read, lift, ret.
  destruct (BankAccount.transactions self) as [|t txs] eqn:E; [done|].
  destruct (history_loop_spec (t :: txs)
              (BankAccount.border +:+ "
Transaction History:
" +:+ BankAccount.border +:+ "
") Htxs) as (lines & Hloop & Hall).
  exists lines. split; [|done].
  rewrite Hloop. by rewrite !append_assoc.
Qed.

Lemma format_transaction_history_spec_witness : history_claim sample_history.
Proof.
  apply (format_transaction_history_spec sample_history).
  repeat (constructor;
          [split;
           [unfold clock_reading; simpl; lia
           |eexists; split; [vm_compute; reflexivity|reflexivity]]|]).
  constructor.
Defined.

Example sample_history_text :
  fst (BankAccount.format_transaction_history sample_history)
  = Return "------------------------------
Transaction History:
------------------------------
2024-03-07 09:05:00 - Deposit   : $   50.00
2024-03-07 09:05:00 - Withdrawal: $  -30.00
------------------------------".
Proof. reflexivity. Qed.

(** ** The balance invariant *)

Lemma deposit_state (now : datetime) (a : Py.number) (self : BankAccount.t) :
  snd (BankAccount.deposit now (Py.VNum a) self)
  = if Py.le a Py.zero then self
    else match Py.add (BankAccount.balance self) a with
         | Return b' =>
             BankAccount.append_transaction
               {| Transaction.timestamp := now;
                  Transaction.type := "Deposit";
                  Transaction.amount := a |}
               (BankAccount.set_balance b' self)
         | Raise _ => self
         end.
Proof.
  unfold BankAccount.deposit, BankAccount._add_transaction. simpl.
  destruct (Py.le a Py.zero); [done|].
  unfold bind, read, lift, update, ret.
  destruct (Py.add (BankAccount.balance self) a) as [b'|e]; [|done].
  destruct (Fmt.format_2f a); [|done]. simpl.
  by destruct (Fmt.format_2f b').
Qed.

Lemma withdraw_state (now : datetime) (a : Py.number) (self : BankAccount.t) :
  snd (BankAccount.withdraw now (Py.VNum a) self)
  = if Py.le a Py.zero then self
    else if Py.gt a (BankAccount.balance self) then self
    else match Py.sub (BankAccount.balance self) a with
         | Return b' =>
             BankAccount.append_transaction
               {| Transaction.timestamp := now;
                  Transaction.type := "Withdrawal";
                  Transaction.amount := Py.neg a |}
               (BankAccount.set_balance b' self)
         | Raise _ => self
         end.
Proof.
  unfold BankAccount.withdraw, BankAccount._add_transaction. simpl.
  destruct (Py.le a Py.zero); [done|].
  unfold bind, read, lift, update, ret.
  destruct (Py.gt a (BankAccount.balance self)); [done|].
  destruct (Py.sub (BankAccount.balance self) a) as [b'|e]; [|done].
  destruct (Fmt.format_2f a); [|done]. simpl.
  by destruct (Fmt.format_2f b').
Qed.

Lemma rejected_state (o : operation) (self : BankAccount.t) :
  Py.isinstance_int_float (operation_amount o) = None →
  snd (apply_operation o self) = self.
Proof.
  destruct o as [now amount|now amount]; simpl; intros H.
  - unfold BankAccount.deposit. by rewrite H.
  - unfold BankAccount.withdraw. by rewrite H.
Qed.

Lemma accumulate_snoc (b0 : Py.number) (txs : list Transaction.t)
    (t : Transaction.t) :
  accumulate b0 (txs ++ [t])
  = outcome_bind (accumulate b0 txs) (λ s, Py.add s (Transaction.amount t)).
Proof. unfold accumulate. by rewrite fold_left_app. Qed.

Lemma int_sum_snoc (txs : list Transaction.t) (t : Transaction.t) :
  int_sum (txs ++ [t]) = int_sum txs + Py.int_value (Transaction.amount t).
Proof. induction txs as [|t' txs IH]; simpl; [lia|]. rewrite IH. lia. Qed.

Lemma apply_operation_inv (b0 : Py.number) (o : operation) (self : BankAccount.t) :
  value_ok (operation_amount o) →
  account_inv b0 self → account_inv b0 (snd (apply_operation o self)).
Proof.
  intros Hok (Hnonneg & Hm & Hacc).
  destruct (Py.isinstance_int_float (operation_amount o)) as [a|] eqn:Ea;
    [|by rewrite rejected_state].
  assert (operation_amount o = Py.VNum a) as Hamount
    by (by destruct (operation_amount o); inversion Ea).
  assert (number_mantissa_ok a) as Ha.
  { rewrite Hamount in Hok. destruct a as [| |x]; try done.
    by apply float_ok_mantissa_ok. }
  destruct o as [now amount|now amount]; simpl in Hamount; subst amount; simpl.
  - rewrite deposit_state.
    destruct (Py.le a Py.zero) eqn:Hle; [done|].
    destruct (Py.add (BankAccount.balance self) a) as [b'|e] eqn:Hadd; [|done].
    repeat split; simpl.
    + by apply (add_nonneg (BankAccount.balance self) a).
    + by apply (add_mantissa_ok (BankAccount.balance self) a).
    + by rewrite accumulate_snoc, Hacc.
  - rewrite withdraw_state.
    destruct (Py.le a Py.zero) eqn:Hle; [done|].
    destruct (Py.gt a (BankAccount.balance self)) eqn:Hgt; [done|].
    destruct (Py.sub (BankAccount.balance self) a) as [b'|e] eqn:Hsub; [|done].
    repeat split; simpl.
    + by apply (sub_nonneg (BankAccount.balance self) a).
    + by apply (sub_mantissa_ok (BankAccount.balance self) a).
    + rewrite accumulate_snoc, Hacc. simpl. by rewrite add_neg.
Qed.

Lemma apply_operation_integer_inv (z0 : Z) (o : operation) (self : BankAccount.t) :
  integral (operation_amount o) →
  integer_inv z0 self → integer_inv z0 (snd (apply_operation o self)).
Proof.
  intros Hint (Hb & Hsum).
  destruct (Py.isinstance_int_float (operation_amount o)) as [a|] eqn:Ea;
    [|by rewrite rejected_state].
  assert (operation_amount o = Py.VNum a) as Hamount
    by (by destruct (operation_amount o); inversion Ea).
  rewrite Hamount in Hint. simpl in Hint.
  destruct o as [now amount|now amount]; simpl in Hamount; subst amount; simpl.
  - rewrite deposit_state.
    destruct (Py.le a Py.zero) eqn:Hle; [done|].
    destruct (Py.add (BankAccount.balance self) a) as [b'|e] eqn:Hadd; [|done].
    rewrite (add_integers _ _ _ Hb Hint Hadd).
    split; simpl; [done|]. rewrite int_sum_snoc. simpl. lia.
  - rewrite withdraw_state.
    destruct (Py.le a Py.zero) eqn:Hle; [done|].
    destruct (Py.gt a (BankAccount.balance self)) eqn:Hgt; [done|].
    destruct (Py.sub (BankAccount.balance self) a) as [b'|e] eqn:Hsub; [|done].
    rewrite (sub_integers _ _ _ Hb Hint Hsub).
    split; simpl; [done|]. rewrite int_sum_snoc. simpl.
    assert (Py.int_value (Py.neg a) = - Py.int_value a) as ->
      by by destruct a.
    lia.
Qed.

Lemma run_inv (P : BankAccount.t → Prop) (Q : operation → Prop)
    (ops : list operation) (self : BankAccount.t) :
  (∀ o s, Q o → P s → P (snd (apply_operation o s))) →
  Forall Q ops → P self → P (run ops self).
Proof.
  intros Hstep Hops. revert self.
  induction Hops as [|o ops Ho _ IH]; intros self Hself; [done|].
  apply IH. by apply Hstep.
Qed.

Lemma init_returns (uuid4 : string) (today : date) (name : string)
    (initial_balance : Py.value) (account_type : string) (self0 : BankAccount.t) :
  BankAccount.__init__ uuid4 today name initial_balance account_type
  = Return self0 →
  initial_balance = Py.VNum (BankAccount.balance self0)
  ∧ Py.lt (BankAccount.balance self0) Py.zero = false
  ∧ BankAccount.transactions self0 = [].
Proof.
  unfold BankAccount.__init__.
  destruct initial_balance as [b| |]; simpl; [|done..].
  destruct (Py.lt b Py.zero) eqn:E; [done|]. by intros [= <-].
Qed.

(** C1, as the specification words it, fails: from an initial balance of
    1e16, two deposits of 1.0 each leave the balance at 1e16, while the
    initial balance plus the sum of the recorded amounts is
    1.0000000000000002e16. *)
Lemma balance_claim_counterexample :
  ¬ balance_claim "c0ffee" sample_today "Alice"
      (Py.VNum (Py.PyFloat float_1e16)) "Savings"
      [Op_deposit sample_now (Py.VNum (Py.PyFloat float_1));
       Op_deposit sample_now (Py.VNum (Py.PyFloat float_1))].
Proof.
  intros H.
  destruct (H (sample_account (Py.PyFloat float_1e16)) eq_refl)
    as [_ (s & total & Hs & Ht & Heq)].
  { repeat split; eexists; vm_compute; reflexivity. }
  vm_compute in Hs. injection Hs as <-.
  vm_compute in Ht. injection Ht as <-.
  vm_compute in Heq. discriminate Heq.
Qed.

(** C1, amended: for an account constructed from any accepted initial
    balance and taken through any calls of [deposit] and [withdraw]
    (returning or raising), the balance is never negative, and it is the
    initial balance with the signed amounts of the recorded transactions
    added one after the other in Python arithmetic; when the initial
    balance and all amounts are integers, the balance is an integer and
    equals the initial balance plus the exact sum of the recorded signed
    amounts. *)
Theorem balance_invariant (uuid4 : string) (today : date) (name : string)
    (initial_balance : Py.value) (account_type : string)
    (self0 : BankAccount.t) (ops : list operation) :
  value_ok initial_balance →
  Forall (λ o, value_ok (operation_amount o)) ops →
  BankAccount.__init__ uuid4 today name initial_balance account_type
  = Return self0 →
  Py.lt (BankAccount.balance (run ops self0)) Py.zero = false
  ∧ accumulate (BankAccount.balance self0)
      (BankAccount.transactions (run ops self0))
    = Return (BankAccount.balance (run ops self0))
  ∧ (integral initial_balance →
     Forall (λ o, integral (operation_amount o)) ops →
     Py.is_float (BankAccount.balance (run ops self0)) = false
     ∧ Py.int_value (BankAccount.balance (run ops self0))
       = Py.int_value (BankAccount.balance self0)
         + int_sum (BankAccount.transactions (run ops self0))).
Proof.
  intros Hinit Hops Hnew.
  destruct (init_returns _ _ _ _ _ _ Hnew) as (-> & Hnonneg & Htxs).
  assert (account_inv (BankAccount.balance self0) (run ops self0))
    as (H1 & _ & H3).
  { apply (run_inv _ _ ops self0 (apply_operation_inv _) Hops).
    repeat split; [done| |by rewrite Htxs].
    simpl in Hinit. destruct (BankAccount.balance self0); try done.
    by apply float_ok_mantissa_ok. }
  split; [done|split; [done|]].
  intros Hint Hints.
  apply (run_inv _ _ ops self0
           (apply_operation_integer_inv (Py.int_value (BankAccount.balance self0)))
           Hints).
  split; [done|]. rewrite Htxs. simpl. lia.
Qed.

Lemma balance_invariant_witness :
  Py.lt (BankAccount.balance (run sample_ops (sample_account (Py.PyInt 100))))
    Py.zero = false
  ∧ accumulate (Py.PyInt 100)
      (BankAccount.transactions (run sample_ops (sample_account (Py.PyInt 100))))
    = Return (BankAccount.balance (run sample_ops (sample_account (Py.PyInt 100))))
  ∧ Py.is_float
      (BankAccount.balance (run sample_ops (sample_account (Py.PyInt 100))))
    = false
  ∧ Py.int_value
      (BankAccount.balance (run sample_ops (sample_account (Py.PyInt 100))))
    = 100 + int_sum (BankAccount.transactions
                       (run sample_ops (sample_account (Py.PyInt 100)))).
Proof.
  destruct (balance_invariant "c0ffee" sample_today "Alice"
              (Py.VNum (Py.PyInt 100)) "Savings"
              (sample_account (Py.PyInt 100)) sample_ops)
    as (H1 & H2 & H3).
  - exact I.
  - repeat constructor.
  - reflexivity.
  - split; [exact H1|]. split; [exact H2|].
    apply H3; [reflexivity|repeat constructor].
Defined.

Example sample_ops_balance :
  BankAccount.balance (run sample_ops (sample_account (Py.PyInt 100)))
  = Py.PyInt 120.
Proof. reflexivity. Qed.

(** * The ledger *)

(** C6: [create_account] with a rejected initial balance returns, without
    raising, the failure message that embeds the text of the constructor's
    error and stores nothing; with an initial balance [>= 0] it stores the
    new account under the generated identifier, returns the success message
    that ends with that identifier, and [get_account] on the identifier then
    yields an account whose balance is the initial balance. *)
Theorem create_account_spec
    (self : BankingSystem.t) (uuid4 : string) (today : date) (name : string)
    (account_type : string) (bad : Py.value) (good : Py.number) :
  invalid_initial_balance bad →
  Py.le Py.zero good = true →
  (∃ e, BankAccount.__init__ uuid4 today name bad account_type = Raise e
        ∧ BankingSystem.create_account uuid4 today name bad account_type self
          = (Return ("Account creation failed: " +:+ exn_str e), self))
  ∧ (∃ account self',
       BankingSystem.create_account uuid4 today name (Py.VNum good)
         account_type self
       = (Return ("Account created successfully. Account number: " +:+ uuid4),
          self')
       ∧ BankingSystem.accounts self'
         = <[uuid4 := account]> (BankingSystem.accounts self)
       ∧ BankAccount.account_number account = uuid4
       ∧ BankingSystem.get_account uuid4 self' = (Return (Some account), self')
       ∧ BankAccount.balance account = good).
Proof.
  intros Hbad Hgood. split.
  - destruct Hbad as [v Hv|b Hb].
    + exists (TypeError "Initial balance must be a number.").
      unfold BankingSystem.create_account, BankAccount.__init__.
      by rewrite Hv.
    + exists (ValueError "Initial balance cannot be negative.").
      unfold BankingSystem.create_account, BankAccount.__init__. simpl.
      by rewrite Hb.
  - unfold BankingSystem.create_account, BankAccount.__init__. simpl.
    rewrite (le_not_lt _ _ Hgood). simpl.
    eexists _, _. split; [reflexivity|]. simpl.
    repeat split.
    unfold BankingSystem.get_account, read. simpl.
    by rewrite lookup_insert_eq.
Qed.

Lemma create_account_spec_witness :
  (∃ e, BankAccount.__init__ "c0ffee" sample_today "Alice"
          (Py.VNum (Py.PyInt (-5))) "Savings" = Raise e
        ∧ BankingSystem.create_account "c0ffee" sample_today "Alice"
            (Py.VNum (Py.PyInt (-5))) "Savings" BankingSystem.__init__
          = (Return ("Account creation failed: " +:+ exn_str e),
             BankingSystem.__init__))
  ∧ (∃ account self',
       BankingSystem.create_account "c0ffee" sample_today "Alice"
         (Py.VNum (Py.PyInt 100)) "Savings" BankingSystem.__init__
       = (Return ("Account created successfully. Account number: " +:+ "c0ffee"),
          self')
       ∧ BankingSystem.accounts self'
         = <["c0ffee" := account]> (BankingSystem.accounts BankingSystem.__init__)
       ∧ BankAccount.account_number account = "c0ffee"
       ∧ BankingSystem.get_account "c0ffee" self' = (Return (Some account), self')
       ∧ BankAccount.balance account = Py.PyInt 100).
Proof.
  apply (create_account_spec BankingSystem.__init__ "c0ffee" sample_today
           "Alice" "Savings" (Py.VNum (Py.PyInt (-5))) (Py.PyInt 100)).
  - apply initial_negative. reflexivity.
  - reflexivity.
Defined.

Lemma do_call_keeps_absent (c : call) (id : string) (self : BankingSystem.t) :
  ¬ inserts c id →
  BankingSystem.accounts self !! id = None →
  BankingSystem.accounts (do_call c self) !! id = None.
Proof.
  intros Hc Hid.
  destruct c as [uuid4 today name init ty|k|k now amount|k now amount]; simpl in *.
  - unfold BankingSystem.create_account.
    destruct (BankAccount.__init__ uuid4 today name init ty) as [account|[]] eqn:E;
      simpl; try done.
    assert (BankAccount.account_number account = uuid4) as ->.
    { unfold BankAccount.__init__ in E.
      destruct (Py.isinstance_int_float init); [|done].
      destruct (Py.lt _ _); [done|]. by inversion E. }
    by rewrite lookup_insert_ne.
  - unfold BankingSystem.delete_account.
    destruct (BankingSystem.accounts self !! k) eqn:E; simpl; [|done].
    rewrite lookup_delete_ne; [done|]. intros ->. congruence.
  - unfold on_account.
    destruct (BankingSystem.accounts self !! k) eqn:E; simpl; [|done].
    rewrite lookup_insert_ne; [done|]. intros ->. congruence.
  - unfold on_account.
    destruct (BankingSystem.accounts self !! k) eqn:E; simpl; [|done].
    rewrite lookup_insert_ne; [done|]. intros ->. congruence.
Qed.

Lemma do_calls_keep_absent (cs : list call) (id : string) (self : BankingSystem.t) :
  Forall (λ c, ¬ inserts c id) cs →
  BankingSystem.accounts self !! id = None →
  BankingSystem.accounts (do_calls cs self) !! id = None.
Proof.
  intros Hcs. revert self.
  induction Hcs as [|c cs Hc _ IH]; intros self Hid; [done|].
  apply IH. by apply do_call_keeps_absent.
Qed.

(** C7: on a ledger built by any calls none of which inserted under the
    identifier, [get_account] returns [None] without raising; and on every
    ledger the lookup leaves the ledger as it was. *)
Theorem get_account_never_inserted (cs : list call) (id : string) :
  Forall (λ c, ¬ inserts c id) cs →
  BankingSystem.get_account id (do_calls cs BankingSystem.__init__)
  = (Return None, do_calls cs BankingSystem.__init__)
  ∧ ∀ self : BankingSystem.t, snd (BankingSystem.get_account id self) = self.
Proof.
  intros Hcs. split; [|done].
  unfold BankingSystem.get_account, read.
  by rewrite (do_calls_keep_absent cs id BankingSystem.__init__ Hcs).
Qed.

Lemma get_account_never_inserted_witness :
  BankingSystem.get_account "decaf"
    (do_calls [CreateAccount "c0ffee" sample_today "Alice"
                 (Py.VNum (Py.PyInt 100)) "Savings";
               Deposit "c0ffee" sample_now (Py.VNum (Py.PyInt 50));
               DeleteAccount "decaf"] BankingSystem.__init__)
  = (Return None,
     do_calls [CreateAccount "c0ffee" sample_today "Alice"
                 (Py.VNum (Py.PyInt 100)) "Savings";
               Deposit "c0ffee" sample_now (Py.VNum (Py.PyInt 50));
               DeleteAccount "decaf"] BankingSystem.__init__)
  ∧ ∀ self : BankingSystem.t, snd (BankingSystem.get_account "decaf" self) = self.
Proof.
  apply (get_account_never_inserted
           [CreateAccount "c0ffee" sample_today "Alice"
              (Py.VNum (Py.PyInt 100)) "Savings";
            Deposit "c0ffee" sample_now (Py.VNum (Py.PyInt 50));
            DeleteAccount "decaf"] "decaf").
  repeat (constructor;
          [simpl; intros H; solve [discriminate H | destruct H]|]).
  constructor.
Defined.

(** C8: [delete_account] on a present identifier removes the account, so
    that [get_account] on it then returns [None], and returns the success
    message naming the identifier; a second delete of it, like a delete of
    any absent identifier, returns the not-found message. *)
Theorem delete_account_spec (self : BankingSystem.t) (id missing : string) :
  is_Some (BankingSystem.accounts self !! id) →
  BankingSystem.accounts self !! missing = None →
  BankingSystem.delete_account id self
  = (Return ("Account " +:+ id +:+ " deleted successfully."),
     {| BankingSystem.accounts := delete id (BankingSystem.accounts self) |})
  ∧ fst (BankingSystem.get_account id
           (snd (BankingSystem.delete_account id self))) = Return None
  ∧ fst (BankingSystem.delete_account id
           (snd (BankingSystem.delete_account id self)))
    = Return ("Account " +:+ id +:+ " not found.")
  ∧ BankingSystem.delete_account missing self
    = (Return ("Account " +:+ missing +:+ " not found."), self).
Proof.
  intros [account Hid] Hmissing.
  unfold BankingSystem.delete_account, BankingSystem.get_account, read.
  rewrite Hid, Hmissing. simpl. by rewrite lookup_delete_eq.
Qed.

Lemma delete_account_spec_witness :
  BankingSystem.delete_account "c0ffee" sample_ledger
  = (Return ("Account " +:+ "c0ffee" +:+ " deleted successfully."),
     {| BankingSystem.accounts :=
          delete "c0ffee" (BankingSystem.accounts sample_ledger) |})
  ∧ fst (BankingSystem.get_account "c0ffee"
           (snd (BankingSystem.delete_account "c0ffee" sample_ledger)))
    = Return None
  ∧ fst (BankingSystem.delete_account "c0ffee"
           (snd (BankingSystem.delete_account "c0ffee" sample_ledger)))
    = Return ("Account " +:+ "c0ffee" +:+ " not found.")
  ∧ BankingSystem.delete_account "decaf" sample_ledger
    = (Return ("Account " +:+ "decaf" +:+ " not found."), sample_ledger).
Proof.
  apply (delete_account_spec sample_ledger "c0ffee" "decaf").
  - exists (sample_account (Py.PyInt 120)). reflexivity.
  - reflexivity.
Defined.

(** C10: [delete_account] leaves the entry of every other identifier, and
    with it that account's balance and transaction log, as it was; when the
    identifier is absent the whole ledger is left as it was. *)
Theorem delete_account_frame (self : BankingSystem.t) (id other missing : string) :
  other ≠ id →
  BankingSystem.accounts self !! missing = None →
  BankingSystem.accounts (snd (BankingSystem.delete_account id self)) !! other
  = BankingSystem.accounts self !! other
  ∧ snd (BankingSystem.delete_account missing self) = self.
Proof.
  intros Hne Hmissing. unfold BankingSystem.delete_account.
  rewrite Hmissing. split; [|done].
  destruct (BankingSystem.accounts self !! id); simpl; [|done].
  by rewrite lookup_delete_ne.
Qed.

Lemma delete_account_frame_witness :
  BankingSystem.accounts
    (snd (BankingSystem.delete_account "c0ffee" sample_ledger)) !! "beef"
  = BankingSystem.accounts sample_ledger !! "beef"
  ∧ snd (BankingSystem.delete_account "decaf" sample_ledger) = sample_ledger.
Proof.
  apply (delete_account_frame sample_ledger "c0ffee" "beef" "decaf").
  - intros H. discriminate H.
  - reflexivity.
Defined.

(** ** The scenario of the specification *)

(** An account opened with 100, a deposit of 50, a withdrawal of 30 and a
    refused withdrawal of 1000, all through the ledger. *)
Example alice_scenario :
  ∃ account,
    fst (BankingSystem.get_account "c0ffee"
           (do_calls
              [CreateAccount "c0ffee" sample_today "Alice"
                 (Py.VNum (Py.PyInt 100)) "Savings";
               Deposit "c0ffee" sample_now (Py.VNum (Py.PyInt 50));
               Withdraw "c0ffee" sample_now (Py.VNum (Py.PyInt 30));
               Withdraw "c0ffee" sample_now (Py.VNum (Py.PyInt 1000))]
              BankingSystem.__init__))
    = Return (Some account)
    ∧ BankAccount.balance account = Py.PyInt 120
    ∧ fst (BankAccount.format_transaction_history account)
      = Return "------------------------------
Transaction History:
------------------------------
2024-03-07 09:05:00 - Deposit   : $   50.00
2024-03-07 09:05:00 - Withdrawal: $  -30.00
------------------------------".
Proof. eexists. split; [vm_compute; reflexivity|]. split; reflexivity. Qed.

Example alice_messages :
  fst (BankAccount.deposit sample_now (Py.VNum (Py.PyInt 50))
         (sample_account (Py.PyInt 100)))
  = Return "Deposited $50.00. New balance: $150.00"
  ∧ fst (BankAccount.withdraw sample_now (Py.VNum (Py.PyInt 30))
           (sample_account (Py.PyInt 150)))
    = Return "Withdrew $30.00. New balance: $120.00"
  ∧ fst (BankAccount.withdraw sample_now (Py.VNum (Py.PyInt 1000))
           (sample_account (Py.PyInt 120)))
    = Raise (ValueError "Insufficient funds.")
  ∧ fst (BankingSystem.create_account "c0ffee" sample_today "Alice"
           (Py.VNum (Py.PyInt (-5))) "Savings" BankingSystem.__init__)
    = Return "Account creation failed: Initial balance cannot be negative.".
Proof. repeat split; reflexivity. Qed.

(** * Further properties of the account *)

(** ** What a call does to the account *)

(** A call leaves the account as it was, or it sets the balance and
    appends one transaction stamped with the clock reading of the call. *)
Lemma apply_operation_step (o : operation) (s : BankAccount.t) :
  snd (apply_operation o s) = s
  ∨ ∃ a b' ty recorded,
      operation_amount o = Py.VNum a
      ∧ Py.le a Py.zero = false
      ∧ snd (apply_operation o s)
        = BankAccount.append_transaction
            {| Transaction.timestamp := operation_now o;
               Transaction.type := ty;
               Transaction.amount := recorded |}
            (BankAccount.set_balance b' s)
      ∧ ((ty = "Deposit" ∧ recorded = a
          ∧ Py.add (BankAccount.balance s) a = Return b')
         ∨ (ty = "Withdrawal" ∧ recorded = Py.neg a
            ∧ Py.gt a (BankAccount.balance s) = false
            ∧ Py.sub (BankAccount.balance s) a = Return b')).
Proof.
  destruct (Py.isinstance_int_float (operation_amount o)) as [a|] eqn:Ea;
    [|left; by apply rejected_state].
  assert (operation_amount o = Py.VNum a) as Hamount
    by (by destruct (operation_amount o); inversion Ea).
  destruct o as [now amount|now amount]; simpl in Hamount; subst amount; simpl.
  - rewrite deposit_state.
    destruct (Py.le a Py.zero) eqn:Hle; [by left|].
    destruct (Py.add (BankAccount.balance s) a) as [b'|e] eqn:Hadd; [|by left].
    right. exists a, b', "Deposit", a. repeat split; auto.
  - rewrite withdraw_state.
    destruct (Py.le a Py.zero) eqn:Hle; [by left|].
    destruct (Py.gt a (BankAccount.balance s)) eqn:Hgt; [by left|].
    destruct (Py.sub (BankAccount.balance s) a) as [b'|e] eqn:Hsub; [|by left].
    right. exists a, b', "Withdrawal", (Py.neg a). repeat split; auto.
Qed.

(** X1: no sequence of deposits and withdrawals changes the account
    number, the holder name, the account type or the creation date. *)
Theorem operations_keep_identity (ops : list operation) (self : BankAccount.t) :
  BankAccount.account_number (run ops self) = BankAccount.account_number self
  ∧ BankAccount.account_holder_name (run ops self)
    = BankAccount.account_holder_name self
  ∧ BankAccount.account_type (run ops self) = BankAccount.account_type self
  ∧ BankAccount.creation_date (run ops self) = BankAccount.creation_date self.
Proof.
  revert self. induction ops as [|o ops IH]; intros self; [done|].
  change (run (o :: ops) self) with (run ops (snd (apply_operation o self))).
  destruct (IH (snd (apply_operation o self))) as (-> & -> & -> & ->).
  by destruct (apply_operation_step o self)
    as [->|(a & b' & ty & rec & _ & _ & -> & _)].
Qed.

(** X2: the transaction log is append-only: whatever calls follow, the
    log as it was is a prefix of the log as it is. *)
Theorem log_append_only (ops : list operation) (self : BankAccount.t) :
  BankAccount.transactions self
  `prefix_of` BankAccount.transactions (run ops self).
Proof.
  revert self. induction ops as [|o ops IH]; intros self; [done|].
  change (run (o :: ops) self) with (run ops (snd (apply_operation o self))).
  etrans; [|apply IH].
  destruct (apply_operation_step o self)
    as [->|(a & b' & ty & rec & _ & _ & -> & _)]; [done|].
  simpl. by apply prefix_app_r.
Qed.

Lemma le_zero_neg (a : Py.number) :
  Py.le Py.zero (Py.neg a) = Py.le a Py.zero.
Proof.
  unfold Py.le, Py.compare, Py.zero.
  change (Py.xnum_of (Py.PyInt 0)) with (Py.XFin 0 0).
  rewrite (xcompare_antisym (Py.xnum_of (Py.neg a)) (Py.XFin 0 0)).
  destruct a as [[]|z|[[]|[]| |[] m e]]; try done;
    cbn [Py.neg Py.xnum_of Py.xnum_of_float Py.int_value Py.int_of_bool
         SFopp negb cond_Zopp];
    rewrite !xcompare_fin_zero; try done.
  by destruct z.
Qed.

(** X3: every transaction that [deposit] and [withdraw] record on a new
    account is a Deposit whose amount is not [<= 0] or a Withdrawal whose
    amount is not [>= 0]. *)
Theorem log_well_signed (ops : list operation) (self : BankAccount.t) :
  Forall well_signed (BankAccount.transactions self) →
  Forall well_signed (BankAccount.transactions (run ops self)).
Proof.
  revert self. induction ops as [|o ops IH]; intros self Hself; [done|].
  change (run (o :: ops) self) with (run ops (snd (apply_operation o self))).
  apply IH.
  destruct (apply_operation_step o self)
    as [->|(a & b' & ty & rec & _ & Hle & -> & Hcase)]; [done|].
  simpl. apply Forall_app. split; [done|]. constructor; [|done].
  destruct Hcase as [(-> & -> & _)|(-> & -> & _)]; [by left|right].
  split; [done|]. simpl. by rewrite le_zero_neg.
Qed.

Lemma log_well_signed_witness :
  Forall well_signed
    (BankAccount.transactions (run sample_ops (sample_account (Py.PyInt 100)))).
Proof.
  apply (log_well_signed sample_ops (sample_account (Py.PyInt 100))).
  simpl. constructor.
Defined.

(** X4: the timestamps of the transactions that calls append are, in log
    order, a subsequence of the clock readings of the calls in call order;
    the log is therefore chronological whenever the clock does not go
    back. *)
Theorem log_timestamps (ops : list operation) (self : BankAccount.t) :
  ∃ stamps,
    map Transaction.timestamp (BankAccount.transactions (run ops self))
    = map Transaction.timestamp (BankAccount.transactions self) ++ stamps
    ∧ stamps `sublist_of` map operation_now ops.
Proof.
  revert self. induction ops as [|o ops IH]; intros self.
  - exists []. by rewrite app_nil_r.
  - change (run (o :: ops) self) with (run ops (snd (apply_operation o self))).
    destruct (IH (snd (apply_operation o self))) as (stamps & -> & Hsub).
    destruct (apply_operation_step o self)
      as [->|(a & b' & ty & rec & _ & _ & -> & _)].
    + exists stamps. split; [done|]. by apply sublist_cons.
    + exists (operation_now o :: stamps). simpl. split.
      * by rewrite map_app, <- app_assoc.
      * by apply sublist_skip.
Qed.

Lemma apply_operation_returns (o : operation) (s : BankAccount.t) (msg : string) :
  fst (apply_operation o s) = Return msg → snd (apply_operation o s) ≠ s.
Proof.
  intros Hret Hsame.
  assert (BankAccount.transactions (snd (apply_operation o s))
          = BankAccount.transactions s) as Htx by by rewrite Hsame.
  clear Hsame. revert Hret Htx.
  destruct o as [now [a| |]|now [a| |]]; simpl; try done.
  - unfold BankAccount.deposit, BankAccount._add_transaction. simpl.
    destruct (Py.le a Py.zero); [done|].
    unfold bind, read, lift, update, ret.
    destruct (Py.add (BankAccount.balance s) a) as [b'|e]; [|done].
    destruct (Fmt.format_2f a); [|done]. simpl.
    destruct (Fmt.format_2f b'); [|done]. simpl. intros _ H.
    apply (f_equal length) in H. rewrite length_app in H. simpl in H. lia.
  - unfold BankAccount.withdraw, BankAccount._add_transaction. simpl.
    destruct (Py.le a Py.zero); [done|].
    unfold bind, read, lift, update, ret.
    destruct (Py.gt a (BankAccount.balance s)); [done|].
    destruct (Py.sub (BankAccount.balance s) a) as [b'|e]; [|done].
    destruct (Fmt.format_2f a); [|done]. simpl.
    destruct (Fmt.format_2f b'); [|done]. simpl. intros _ H.
    apply (f_equal length) in H. rewrite length_app in H. simpl in H. lia.
Qed.

(** X5: a call that returns its message has appended exactly one
    transaction, stamped with the clock reading of the call; a call that
    raises has appended one or none, and never more. *)
Theorem call_appends_at_most_one (o : operation) (s : BankAccount.t) :
  (∀ msg, fst (apply_operation o s) = Return msg →
     ∃ t, BankAccount.transactions (snd (apply_operation o s))
          = BankAccount.transactions s ++ [t]
          ∧ Transaction.timestamp t = operation_now o)
  ∧ (length (BankAccount.transactions (snd (apply_operation o s)))
     ≤ S (length (BankAccount.transactions s)))%nat.
Proof.
  split.
  - intros msg Hret.
    destruct (apply_operation_step o s)
      as [Hsame|(a & b' & ty & rec & _ & _ & -> & _)].
    + by destruct (apply_operation_returns o s msg Hret).
    + by eexists.
  - destruct (apply_operation_step o s)
      as [->|(a & b' & ty & rec & _ & _ & -> & _)]; [lia|].
    simpl. rewrite length_app. simpl. lia.
Qed.

(** ** Edge cases of the balance *)

Lemma compare_refl (b : Py.number) :
  finite b → Py.compare b b = Some Eq.
Proof.
  intros (x & Hx & Hfin). unfold Py.compare.
  destruct (Py.is_float b) eqn:E.
  - destruct b as [| |y]; try done. injection Hx as <-.
    destruct y as [| | |s m e]; try done; simpl; by rewrite Z.compare_refl.
  - rewrite (xnum_of_integer b E). simpl. by rewrite Z.compare_refl.
Qed.

Lemma sub_self (b : Py.number) :
  Py.gt b Py.zero = true → finite b →
  ∃ b0, Py.sub b b = Return b0
        ∧ Py.eq b0 Py.zero = true
        ∧ Fmt.format_2f b0 = Return "0.00".
Proof.
  intros Hpos (x & Hx & Hfin). unfold Py.sub.
  destruct (Py.is_float b) eqn:E.
  - destruct b as [| |y]; try done. injection Hx as <-. simpl.
    destruct y as [s| | |s m e]; try done.
    exists (Py.PyFloat (S754_zero false)). split; [|done].
    simpl. by rewrite Z.sub_diag.
  - simpl. rewrite Z.sub_diag. by exists (Py.PyInt 0).
Qed.

(** X6: the whole balance can be withdrawn: for a positive finite
    balance, [withdraw(balance)] returns, the new balance is zero, and the
    message ends with [New balance: $0.00]. *)
Theorem withdraw_whole_balance (now : datetime) (self : BankAccount.t) :
  Py.gt (BankAccount.balance self) Py.zero = true →
  finite (BankAccount.balance self) →
  ∃ sa self',
    BankAccount.withdraw now (Py.VNum (BankAccount.balance self)) self
    = (Return ("Withdrew $" +:+ sa +:+ ". New balance: $0.00"), self')
    ∧ shown (BankAccount.balance self) sa
    ∧ Py.eq (BankAccount.balance self') Py.zero = true
    ∧ BankAccount.transactions self'
      = BankAccount.transactions self
        ++ [{| Transaction.timestamp := now;
               Transaction.type := "Withdrawal";
               Transaction.amount := Py.neg (BankAccount.balance self) |}].
Proof.
  intros Hpos Hfin.
  destruct (sub_self _ Hpos Hfin) as (b0 & Hsub & Hzero & Hsb).
  destruct (format_2f_shown _ Hfin) as (sa & Hsa & Hshown).
  exists sa. eexists. split.
  - apply (withdraw_returns now self (BankAccount.balance self) b0 sa "0.00");
      try done.
    + by apply gt_not_le.
    + unfold Py.gt. by rewrite compare_refl.
  - done.
Qed.

Lemma withdraw_whole_balance_witness :
  ∃ sa self',
    BankAccount.withdraw sample_now
      (Py.VNum (BankAccount.balance (sample_account (Py.PyFloat float_1e16))))
      (sample_account (Py.PyFloat float_1e16))
    = (Return ("Withdrew $" +:+ sa +:+ ". New balance: $0.00"), self')
    ∧ shown (BankAccount.balance (sample_account (Py.PyFloat float_1e16))) sa
    ∧ Py.eq (BankAccount.balance self') Py.zero = true
    ∧ BankAccount.transactions self'
      = BankAccount.transactions (sample_account (Py.PyFloat float_1e16))
        ++ [{| Transaction.timestamp := sample_now;
               Transaction.type := "Withdrawal";
               Transaction.amount :=
                 Py.neg (BankAccount.balance
                           (sample_account (Py.PyFloat float_1e16))) |}].
Proof.
  apply (withdraw_whole_balance sample_now
           (sample_account (Py.PyFloat float_1e16))).
  - reflexivity.
  - eexists. split; reflexivity.
Defined.

(** X7: with integers, a deposit followed by a withdrawal of the same
    amount restores the balance exactly and leaves the two transactions
    [+amount] and [-amount] in the log. *)
Theorem deposit_withdraw_round_trip
    (now1 now2 : datetime) (self : BankAccount.t) (a : Py.number) :
  Py.is_float (BankAccount.balance self) = false →
  Py.is_float a = false →
  Py.lt (BankAccount.balance self) Py.zero = false →
  Py.le a Py.zero = false →
  BankAccount.balance
    (run [Op_deposit now1 (Py.VNum a); Op_withdraw now2 (Py.VNum a)] self)
  = Py.PyInt (Py.int_value (BankAccount.balance self))
  ∧ BankAccount.transactions
      (run [Op_deposit now1 (Py.VNum a); Op_withdraw now2 (Py.VNum a)] self)
    = BankAccount.transactions self
      ++ [{| Transaction.timestamp := now1;
             Transaction.type := "Deposit";
             Transaction.amount := a |};
          {| Transaction.timestamp := now2;
             Transaction.type := "Withdrawal";
             Transaction.amount := Py.neg a |}].
Proof.
  intros Hb Ha Hnonneg Hpos.
  unfold run. simpl. rewrite deposit_state, Hpos.
  unfold Py.add. rewrite Hb, Ha. simpl.
  rewrite withdraw_state, Hpos. simpl.
  rewrite int_gt by done. rewrite int_lt_zero in Hnonneg by done.
  rewrite int_le_zero in Hpos by done. simpl.
  assert ((Py.int_value (BankAccount.balance self) + Py.int_value a
           <? Py.int_value a) = false) as -> by lia.
  unfold Py.sub. rewrite Ha. simpl. split.
  - f_equal. lia.
  - by rewrite <- app_assoc.
Qed.

Lemma deposit_withdraw_round_trip_witness :
  BankAccount.balance
    (run [Op_deposit sample_now (Py.VNum (Py.PyInt 50));
          Op_withdraw sample_now (Py.VNum (Py.PyInt 50))]
       (sample_account (Py.PyInt 100)))
  = Py.PyInt (Py.int_value (BankAccount.balance (sample_account (Py.PyInt 100))))
  ∧ BankAccount.transactions
      (run [Op_deposit sample_now (Py.VNum (Py.PyInt 50));
            Op_withdraw sample_now (Py.VNum (Py.PyInt 50))]
         (sample_account (Py.PyInt 100)))
    = BankAccount.transactions (sample_account (Py.PyInt 100))
      ++ [{| Transaction.timestamp := sample_now;
             Transaction.type := "Deposit";
             Transaction.amount := Py.PyInt 50 |};
          {| Transaction.timestamp := sample_now;
             Transaction.type := "Withdrawal";
             Transaction.amount := Py.neg (Py.PyInt 50) |}].
Proof.
  apply (deposit_withdraw_round_trip sample_now sample_now
           (sample_account (Py.PyInt 100)) (Py.PyInt 50)); reflexivity.
Defined.

(** ** The exceptions of arithmetic and formatting *)

Lemma float_of_int_raises (z : Z) (e : exn) :
  Py.float_of_int z = Raise e → e = overflow_error.
Proof.
  unfold Py.float_of_int.
  by destruct (binary_normalize _ _ _ _ _); intros [= <-].
Qed.

Lemma to_float_raises (n : Py.number) (e : exn) :
  Py.to_float n = Raise e → e = overflow_error.
Proof. destruct n; simpl; try done; apply float_of_int_raises. Qed.

Lemma add_raises (a b : Py.number) (e : exn) :
  Py.add a b = Raise e → e = overflow_error.
Proof.
  unfold Py.add. destruct (_ || _); [|done].
  destruct (Py.to_float a) eqn:Ea; simpl; [|intros [= <-]; eauto using to_float_raises].
  destruct (Py.to_float b) eqn:Eb; simpl; [done|].
  intros [= <-]; eauto using to_float_raises.
Qed.

Lemma sub_raises (a b : Py.number) (e : exn) :
  Py.sub a b = Raise e → e = overflow_error.
Proof.
  unfold Py.sub. destruct (_ || _); [|done].
  destruct (Py.to_float a) eqn:Ea; simpl; [|intros [= <-]; eauto using to_float_raises].
  destruct (Py.to_float b) eqn:Eb; simpl; [done|].
  intros [= <-]; eauto using to_float_raises.
Qed.

Lemma format_2f_raises (n : Py.number) (e : exn) :
  Fmt.format_2f n = Raise e → e = overflow_error.
Proof.
  unfold Fmt.format_2f.
  destruct (Py.to_float n) eqn:En; simpl; [done|].
  intros [= <-]; eauto using to_float_raises.
Qed.

Lemma format_2f_returns (n : Py.number) :
  convertible n ↔ ∃ s, Fmt.format_2f n = Return s.
Proof.
  unfold convertible, Fmt.format_2f. split.
  - intros [x ->]. simpl. eauto.
  - destruct (Py.to_float n); [eauto|]. by intros [s Hs].
Qed.

(** What [deposit] and [withdraw] can raise. *)
Lemma deposit_raises (now : datetime) (amount : Py.value) (self : BankAccount.t)
    (e : exn) :
  fst (BankAccount.deposit now amount self) = Raise e →
  e = TypeError "Deposit amount must be a number."
  ∨ e = ValueError "Deposit amount must be positive."
  ∨ e = overflow_error.
Proof.
  unfold BankAccount.deposit, BankAccount._add_transaction.
  destruct (Py.isinstance_int_float amount) as [a|]; [|intros [= <-]; auto].
  destruct (Py.le a Py.zero); [intros [= <-]; auto|].
  unfold bind, read, lift, update, ret.
  destruct (Py.add (BankAccount.balance self) a) as [b'|e'] eqn:Hadd; simpl;
    [|intros [= <-]; eauto using add_raises].
  destruct (Fmt.format_2f a) as [sa|e'] eqn:Hsa; simpl;
    [|intros [= <-]; eauto using format_2f_raises].
  destruct (Fmt.format_2f b') as [sb|e'] eqn:Hsb; simpl; [done|].
  intros [= <-]; eauto using format_2f_raises.
Qed.

Lemma withdraw_raises (now : datetime) (amount : Py.value) (self : BankAccount.t)
    (e : exn) :
  fst (BankAccount.withdraw now amount self) = Raise e →
  e = TypeError "Withdrawal amount must be a number."
  ∨ e = ValueError "Withdrawal amount must be positive."
  ∨ (e = ValueError "Insufficient funds."
     ∧ ∃ a, amount = Py.VNum a ∧ Py.gt a (BankAccount.balance self) = true)
  ∨ e = overflow_error.
Proof.
  unfold BankAccount.withdraw, BankAccount._add_transaction.
  destruct (Py.isinstance_int_float amount) as [a|] eqn:Ea;
    [|intros [= <-]; auto].
  assert (amount = Py.VNum a) as -> by (by destruct amount; inversion Ea).
  destruct (Py.le a Py.zero); [intros [= <-]; auto|].
  unfold bind, read, lift, update, ret.
  destruct (Py.gt a (BankAccount.balance self)) eqn:Hgt;
    [intros [= <-]; eauto 10|].
  destruct (Py.sub (BankAccount.balance self) a) as [b'|e'] eqn:Hsub; simpl;
    [|intros [= <-]; eauto 10 using sub_raises].
  destruct (Fmt.format_2f a) as [sa|e'] eqn:Hsa; simpl;
    [|intros [= <-]; eauto 10 using format_2f_raises].
  destruct (Fmt.format_2f b') as [sb|e'] eqn:Hsb; simpl; [done|].
  intros [= <-]; eauto 10 using format_2f_raises.
Qed.

(** ** Not-a-number *)

Lemma xcompare_nan_r (a : Py.xnum) : Py.xcompare a Py.XNaN = None.
Proof. by destruct a. Qed.

Lemma nan_absorbing (ops : list operation) (s : BankAccount.t) :
  BankAccount.balance s = not_a_number →
  BankAccount.balance (run ops s) = not_a_number.
Proof.
  revert s. induction ops as [|o ops IH]; intros s Hs; [done|].
  change (run (o :: ops) s) with (run ops (snd (apply_operation o s))).
  apply IH.
  destruct (apply_operation_step o s)
    as [->|(a & b' & ty & rec & _ & _ & -> & Hcase)]; [done|].
  simpl. rewrite Hs in Hcase.
  destruct Hcase as [(_ & _ & H)|(_ & _ & _ & H)];
    [unfold Py.add in H|unfold Py.sub in H]; simpl in H;
    by destruct (Py.to_float a); simpl in H; inversion H.
Qed.

(** X8: not-a-number passes the validation of [deposit] and poisons the
    account: the deposit returns, and from then on, whatever calls follow,
    the balance is not-a-number and no withdrawal is refused for
    insufficient funds. *)
Theorem nan_poisons_account
    (now : datetime) (self : BankAccount.t) (ops : list operation) :
  convertible (BankAccount.balance self) →
  fst (BankAccount.deposit now (Py.VNum not_a_number) self)
  = Return "Deposited $nan. New balance: $nan"
  ∧ BankAccount.balance
      (run ops (snd (BankAccount.deposit now (Py.VNum not_a_number) self)))
    = not_a_number
  ∧ ∀ now' amount,
      fst (BankAccount.withdraw now' amount
             (run ops (snd (BankAccount.deposit now (Py.VNum not_a_number) self))))
      ≠ Raise (ValueError "Insufficient funds.").
Proof.
  intros [x Hx].
  assert (BankAccount.deposit now (Py.VNum not_a_number) self
          = (Return "Deposited $nan. New balance: $nan",
             BankAccount.append_transaction
               {| Transaction.timestamp := now;
                  Transaction.type := "Deposit";
                  Transaction.amount := not_a_number |}
               (BankAccount.set_balance not_a_number self))) as ->.
  { apply (deposit_returns now self not_a_number not_a_number "nan" "nan");
      try done.
    unfold Py.add. rewrite orb_true_r, Hx. simpl. by destruct x. }
  split; [done|].
  assert (BankAccount.balance
            (run ops
               (BankAccount.append_transaction
                  {| Transaction.timestamp := now;
                     Transaction.type := "Deposit";
                     Transaction.amount := not_a_number |}
                  (BankAccount.set_balance not_a_number self)))
          = not_a_number) as Hnan by by apply nan_absorbing.
  split; [done|]. intros now' amount Hraise.
  apply withdraw_raises in Hraise
    as [H|[H|[(_ & a & _ & Hgt)|H]]]; try done.
  simpl in Hgt. rewrite Hnan in Hgt.
  unfold Py.gt, Py.compare in Hgt. simpl in Hgt.
  by rewrite xcompare_nan_r in Hgt.
Qed.

Lemma nan_poisons_account_witness :
  fst (BankAccount.deposit sample_now (Py.VNum not_a_number)
         (sample_account (Py.PyInt 100)))
  = Return "Deposited $nan. New balance: $nan"
  ∧ BankAccount.balance
      (run sample_ops
         (snd (BankAccount.deposit sample_now (Py.VNum not_a_number)
                 (sample_account (Py.PyInt 100)))))
    = not_a_number
  ∧ ∀ now' amount,
      fst (BankAccount.withdraw now' amount
             (run sample_ops
                (snd (BankAccount.deposit sample_now (Py.VNum not_a_number)
                        (sample_account (Py.PyInt 100))))))
      ≠ Raise (ValueError "Insufficient funds.").
Proof.
  apply (nan_poisons_account sample_now (sample_account (Py.PyInt 100))
           sample_ops).
  eexists. reflexivity.
Defined.

(** ** Floats *)

Lemma float_call_documented (o : operation) (s : BankAccount.t) :
  Py.is_float (BankAccount.balance s) = true →
  no_integer (operation_amount o) →
  documented (fst (apply_operation o s))
  ∧ Py.is_float (BankAccount.balance (snd (apply_operation o s))) = true.
Proof.
  intros Hb Ho.
  assert (∃ x, BankAccount.balance s = Py.PyFloat x) as [x Hbal]
    by (destruct (BankAccount.balance s); try done; eauto).
  destruct o as [now [[| |y]| |]|now [[| |y]| |]]; simpl in Ho; try done;
    try (split; [by left|done]).
  - simpl. unfold BankAccount.deposit, BankAccount._add_transaction. simpl.
    destruct (Py.le (Py.PyFloat y) Py.zero); [split; [by left|done]|].
    unfold bind, read, lift, update, ret. by rewrite Hbal.
  - simpl. unfold BankAccount.withdraw, BankAccount._add_transaction. simpl.
    destruct (Py.le (Py.PyFloat y) Py.zero); [split; [by left|done]|].
    unfold bind, read, lift, update, ret. rewrite Hbal.
    destruct (Py.gt (Py.PyFloat y) (Py.PyFloat x)); simpl;
      [split; [by right|by rewrite Hbal]|done].
Qed.

(** X9: once the balance is a [float] it stays a [float], and with
    amounts that are floats (or no numbers at all) every call returns or
    raises one of the two error kinds of the specification: an invalid
    argument or insufficient funds, never [OverflowError]. *)
Theorem float_calls_documented (ops : list operation) (self : BankAccount.t) :
  Py.is_float (BankAccount.balance self) = true →
  Forall (λ o, no_integer (operation_amount o)) ops →
  Forall documented (outcomes ops self)
  ∧ Py.is_float (BankAccount.balance (run ops self)) = true.
Proof.
  intros Hb Hops. revert self Hb.
  induction Hops as [|o ops Ho _ IH]; intros self Hb; [done|].
  destruct (float_call_documented o self Hb Ho) as [Hdoc Hb'].
  destruct (IH _ Hb') as [Hdocs Hfloat].
  split; [by constructor|done].
Qed.

Lemma float_calls_documented_witness :
  Forall documented
    (outcomes [Op_deposit sample_now (Py.VNum (Py.PyFloat float_1));
               Op_withdraw sample_now (Py.VNum (Py.PyFloat float_1e308));
               Op_withdraw sample_now (Py.VStr "all")]
       (sample_account (Py.PyFloat float_1e16)))
  ∧ Py.is_float
      (BankAccount.balance
         (run [Op_deposit sample_now (Py.VNum (Py.PyFloat float_1));
               Op_withdraw sample_now (Py.VNum (Py.PyFloat float_1e308));
               Op_withdraw sample_now (Py.VStr "all")]
            (sample_account (Py.PyFloat float_1e16))))
    = true.
Proof.
  apply (float_calls_documented
           [Op_deposit sample_now (Py.VNum (Py.PyFloat float_1));
            Op_withdraw sample_now (Py.VNum (Py.PyFloat float_1e308));
            Op_withdraw sample_now (Py.VStr "all")]
           (sample_account (Py.PyFloat float_1e16))).
  - reflexivity.
  - repeat constructor.
Defined.

(** ** Errors of the reports *)

Lemma history_line_returns (t : Transaction.t) :
  convertible (Transaction.amount t)
  ↔ ∃ line, BankAccount.history_line t = Return line.
Proof.
  rewrite format_2f_returns.
  unfold BankAccount.history_line, Fmt.format_r8_2f. split.
  - intros [s ->]. simpl. eauto.
  - destruct (Fmt.format_2f _); [eauto|]. by intros [line H].
Qed.

Lemma history_line_raises (t : Transaction.t) (e : exn) :
  BankAccount.history_line t = Raise e → e = overflow_error.
Proof.
  unfold BankAccount.history_line, Fmt.format_r8_2f.
  destruct (Fmt.format_2f _) eqn:E; simpl; [done|].
  intros [= <-]. eauto using format_2f_raises.
Qed.

Lemma history_loop_returns (txs : list Transaction.t) (text : string) :
  Forall (λ t, convertible (Transaction.amount t)) txs
  ↔ ∃ result, BankAccount.history_loop txs text = Return result.
Proof.
  revert text. induction txs as [|t txs IH]; intros text; simpl.
  - split; eauto.
  - rewrite Forall_cons, history_line_returns. split.
    + intros [[line ->] Htxs]. simpl. by apply IH.
    + destruct (BankAccount.history_line t) as [line|]; simpl.
      * intros H. split; [eauto|]. by apply (IH (text +:+ line)).
      * by intros [result H].
Qed.

Lemma history_loop_raises (txs : list Transaction.t) (text : string) (e : exn) :
  BankAccount.history_loop txs text = Raise e → e = overflow_error.
Proof.
  revert text. induction txs as [|t txs IH]; intros text; simpl; [done|].
  destruct (BankAccount.history_line t) as [line|e'] eqn:E; simpl.
  - apply IH.
  - intros [= <-]. eauto using history_line_raises.
Qed.

(** X10: [format_transaction_history] never changes the account; it
    returns exactly when every recorded amount converts to [float], and
    the only exception it raises is the [OverflowError] of that
    conversion. *)
Theorem format_transaction_history_errors (self : BankAccount.t) :
  snd (BankAccount.format_transaction_history self) = self
  ∧ (Forall (λ t, convertible (Transaction.amount t))
       (BankAccount.transactions self)
     ↔ ∃ text, fst (BankAccount.format_transaction_history self) = Return text)
  ∧ ∀ e, fst (BankAccount.format_transaction_history self) = Raise e →
         e = overflow_error.
Proof.
  unfold BankAccount.format_transaction_history, bind, read, lift, ret.
  destruct (BankAccount.transactions self) as [|t txs] eqn:Htxs.
  - simpl. split; [done|]. split; [split; eauto|]. intros e H. discriminate H.
  - set (header := BankAccount.border +:+ _).
    pose proof (history_loop_returns (t :: txs) header) as Hret.
    pose proof (history_loop_raises (t :: txs) header) as Hraise.
    destruct (BankAccount.history_loop (t :: txs) header) as [text|e'];
      simpl; (split; [done|]); (split; [split|]).
    + eauto.
    + intros _. apply Hret. eauto.
    + intros e H. discriminate H.
    + intros H. apply Hret in H as [result H]. discriminate H.
    + intros [text H]. discriminate H.
    + intros e [= <-]. eauto.
Qed.

(** * Further properties of the reports *)

(** ** Account details *)

(** Checked for each year from 0 to 9999. *)
Lemma pad4_field (n : Z) : 0 ≤ n ≤ 9999 → digits_field 4 n (Fmt.pad4 n).
Proof.
  intros Hn.
  assert (Forall (λ k : nat, String.length (Fmt.pad4 (Z.of_nat k)) = 4%nat
                             ∧ decimal_value (Fmt.pad4 (Z.of_nat k))
                               = Some (Z.of_nat k)) (seq 0 (100 * 100)))
    as Hall.
  { apply (bool_decide_unpack _). by vm_compute. }
  rewrite Forall_forall in Hall.
  specialize (Hall (Z.to_nat n)). rewrite Z2Nat.id in Hall by lia.
  apply Hall. apply elem_of_seq. lia.
Qed.

Lemma date_str_iso (d : date) : calendar_date d → iso_date_text d (date_str d).
Proof.
  intros (HY & HM & HD).
  apply (iso_date_text_intro d _ (Fmt.pad4 (d_year d)) (Fmt.pad2 (d_month d))
           (Fmt.pad2 (d_day d)));
    [done|apply pad4_field; lia|apply pad2_field; lia..].
Qed.

Lemma get_account_details_unfold (self : BankAccount.t) :
  BankAccount.get_account_details self
  = (outcome_bind (Fmt.format_2f (BankAccount.balance self)) (λ sb,
       Return ("Account Number: " +:+ BankAccount.account_number self +:+ "
" +:+ "Account Holder: " +:+ BankAccount.account_holder_name self +:+ "
" +:+ "Account Type: " +:+ BankAccount.account_type self +:+ "
" +:+ "Balance: $" +:+ sb +:+ "
" +:+ "Creation Date: " +:+ date_str (BankAccount.creation_date self) +:+ "
")), self).
Proof.
  unfold BankAccount.get_account_details, bind, read, lift, ret.
  destruct (Fmt.format_2f (BankAccount.balance self)) as [sb|e]; simpl; [|done].
  by rewrite !append_assoc.
Qed.

(** X11: for a finite balance and a calendar date, [get_account_details]
    leaves the account as it is and returns the five labelled lines in
    order, the balance with two decimals and the creation date as
    [YYYY-MM-DD]. *)
Theorem get_account_details_spec (self : BankAccount.t) :
  finite (BankAccount.balance self) →
  calendar_date (BankAccount.creation_date self) →
  snd (BankAccount.get_account_details self) = self
  ∧ ∃ sb sd,
      fst (BankAccount.get_account_details self)
      = Return ("Account Number: " +:+ BankAccount.account_number self +:+ "
" +:+ "Account Holder: " +:+ BankAccount.account_holder_name self +:+ "
" +:+ "Account Type: " +:+ BankAccount.account_type self +:+ "
" +:+ "Balance: $" +:+ sb +:+ "
" +:+ "Creation Date: " +:+ sd +:+ "
")
      ∧ shown (BankAccount.balance self) sb
      ∧ iso_date_text (BankAccount.creation_date self) sd.
Proof.
  intros Hfin Hdate. rewrite get_account_details_unfold. split; [done|].
  destruct (format_2f_shown _ Hfin) as (sb & -> & Hshown).
  exists sb, (date_str (BankAccount.creation_date self)).
  split; [done|]. split; [done|]. by apply date_str_iso.
Qed.

Lemma get_account_details_spec_witness :
  snd (BankAccount.get_account_details (sample_account (Py.PyInt 120)))
  = sample_account (Py.PyInt 120)
  ∧ ∃ sb sd,
      fst (BankAccount.get_account_details (sample_account (Py.PyInt 120)))
      = Return ("Account Number: "
                +:+ BankAccount.account_number (sample_account (Py.PyInt 120))
                +:+ "
" +:+ "Account Holder: "
                +:+ BankAccount.account_holder_name (sample_account (Py.PyInt 120))
                +:+ "
" +:+ "Account Type: "
                +:+ BankAccount.account_type (sample_account (Py.PyInt 120))
                +:+ "
" +:+ "Balance: $" +:+ sb +:+ "
" +:+ "Creation Date: " +:+ sd +:+ "
")
      ∧ shown (BankAccount.balance (sample_account (Py.PyInt 120))) sb
      ∧ iso_date_text (BankAccount.creation_date (sample_account (Py.PyInt 120))) sd.
Proof.
  apply (get_account_details_spec (sample_account (Py.PyInt 120))).
  - eexists. split; reflexivity.
  - unfold calendar_date. simpl. lia.
Defined.

Example sample_details :
  fst (BankAccount.get_account_details (sample_account (Py.PyInt 120)))
  = Return "Account Number: c0ffee
Account Holder: Alice
Account Type: Savings
Balance: $120.00
Creation Date: 2024-03-07
".
Proof. reflexivity. Qed.

Lemma get_account_details_returns (self : BankAccount.t) :
  convertible (BankAccount.balance self)
  ↔ ∃ details, fst (BankAccount.get_account_details self) = Return details.
Proof.
  rewrite get_account_details_unfold, format_2f_returns. simpl. split.
  - intros [sb ->]. simpl. eauto.
  - destruct (Fmt.format_2f _); [eauto|]. by intros [details H].
Qed.

Lemma get_account_details_raises (self : BankAccount.t) (e : exn) :
  fst (BankAccount.get_account_details self) = Raise e → e = overflow_error.
Proof.
  rewrite get_account_details_unfold. simpl.
  destruct (Fmt.format_2f _) eqn:E; simpl; [done|].
  intros [= <-]. eauto using format_2f_raises.
Qed.

(** X12: [get_account_details] never changes the account; it returns
    exactly when the balance converts to [float], so also for an infinite
    or not-a-number balance, and the only exception it raises is the
    [OverflowError] of an integer balance too large for a [float]. *)
Theorem get_account_details_errors (self : BankAccount.t) :
  snd (BankAccount.get_account_details self) = self
  ∧ (convertible (BankAccount.balance self)
     ↔ ∃ details, fst (BankAccount.get_account_details self) = Return details)
  ∧ (∀ e, fst (BankAccount.get_account_details self) = Raise e →
          e = overflow_error).
Proof.
  split; [by rewrite get_account_details_unfold|].
  split; [apply get_account_details_returns|].
  apply get_account_details_raises.
Qed.

(** * Further properties of the ledger *)

(** ** The order of the dictionary *)

Lemma filter_ext_elem {A} (P Q : A → Prop) `{!∀ x, Decision (P x)}
    `{!∀ x, Decision (Q x)} (l : list A) :
  (∀ x, x ∈ l → P x ↔ Q x) → filter P l = filter Q l.
Proof.
  induction l as [|x l IH]; intros Hext; [done|].
  rewrite !filter_cons.
  rewrite IH by (intros y Hy; apply Hext; by right).
  assert (P x ↔ Q x) as Hx by (apply Hext; by left).
  destruct (decide (P x)) as [HP|HP], (decide (Q x)) as [HQ|HQ];
    try done; exfalso; tauto.
Qed.

Lemma init_account_number (uuid4 : string) (today : date) (name : string)
    (initial_balance : Py.value) (account_type : string)
    (account : BankAccount.t) :
  BankAccount.__init__ uuid4 today name initial_balance account_type
  = Return account →
  BankAccount.account_number account = uuid4.
Proof.
  unfold BankAccount.__init__.
  destruct (Py.isinstance_int_float initial_balance) as [b|]; [|done].
  destruct (Py.lt b Py.zero); [done|]. by intros [= <-].
Qed.

(** The keys that are tracked are the keys of the dictionary, once
    each. *)
Definition keys_inv (self : BankingSystem.t) (keys : list string) : Prop :=
  NoDup keys ∧ ∀ k, k ∈ keys ↔ is_Some (BankingSystem.accounts self !! k).

Lemma on_account_present (k0 k : string) (m : method BankAccount.t string)
    (self : BankingSystem.t) :
  is_Some (BankingSystem.accounts (on_account k0 m self) !! k)
  ↔ is_Some (BankingSystem.accounts self !! k).
Proof.
  unfold on_account.
  destruct (BankingSystem.accounts self !! k0) as [account|] eqn:E; [|done].
  simpl. destruct (decide (k0 = k)) as [->|Hne].
  - rewrite lookup_insert_eq, E. split; eauto.
  - by rewrite lookup_insert_ne.
Qed.

Lemma do_call_keys_inv (c : call) (self : BankingSystem.t) (keys : list string) :
  keys_inv self keys → keys_inv (do_call c self) (keys_after_call c self keys).
Proof.
  intros [Hnodup Hkeys].
  destruct c as [uuid4 today name v type|k0|k0 now v|k0 now v]; simpl.
  - unfold BankingSystem.create_account.
    destruct (BankAccount.__init__ uuid4 today name v type)
      as [account|e] eqn:E; [|by destruct e].
    simpl. set (u := BankAccount.account_number account).
    destruct (BankingSystem.accounts self !! u) as [old|] eqn:Eu.
    + split; [done|]. intros k. simpl.
      destruct (decide (u = k)) as [<-|Hne].
      * rewrite lookup_insert_eq, Hkeys, Eu. split; eauto.
      * by rewrite lookup_insert_ne.
    + assert (u ∉ keys) as Hu by (rewrite Hkeys, Eu; by intros [? ?]).
      split.
      * apply NoDup_app. split; [done|]. split; [|apply NoDup_singleton].
        intros k Hk ->%list_elem_of_singleton. done.
      * intros k. simpl. rewrite elem_of_app, list_elem_of_singleton.
        destruct (decide (u = k)) as [<-|Hne].
        -- rewrite lookup_insert_eq. split; eauto.
        -- rewrite lookup_insert_ne by done. rewrite <- Hkeys.
           split; [intros [?| ->]|]; eauto; done.
  - unfold BankingSystem.delete_account.
    destruct (BankingSystem.accounts self !! k0) as [old|] eqn:E; simpl.
    + split; [by apply NoDup_filter|].
      intros k. simpl. rewrite list_elem_of_filter, lookup_delete_is_Some, Hkeys.
      split; intros [? ?]; split; congruence.
    + split; [by apply NoDup_filter|].
      intros k. rewrite list_elem_of_filter, Hkeys. split; [by intros [? ?]|].
      intros Hk. split; [|done]. intros ->. rewrite E in Hk. by destruct Hk.
  - split; [done|]. intros k. by rewrite on_account_present.
  - split; [done|]. intros k. by rewrite on_account_present.
Qed.

Lemma do_calls_keys_inv (cs : list call) (self : BankingSystem.t)
    (keys : list string) :
  keys_inv self keys →
  keys_inv (do_calls cs self) (keys_after_calls cs self keys).
Proof.
  revert self keys. induction cs as [|c cs IH]; intros self keys H; [done|].
  simpl. apply IH. by apply do_call_keys_inv.
Qed.

Lemma dict_items_keys (keys : list string) (self : BankingSystem.t) :
  (dict_items keys self).*1
  = filter (λ k, is_Some (BankingSystem.accounts self !! k)) keys.
Proof.
  unfold dict_items. induction keys as [|k keys IH]; [done|].
  rewrite filter_cons. simpl.
  destruct (BankingSystem.accounts self !! k) as [account|] eqn:E; simpl.
  - f_equal. apply IH.
  - apply IH.
Qed.

Lemma elem_of_dict_items (keys : list string) (self : BankingSystem.t)
    (k : string) (account : BankAccount.t) :
  (k, account) ∈ dict_items keys self
  ↔ k ∈ keys ∧ BankingSystem.accounts self !! k = Some account.
Proof.
  unfold dict_items. rewrite list_elem_of_omap. split.
  - intros (k' & Hk' & H).
    destruct (BankingSystem.accounts self !! k') as [a|] eqn:E; [|done].
    simpl in H. by injection H as <- <-.
  - intros [Hk H]. exists k. split; [done|]. by rewrite H.
Qed.

Lemma dict_items_permutation (keys : list string) (self : BankingSystem.t) :
  keys_inv self keys →
  dict_items keys self ≡ₚ map_to_list (BankingSystem.accounts self).
Proof.
  intros [Hnodup Hkeys]. apply NoDup_Permutation.
  - apply (NoDup_fmap_1 fst). rewrite dict_items_keys. by apply NoDup_filter.
  - apply NoDup_map_to_list.
  - intros [k account]. rewrite elem_of_dict_items, elem_of_map_to_list, Hkeys.
    split; [by intros [? ?]|]. eauto.
Qed.

(** X13: the keys tracked through any calls on a new ledger are the
    identifiers stored, once each, so [items()] yields every stored
    account exactly once and as many entries as the ledger holds. *)
Theorem dictionary_order (cs : list call) :
  let self := do_calls cs BankingSystem.__init__ in
  let keys := keys_after_calls cs BankingSystem.__init__ [] in
  NoDup keys
  ∧ (∀ k, k ∈ keys ↔ is_Some (BankingSystem.accounts self !! k))
  ∧ dict_items keys self ≡ₚ map_to_list (BankingSystem.accounts self)
  ∧ length (dict_items keys self) = size (BankingSystem.accounts self).
Proof.
  intros self keys.
  assert (keys_inv self keys) as Hinv.
  { apply do_calls_keys_inv. split; [apply NoDup_nil_2|].
    intros k. simpl. rewrite lookup_empty. split; [by intros ?%elem_of_nil|].
    by intros [? ?]. }
  split; [apply Hinv|]. split; [apply Hinv|].
  pose proof (dict_items_permutation _ _ Hinv) as Hperm.
  split; [done|]. by rewrite Hperm, length_map_to_list.
Qed.

Lemma do_call_creation_order (c : call) (self : BankingSystem.t)
    (pre : list string) :
  let present s k := is_Some (BankingSystem.accounts s !! k) in
  keys_inv self (filter (present self) pre) →
  NoDup (pre ++ created_ids [c]) →
  keys_after_call c self (filter (present self) pre)
  = filter (present (do_call c self)) (pre ++ created_ids [c]).
Proof.
  intros present [Hnodup Hkeys] Hpre.
  destruct c as [uuid4 today name v type|k0|k0 now v|k0 now v]; simpl in *.
  - unfold BankingSystem.create_account.
    destruct (BankAccount.__init__ uuid4 today name v type)
      as [account|e] eqn:E; simpl in *.
    + set (u := BankAccount.account_number account) in *.
      apply NoDup_app in Hpre as (_ & Hu & _).
      assert (u ∉ pre) as Hfresh.
      { intros H. apply (Hu u H). by left. }
      assert (BankingSystem.accounts self !! u = None) as ->.
      { destruct (BankingSystem.accounts self !! u) eqn:Eu; [|done].
        exfalso. assert (u ∈ filter (present self) pre) as H.
        { apply Hkeys. rewrite Eu. eauto. }
        by apply list_elem_of_filter in H as [_ H]. }
      rewrite filter_app. f_equal.
      * apply filter_ext_elem. intros k Hk. unfold present. simpl.
        rewrite lookup_insert_ne; [done|]. by intros <-.
      * rewrite filter_cons, decide_True; [done|].
        unfold present. simpl. rewrite lookup_insert_eq. eauto.
    + rewrite app_nil_r. by destruct e.
  - rewrite app_nil_r. unfold BankingSystem.delete_account.
    destruct (BankingSystem.accounts self !! k0) as [old|] eqn:E; simpl.
    + rewrite list_filter_filter. apply filter_ext_elem. intros k _.
      unfold present. simpl. rewrite lookup_delete_is_Some.
      split; intros [? ?]; split; congruence.
    + rewrite list_filter_filter. apply filter_ext_elem. intros k _.
      unfold present. split; [by intros [? ?]|].
      intros Hk. split; [|done]. intros ->. rewrite E in Hk. by destruct Hk.
  - rewrite app_nil_r. apply filter_ext_elem. intros k _.
    unfold present. by rewrite on_account_present.
  - rewrite app_nil_r. apply filter_ext_elem. intros k _.
    unfold present. by rewrite on_account_present.
Qed.

Lemma do_calls_creation_order (cs : list call) (self : BankingSystem.t)
    (pre : list string) :
  let present s k := is_Some (BankingSystem.accounts s !! k) in
  keys_inv self (filter (present self) pre) →
  NoDup (pre ++ created_ids cs) →
  keys_after_calls cs self (filter (present self) pre)
  = filter (present (do_calls cs self)) (pre ++ created_ids cs).
Proof.
  intros present. revert self pre.
  induction cs as [|c cs IH]; intros self pre Hinv Hpre.
  - simpl. by rewrite app_nil_r.
  - assert (created_ids (c :: cs) = created_ids [c] ++ created_ids cs) as Hsplit.
    { unfold created_ids. change (c :: cs) with ([c] ++ cs). apply omap_app. }
    rewrite Hsplit, app_assoc in *.
    assert (NoDup (pre ++ created_ids [c])) as Hc
      by (by apply NoDup_app in Hpre as (? & _)).
    pose proof (do_call_creation_order c self pre Hinv Hc) as Hstep.
    fold present in Hstep.
    change (keys_after_calls cs (do_call c self)
              (keys_after_call c self (filter (present self) pre))
            = filter (present (do_calls cs (do_call c self)))
                ((pre ++ created_ids [c]) ++ created_ids cs)).
    rewrite Hstep. apply IH; [|done].
    rewrite <- Hstep. by apply do_call_keys_inv.
Qed.

(** X14: when the identifiers generated are distinct, the dictionary
    yields the accounts that are still stored in the order of their
    creation. *)
Theorem creation_order (cs : list call) :
  NoDup (created_ids cs) →
  keys_after_calls cs BankingSystem.__init__ []
  = filter (λ k, is_Some (BankingSystem.accounts
                            (do_calls cs BankingSystem.__init__) !! k))
      (created_ids cs).
Proof.
  intros Hnodup.
  apply (do_calls_creation_order cs BankingSystem.__init__ []); [|done].
  split; [apply NoDup_nil_2|].
  intros k. simpl. rewrite lookup_empty. split; [by intros ?%elem_of_nil|].
  by intros [? ?].
Qed.

Lemma creation_order_witness :
  keys_after_calls sample_calls BankingSystem.__init__ []
  = filter (λ k, is_Some (BankingSystem.accounts
                            (do_calls sample_calls BankingSystem.__init__) !! k))
      (created_ids sample_calls).
Proof.
  apply (creation_order sample_calls).
  apply (bool_decide_unpack _). vm_compute. reflexivity.
Defined.

Example sample_calls_keys :
  keys_after_calls sample_calls BankingSystem.__init__ [] = ["b22"; "c33"].
Proof. vm_compute. reflexivity. Qed.

(** ** The listing *)

Lemma accounts_loop_spec (items : list (string * BankAccount.t)) (text : string) :
  Forall (λ item, convertible (BankAccount.balance item.2)) items →
  ∃ blocks,
    BankingSystem.accounts_loop items text = Return (text +:+ join blocks)
    ∧ Forall2 block_of items blocks.
Proof.
  revert text. induction items as [|[k account] items IH]; intros text Hall.
  - exists []. split; [|constructor].
    change (Return text = Return (text +:+ "")). by rewrite append_empty_r.
  - apply Forall_cons in Hall as [Hacc Hall].
    apply get_account_details_returns in Hacc as [details Hd].
    cbn [snd] in Hd.
    destruct (IH (text +:+ details +:+ BankAccount.border +:+ "
") Hall) as (blocks & Hloop & Hblocks).
    exists ((details +:+ BankAccount.border +:+ "
") :: blocks). split.
    + change (outcome_bind (fst (BankAccount.get_account_details account))
                (λ details, BankingSystem.accounts_loop items
                   (text +:+ details +:+ BankAccount.border +:+ "
"))
              = Return (text +:+ (details +:+ BankAccount.border +:+ "
") +:+ join blocks)).
      rewrite Hd. simpl outcome_bind. rewrite Hloop.
      by rewrite !append_assoc.
    + constructor; [|done]. by exists details.
Qed.

Lemma accounts_loop_returns (items : list (string * BankAccount.t))
    (text : string) :
  Forall (λ item, convertible (BankAccount.balance item.2)) items
  ↔ ∃ result, BankingSystem.accounts_loop items text = Return result.
Proof.
  split.
  - intros H. destruct (accounts_loop_spec items text H) as (blocks & -> & _).
    eauto.
  - revert text. induction items as [|[k account] items IH]; intros text.
    + intros _. constructor.
    + intros [result H].
      change (outcome_bind (fst (BankAccount.get_account_details account))
                (λ details, BankingSystem.accounts_loop items
                   (text +:+ details +:+ BankAccount.border +:+ "
")) = Return result) in H.
      destruct (fst (BankAccount.get_account_details account))
        as [details|e] eqn:E; [|done].
      apply Forall_cons. split.
      * apply get_account_details_returns. eauto.
      * apply (IH (text +:+ details +:+ BankAccount.border +:+ "
")). eauto.
Qed.

Lemma accounts_loop_raises (items : list (string * BankAccount.t))
    (text : string) (e : exn) :
  BankingSystem.accounts_loop items text = Raise e → e = overflow_error.
Proof.
  revert text. induction items as [|[k account] items IH]; intros text;
    [done|].
  intros H.
  change (outcome_bind (fst (BankAccount.get_account_details account))
            (λ details, BankingSystem.accounts_loop items
               (text +:+ details +:+ BankAccount.border +:+ "
")) = Raise e) in H.
  destruct (fst (BankAccount.get_account_details account))
    as [details|e'] eqn:E.
  - by apply IH in H.
  - injection H as <-. eauto using get_account_details_raises.
Qed.

(** X15: [list_all_accounts], where [items] are the entries of the
    dictionary in the order it yields them.  The ledger is unchanged; an
    empty ledger gives the fixed message; the call returns exactly when
    every stored balance converts to [float], and then the text is the
    header followed by one block per stored account, in that order; the
    only exception is the [OverflowError] of formatting a balance. *)
Theorem list_all_accounts_spec (items : list (string * BankAccount.t))
    (self : BankingSystem.t) :
  items ≡ₚ map_to_list (BankingSystem.accounts self) →
  snd (BankingSystem.list_all_accounts items self) = self
  ∧ (BankingSystem.accounts self = ∅ →
     fst (BankingSystem.list_all_accounts items self)
     = Return "No accounts in the system.")
  ∧ (map_Forall (λ _ account, convertible (BankAccount.balance account))
       (BankingSystem.accounts self)
     ↔ ∃ text, fst (BankingSystem.list_all_accounts items self) = Return text)
  ∧ (BankingSystem.accounts self ≠ ∅ →
     ∀ text,
       fst (BankingSystem.list_all_accounts items self) = Return text →
       ∃ blocks,
         text = BankAccount.border +:+ "
List of All Accounts:
" +:+ BankAccount.border +:+ "
" +:+ join blocks
         ∧ Forall2 block_of items blocks
         ∧ length blocks = size (BankingSystem.accounts self))
  ∧ (∀ e, fst (BankingSystem.list_all_accounts items self) = Raise e →
          e = overflow_error).
Proof.
  intros Hitems.
  assert (map_Forall (λ _ account, convertible (BankAccount.balance account))
            (BankingSystem.accounts self)
          ↔ Forall (λ item, convertible (BankAccount.balance item.2)) items)
    as Hall.
  { rewrite map_Forall_to_list, Hitems. apply Forall_proper; [|done].
    by intros [k account]. }
  unfold BankingSystem.list_all_accounts.
  destruct (decide (BankingSystem.accounts self = ∅)) as [Hempty|Hne]; simpl.
  - split; [done|]. split; [done|]. split; [|split; [done|done]].
    split; [eauto|]. intros _. rewrite Hempty. apply map_Forall_empty.
  - split; [done|]. split; [done|]. split; [|split].
    + by rewrite Hall, accounts_loop_returns.
    + intros _ text Htext.
      assert (Forall (λ item, convertible (BankAccount.balance item.2)) items)
        as Hconv by (eapply accounts_loop_returns; eauto).
      match type of Htext with
      | BankingSystem.accounts_loop _ ?header = _ =>
          destruct (accounts_loop_spec items header Hconv)
            as (blocks & Hloop & Hblocks)
      end.
      rewrite Hloop in Htext. injection Htext as <-.
      exists blocks. split; [by rewrite !append_assoc|]. split; [done|].
      rewrite <- (Forall2_length _ _ _ Hblocks), Hitems.
      apply length_map_to_list.
    + intros e. apply accounts_loop_raises.
Qed.

Lemma list_all_accounts_spec_witness :
  snd (BankingSystem.list_all_accounts sample_items sample_ledger)
  = sample_ledger
  ∧ (BankingSystem.accounts sample_ledger = ∅ →
     fst (BankingSystem.list_all_accounts sample_items sample_ledger)
     = Return "No accounts in the system.")
  ∧ (map_Forall (λ _ account, convertible (BankAccount.balance account))
       (BankingSystem.accounts sample_ledger)
     ↔ ∃ text, fst (BankingSystem.list_all_accounts sample_items sample_ledger)
               = Return text)
  ∧ (BankingSystem.accounts sample_ledger ≠ ∅ →
     ∀ text,
       fst (BankingSystem.list_all_accounts sample_items sample_ledger)
       = Return text →
       ∃ blocks,
         text = BankAccount.border +:+ "
List of All Accounts:
" +:+ BankAccount.border +:+ "
" +:+ join blocks
         ∧ Forall2 block_of sample_items blocks
         ∧ length blocks = size (BankingSystem.accounts sample_ledger))
  ∧ (∀ e, fst (BankingSystem.list_all_accounts sample_items sample_ledger)
          = Raise e →
          e = overflow_error).
Proof.
  apply (list_all_accounts_spec sample_items sample_ledger).
  vm_compute. apply perm_swap.
Defined.

(** ** What every stored account satisfies *)

Lemma do_call_inv (Q : string → BankAccount.t → Prop) (R : call → Prop) :
  (∀ uuid4 today name v type account,
     R (CreateAccount uuid4 today name v type) →
     BankAccount.__init__ uuid4 today name v type = Return account →
     Q (BankAccount.account_number account) account) →
  (∀ k o account,
     (R (Deposit k (operation_now o) (operation_amount o))
      ∨ R (Withdraw k (operation_now o) (operation_amount o))) →
     Q k account → Q k (snd (apply_operation o account))) →
  ∀ c self,
    R c →
    map_Forall Q (BankingSystem.accounts self) →
    map_Forall Q (BankingSystem.accounts (do_call c self)).
Proof.
  intros Hcreate Hop c self Hc Hself.
  destruct c as [uuid4 today name v type|k0|k0 now v|k0 now v]; simpl.
  - unfold BankingSystem.create_account.
    destruct (BankAccount.__init__ uuid4 today name v type)
      as [account|e] eqn:E; [|by destruct e].
    simpl. apply map_Forall_insert_2; [|done]. by eapply Hcreate.
  - unfold BankingSystem.delete_account.
    destruct (BankingSystem.accounts self !! k0) as [old|] eqn:E; [|done].
    simpl. by apply map_Forall_delete.
  - unfold on_account.
    destruct (BankingSystem.accounts self !! k0) as [account|] eqn:E; [|done].
    simpl. apply map_Forall_insert_2; [|done].
    apply (Hop k0 (Op_deposit now v) account); [by left|].
    by apply Hself.
  - unfold on_account.
    destruct (BankingSystem.accounts self !! k0) as [account|] eqn:E; [|done].
    simpl. apply map_Forall_insert_2; [|done].
    apply (Hop k0 (Op_withdraw now v) account); [by right|].
    by apply Hself.
Qed.

Lemma do_calls_inv (Q : string → BankAccount.t → Prop) (R : call → Prop) :
  (∀ uuid4 today name v type account,
     R (CreateAccount uuid4 today name v type) →
     BankAccount.__init__ uuid4 today name v type = Return account →
     Q (BankAccount.account_number account) account) →
  (∀ k o account,
     (R (Deposit k (operation_now o) (operation_amount o))
      ∨ R (Withdraw k (operation_now o) (operation_amount o))) →
     Q k account → Q k (snd (apply_operation o account))) →
  ∀ cs self,
    Forall R cs →
    map_Forall Q (BankingSystem.accounts self) →
    map_Forall Q (BankingSystem.accounts (do_calls cs self)).
Proof.
  intros Hcreate Hop cs.
  induction cs as [|c cs IH]; intros self Hcs Hself; [done|].
  apply Forall_cons in Hcs as [Hc Hcs].
  apply (IH (do_call c self) Hcs). by apply (do_call_inv Q R).
Qed.

Lemma apply_operation_account_number (o : operation) (account : BankAccount.t) :
  BankAccount.account_number (snd (apply_operation o account))
  = BankAccount.account_number account.
Proof.
  by destruct (apply_operation_step o account)
    as [->|(a & b' & ty & rec & _ & _ & -> & _)].
Qed.

(** X16: in a ledger reached by any calls, every account is stored under
    its own account number, so the identifier a user types and the number
    the account reports never differ. *)
Theorem stored_under_own_number (cs : list call) (k : string)
    (account : BankAccount.t) :
  BankingSystem.accounts (do_calls cs BankingSystem.__init__) !! k
  = Some account →
  BankAccount.account_number account = k.
Proof.
  revert k account.
  apply (do_calls_inv (λ k account, BankAccount.account_number account = k)
           (λ _, True)).
  - done.
  - intros k o account _ <-. apply apply_operation_account_number.
  - by apply Forall_true.
  - apply map_Forall_empty.
Qed.

Lemma stored_under_own_number_witness :
  BankAccount.account_number
    sample_stored
  = "b22".
Proof.
  apply (stored_under_own_number sample_calls "b22"). vm_compute. reflexivity.
Defined.

(** X17: when the arguments are data Python can hold, no account stored
    in a ledger ever has a balance below zero, whatever calls were made
    on the ledger and on its accounts; the stored balance is the opening
    balance of that account with its recorded amounts added one after
    the other. *)
Theorem stored_balances_never_negative (cs : list call) (k : string)
    (account : BankAccount.t) :
  Forall call_ok cs →
  BankingSystem.accounts (do_calls cs BankingSystem.__init__) !! k
  = Some account →
  Py.lt (BankAccount.balance account) Py.zero = false
  ∧ ∃ opening,
      Py.lt opening Py.zero = false
      ∧ accumulate opening (BankAccount.transactions account)
        = Return (BankAccount.balance account).
Proof.
  intros Hcs Hk.
  assert (∃ opening, Py.lt opening Py.zero = false ∧ account_inv opening account)
    as (opening & Hopening & Hlt & _ & Hacc); [|eauto].
  revert k account Hk.
  apply (do_calls_inv
           (λ _ account, ∃ opening, Py.lt opening Py.zero = false
                                    ∧ account_inv opening account)
           call_ok); [| |done|apply map_Forall_empty].
  - intros uuid4 today name v type account0 Hv Hnew.
    destruct (init_returns _ _ _ _ _ _ Hnew) as (-> & Hnonneg & Htxs).
    exists (BankAccount.balance account0). split; [done|].
    repeat split; [done| |by rewrite Htxs].
    simpl in Hv. destruct (BankAccount.balance account0); try done.
    by apply float_ok_mantissa_ok.
  - intros k0 o account0 Hok (opening & Hopening & Hinv).
    exists opening. split; [done|]. apply apply_operation_inv; [|done].
    by destruct Hok.
Qed.

Lemma stored_balances_never_negative_witness :
  Py.lt (BankAccount.balance
           sample_stored) Py.zero = false
  ∧ ∃ opening,
      Py.lt opening Py.zero = false
      ∧ accumulate opening
          (BankAccount.transactions
             sample_stored)
        = Return (BankAccount.balance
                    sample_stored).
Proof.
  apply (stored_balances_never_negative sample_calls "b22").
  - repeat constructor.
  - vm_compute. reflexivity.
Defined.

(** ** Opening and closing accounts *)

(** X18: opening an account under an identifier that is not in use and
    deleting that identifier gives back the ledger as it was, whether the
    account was accepted or refused. *)
Theorem create_delete_round_trip (self : BankingSystem.t) (uuid4 : string)
    (today : date) (name : string) (initial_balance : Py.value)
    (account_type : string) :
  BankingSystem.accounts self !! uuid4 = None →
  snd (BankingSystem.delete_account uuid4
         (snd (BankingSystem.create_account uuid4 today name initial_balance
                 account_type self)))
  = self.
Proof.
  intros Hfresh. destruct self as [accounts]. simpl in Hfresh.
  unfold BankingSystem.create_account.
  destruct (BankAccount.__init__ uuid4 today name initial_balance account_type)
    as [account|e] eqn:E.
  - rewrite (init_account_number _ _ _ _ _ _ E).
    unfold BankingSystem.delete_account. simpl.
    rewrite lookup_insert_eq. simpl. by rewrite delete_insert_id.
  - assert (BankingSystem.delete_account uuid4 {| BankingSystem.accounts := accounts |}
            = (Return ("Account " +:+ uuid4 +:+ " not found."),
               {| BankingSystem.accounts := accounts |})) as Hdel.
    { unfold BankingSystem.delete_account. simpl. by rewrite Hfresh. }
    destruct e; simpl; by rewrite Hdel.
Qed.

Lemma create_delete_round_trip_witness :
  snd (BankingSystem.delete_account "decaf"
         (snd (BankingSystem.create_account "decaf" sample_today "Dan"
                 (Py.VNum (Py.PyInt 10)) "Savings" sample_ledger)))
  = sample_ledger.
Proof.
  apply (create_delete_round_trip sample_ledger "decaf" sample_today "Dan"
           (Py.VNum (Py.PyInt 10)) "Savings").
  vm_compute. reflexivity.
Defined.

(** X19: [create_account] never raises, whatever it is given; it changes
    the ledger at the generated identifier only, and the number of
    accounts grows by one when that identifier was not in use and stays
    as it is otherwise. *)
Theorem create_account_never_raises (self : BankingSystem.t) (uuid4 : string)
    (today : date) (name : string) (initial_balance : Py.value)
    (account_type : string) :
  let result :=
    BankingSystem.create_account uuid4 today name initial_balance
      account_type self in
  (∃ message, fst result = Return message)
  ∧ (∀ k, k ≠ uuid4 →
          BankingSystem.accounts (snd result) !! k
          = BankingSystem.accounts self !! k)
  ∧ (size (BankingSystem.accounts (snd result))
     = size (BankingSystem.accounts self)
     ∨ (BankingSystem.accounts self !! uuid4 = None
        ∧ size (BankingSystem.accounts (snd result))
          = S (size (BankingSystem.accounts self)))).
Proof.
  intros result. unfold result, BankingSystem.create_account.
  destruct (BankAccount.__init__ uuid4 today name initial_balance account_type)
    as [account|e] eqn:E.
  - rewrite (init_account_number _ _ _ _ _ _ E). simpl.
    split; [eauto|]. split.
    + intros k Hk. by rewrite lookup_insert_ne.
    + destruct (BankingSystem.accounts self !! uuid4) as [old|] eqn:Eold.
      * left. by rewrite map_size_insert_Some.
      * right. split; [done|]. by rewrite map_size_insert_None.
  - unfold BankAccount.__init__ in E.
    destruct (Py.isinstance_int_float initial_balance) as [b|].
    + destruct (Py.lt b Py.zero); [|done]. injection E as <-. simpl. eauto.
    + injection E as <-. simpl. eauto.
Qed.

(** X20: an identifier that is generated twice is not detected: the new
    account takes the place of the one stored under it, whose balance and
    transactions are gone, and the number of accounts stays as it is. *)
Theorem create_account_collision (self : BankingSystem.t) (uuid4 : string)
    (today : date) (name : string) (b : Py.number) (account_type : string)
    (old : BankAccount.t) :
  BankingSystem.accounts self !! uuid4 = Some old →
  Py.lt b Py.zero = false →
  let result :=
    BankingSystem.create_account uuid4 today name (Py.VNum b) account_type
      self in
  fst result
  = Return ("Account created successfully. Account number: " +:+ uuid4)
  ∧ BankingSystem.accounts (snd result) !! uuid4
    = Some {| BankAccount.account_number := uuid4;
              BankAccount.account_holder_name := name;
              BankAccount.balance := b;
              BankAccount.account_type := account_type;
              BankAccount.transactions := [];
              BankAccount.creation_date := today |}
  ∧ size (BankingSystem.accounts (snd result))
    = size (BankingSystem.accounts self).
Proof.
  intros Hold Hb result. unfold result.
  unfold BankingSystem.create_account, BankAccount.__init__. simpl.
  rewrite Hb. simpl. split; [done|]. split.
  - by rewrite lookup_insert_eq.
  - by rewrite map_size_insert_Some.
Qed.

Lemma create_account_collision_witness :
  fst (BankingSystem.create_account "c0ffee" sample_today "Mallory"
         (Py.VNum (Py.PyInt 0)) "Checking" sample_ledger)
  = Return ("Account created successfully. Account number: " +:+ "c0ffee")
  ∧ BankingSystem.accounts
      (snd (BankingSystem.create_account "c0ffee" sample_today "Mallory"
              (Py.VNum (Py.PyInt 0)) "Checking" sample_ledger)) !! "c0ffee"
    = Some {| BankAccount.account_number := "c0ffee";
              BankAccount.account_holder_name := "Mallory";
              BankAccount.balance := Py.PyInt 0;
              BankAccount.account_type := "Checking";
              BankAccount.transactions := [];
              BankAccount.creation_date := sample_today |}
  ∧ size (BankingSystem.accounts
            (snd (BankingSystem.create_account "c0ffee" sample_today "Mallory"
                    (Py.VNum (Py.PyInt 0)) "Checking" sample_ledger)))
    = size (BankingSystem.accounts sample_ledger).
Proof.
  apply (create_account_collision sample_ledger "c0ffee" sample_today
           "Mallory" (Py.PyInt 0) "Checking" (sample_account (Py.PyInt 120)));
    vm_compute; reflexivity.
Defined.

Lemma not_below_zero (b : Py.number) :
  Py.lt b Py.zero = false ↔ Py.le Py.zero b = true ∨ b = not_a_number.
Proof.
  unfold Py.lt, Py.le. rewrite (compare_antisym b Py.zero). split.
  - destruct (Py.compare b Py.zero) as [[]|] eqn:E; simpl; try done; eauto.
    intros _. right. unfold Py.compare in E.
    by destruct b as [| |[]].
  - intros [H| ->]; [|done]. by destruct (Py.compare b Py.zero) as [[]|].
Qed.

(** X21: [create_account] stores the account exactly when the initial
    balance is a number that is not below zero: that is a number [>= 0]
    or the float not-a-number, which is accepted as an opening balance. *)
Theorem create_account_accepts (self : BankingSystem.t) (uuid4 : string)
    (today : date) (name : string) (b : Py.number) (account_type : string) :
  fst (BankingSystem.create_account uuid4 today name (Py.VNum b) account_type
         self)
  = Return ("Account created successfully. Account number: " +:+ uuid4)
  ↔ Py.le Py.zero b = true ∨ b = not_a_number.
Proof.
  rewrite <- not_below_zero.
  unfold BankingSystem.create_account, BankAccount.__init__. simpl.
  destruct (Py.lt b Py.zero); simpl; split; try done.
Qed.

(** ** Calls on different accounts *)






(** * The page script *)

Lemma create_account_cases (self : BankingSystem.t) (uuid4 : string)
    (today : date) (name : string) (initial_balance : Py.value)
    (account_type : string) :
  (∃ message account,
     BankingSystem.create_account uuid4 today name initial_balance
       account_type self
     = (Return message,
        {| BankingSystem.accounts :=
             <[uuid4 := account]> (BankingSystem.accounts self) |}))
  ∨ (∃ message,
       BankingSystem.create_account uuid4 today name initial_balance
         account_type self
       = (Return message, self)).
Proof.
  unfold BankingSystem.create_account.
  destruct (BankAccount.__init__ uuid4 today name initial_balance account_type)
    as [account|e] eqn:E.
  - left. rewrite (init_account_number _ _ _ _ _ _ E). eauto.
  - right. unfold BankAccount.__init__ in E.
    destruct (Py.isinstance_int_float initial_balance) as [b|].
    + destruct (Py.lt b Py.zero); [|done]. injection E as <-. eauto.
    + injection E as <-. eauto.
Qed.

(** A run whose choice is known. *)
Local Ltac known_choice :=
  unfold App.account_choices; rewrite !elem_of_cons, elem_of_nil;
  vm_compute; intuition (discriminate || lia || auto).

(** X24: one run of the script never raises and ends with at most one
    account in the ledger, because it starts from a new ledger: whatever
    account number is typed, a deposit, a withdrawal, a balance check, the
    details and the history answer "Account not found.", the listing
    answers "No accounts in the system.", and a deletion answers that the
    account was not found; only the creation branch changes the
    ledger. *)
Theorem script_starts_from_new_ledger (w : App.widgets) (c : App.clock) :
  let result := App.script w c in
  fst result = Return tt
  ∧ (size (BankingSystem.accounts (App.banking_system (snd result))) ≤ 1)%nat
  ∧ (App.choice w ≠ "Create Account" →
     App.banking_system (snd result) = BankingSystem.__init__)
  ∧ (App.button w = true →
     (App.choice w ∈ App.account_choices →
      App.page (snd result)
      = [App.Title "Banking System"; App.Subheader (App.choice w);
         App.Warning "Account not found."])
     ∧ (App.choice w = "List All Accounts" →
        App.page (snd result)
        = [App.Title "Banking System"; App.Subheader "List All Accounts";
           App.Text "No accounts in the system."])
     ∧ (App.choice w = "Delete Account" →
        App.page (snd result)
        = [App.Title "Banking System"; App.Subheader "Delete Account";
           App.Success ("Account " +:+ App.account_number w
                        +:+ " not found.")])).
Proof.
  destruct w as [choice name initial type number amount button].
  destruct c as [uuid4 today now].
  unfold App.script, App.body. cbn [App.choice App.button App.account_number
    App.account_holder_name App.initial_balance App.account_type App.amount
    App.uuid4 App.today App.now].
  destruct (String.eqb_spec choice "Create Account") as [->|H1].
  { destruct button; [|known_choice].
    unfold App.account_choices. rewrite !elem_of_cons, elem_of_nil.
    unfold bind, App.on_system, App.st, update. simpl.
    destruct (create_account_cases BankingSystem.__init__ uuid4 today name
                initial type) as [(message & account & ->)|(message & ->)];
      simpl.
    - rewrite insert_empty, map_size_singleton.
      intuition (discriminate || lia || auto).
    - rewrite map_size_empty. intuition (discriminate || lia || auto). }
  destruct (String.eqb_spec choice "Deposit") as [->|H2];
    [destruct button; known_choice|].
  destruct (String.eqb_spec choice "Withdraw") as [->|H3];
    [destruct button; known_choice|].
  destruct (String.eqb_spec choice "Check Balance") as [->|H4];
    [destruct button; known_choice|].
  destruct (String.eqb_spec choice "Account Details") as [->|H5];
    [destruct button; known_choice|].
  destruct (String.eqb_spec choice "Transaction History") as [->|H6];
    [destruct button; known_choice|].
  destruct (String.eqb_spec choice "List All Accounts") as [->|H7];
    [destruct button; known_choice|].
  destruct (String.eqb_spec choice "Delete Account") as [->|H8];
    [destruct button; known_choice|].
  unfold App.account_choices. rewrite !elem_of_cons, elem_of_nil.
  simpl. rewrite map_size_empty. intuition (discriminate || lia || auto).
Qed.
